(** * StravaMetrics: the training-load and performance-estimation module

    A shallow embedding of the [StravaMetrics] class (the "metrics
    calculator" of the running dashboard) and the properties its
    specification states about it.

    Modelling conventions.
    - A JavaScript number is a [num]: an exact rational, or one of the IEEE
      special values [NaN], [+Infinity], [-Infinity].  Arithmetic on finite
      values is exact (binary64 rounding error, overflow and the sign of
      zero are outside the model); the special values follow ECMAScript
      (quiet [NaN], division by zero, comparisons with [NaN] false).
      Where a value sits on the boundary of a [Math.floor] or [Math.round]
      the exact result and the binary64 result can differ by one step: the
      statements below give a floored or rounded result by the expression
      the code evaluates, or keep a margin from the boundary.
    - An absent property of a record reads as [undefined]; the fields of the
      records are therefore [option]s and [ToNumber undefined = NaN].
    - Reading a property of [undefined] raises a [TypeError]: the methods
      that can do so return a [completion].
    - What ECMAScript leaves to the host (the clock, the time zone, date
      parsing, the approximation [Math.exp]) is gathered in a [Host]
      record; the time zone is a fixed offset from UTC (no daylight-saving
      transitions).
    - Strings are byte strings; [toLowerCase] acts on ASCII letters.
    - [Array.prototype.sort] is a stable insertion sort (ECMAScript fixes
      the result when the comparator is consistent), and the object
      [getDailyTSS] fills is a finite map from date keys to numbers (the
      properties inherited from [Object.prototype] are not modelled).

    The development also covers the polyline decoder of the dashboard's
    activity map ([decodePolyline]).  There the bitwise operators act on
    32-bit integers, the running coordinates are exact integers, and the
    cursor into the input is kept as the rest of the string. *)

From stdpp Require Import gmap strings.
From Stdlib Require Import ZArith QArith Qround Qreduction Qabs.
From Stdlib Require Qcanon.
From Stdlib Require Import String Ascii List Bool Lia Lqa DecimalString.
From Stdlib Require Import Sorted.
Import ListNotations.

Set Default Proof Using "Type*".

(* ================================================================== *)
(** * The JavaScript runtime the class relies on                       *)
(* ================================================================== *)

Module JS.

(** ** Numbers *)

Inductive num : Type :=
  | NaN
  | PInf
  | NInf
  | Fin (q : Q).

Coercion Fin : Q >-> num.

(** Finite results are kept in lowest terms, so that two computations of
    the same rational are equal terms. *)
Definition fin (q : Q) : num := Fin (Qred q).

Definition add (x y : num) : num :=
  match x, y with
  | NaN, _ | _, NaN => NaN
  | PInf, NInf | NInf, PInf => NaN
  | PInf, _ | _, PInf => PInf
  | NInf, _ | _, NInf => NInf
  | Fin a, Fin b => fin (a + b)
  end.

Definition sub (x y : num) : num :=
  match x, y with
  | NaN, _ | _, NaN => NaN
  | PInf, PInf | NInf, NInf => NaN
  | PInf, _ | _, NInf => PInf
  | NInf, _ | _, PInf => NInf
  | Fin a, Fin b => fin (a - b)
  end.

(** The sign of an infinity scaled by a finite factor. *)
Definition scale_inf (pos : bool) (q : Q) : num :=
  match q ?= 0 with
  | Eq => NaN
  | Gt => if pos then PInf else NInf
  | Lt => if pos then NInf else PInf
  end.

Definition mul (x y : num) : num :=
  match x, y with
  | NaN, _ | _, NaN => NaN
  | PInf, PInf | NInf, NInf => PInf
  | PInf, NInf | NInf, PInf => NInf
  | PInf, Fin q | Fin q, PInf => scale_inf true q
  | NInf, Fin q | Fin q, NInf => scale_inf false q
  | Fin a, Fin b => fin (a * b)
  end.

Definition div (x y : num) : num :=
  match x, y with
  | NaN, _ | _, NaN => NaN
  | (PInf | NInf), (PInf | NInf) => NaN
  | PInf, Fin q => if Qle_bool 0 q then PInf else NInf
  | NInf, Fin q => if Qle_bool 0 q then NInf else PInf
  | Fin _, (PInf | NInf) => Fin 0
  | Fin a, Fin b =>
      if Qeq_bool b 0 then
        match a ?= 0 with
        | Eq => NaN
        | Gt => PInf
        | Lt => NInf
        end
      else fin (a / b)
  end.

(** [x < y] and [x <= y]; every comparison with [NaN] is false. *)
Definition ltb (x y : num) : bool :=
  match x, y with
  | NaN, _ | _, NaN => false
  | _, NInf => false
  | PInf, _ => false
  | NInf, _ => true
  | _, PInf => true
  | Fin a, Fin b => negb (Qle_bool b a)
  end.

Definition leb (x y : num) : bool :=
  match x, y with
  | NaN, _ | _, NaN => false
  | NInf, _ => true
  | _, PInf => true
  | _, NInf => false
  | PInf, _ => false
  | Fin a, Fin b => Qle_bool a b
  end.

Definition gtb (x y : num) : bool := ltb y x.
Definition geb (x y : num) : bool := leb y x.

(** ToBoolean on a number: [0] and [NaN] are falsy. *)
Definition truthy (x : num) : bool :=
  match x with
  | NaN => false
  | PInf | NInf => true
  | Fin q => negb (Qeq_bool q 0)
  end.

(** Truncation towards zero. *)
Definition Qtrunc (q : Q) : Z :=
  if Qle_bool 0 q then Qfloor q else Qceiling q.

(** The remainder operator [%]: the result has the sign of the dividend. *)
Definition rem (x y : num) : num :=
  match x, y with
  | NaN, _ | _, NaN => NaN
  | (PInf | NInf), _ => NaN
  | Fin a, (PInf | NInf) => Fin a
  | Fin a, Fin b =>
      if Qeq_bool b 0 then NaN
      else fin (a - b * inject_Z (Qtrunc (a / b)))
  end.

Definition Math_floor (x : num) : num :=
  match x with
  | Fin q => Fin (inject_Z (Qfloor q))
  | _ => x
  end.

(** [Math.round]: the nearest integer, ties towards [+Infinity]. *)
Definition Math_round (x : num) : num :=
  match x with
  | Fin q => Fin (inject_Z (Qfloor (q + (1 # 2))))
  | _ => x
  end.

Definition Math_abs (x : num) : num :=
  match x with
  | NaN => NaN
  | PInf | NInf => PInf
  | Fin q => fin (Qabs q)
  end.

Definition Math_max2 (x y : num) : num :=
  match x, y with
  | NaN, _ | _, NaN => NaN
  | _, _ => if ltb x y then y else x
  end.

Definition Math_min2 (x y : num) : num :=
  match x, y with
  | NaN, _ | _, NaN => NaN
  | _, _ => if ltb y x then y else x
  end.

(** [Math.max(...xs)]: [-Infinity] on no argument. *)
Definition Math_max (xs : list num) : num := fold_left Math_max2 xs NInf.

(** ToNumber on a property that may be absent. *)
Definition toNum (v : option num) : num :=
  match v with
  | Some x => x
  | None => NaN
  end.

(** ToBoolean on a property that may be absent. *)
Definition truthy_opt (v : option num) : bool :=
  match v with
  | Some x => truthy x
  | None => false
  end.

Definition truthy_flag (v : option bool) : bool :=
  match v with
  | Some b => b
  | None => false
  end.

(** [a || b] on two numeric properties: the first one when it is truthy. *)
Definition or_else (a b : option num) : option num :=
  if truthy_opt a then a else b.

Declare Scope num_scope.
Delimit Scope num_scope with num.
Bind Scope num_scope with num.
Infix "+" := add : num_scope.
Infix "-" := sub : num_scope.
Infix "*" := mul : num_scope.
Infix "/" := div : num_scope.
Infix "%%" := rem (at level 40, left associativity) : num_scope.
Infix "<?" := ltb : num_scope.
Infix "<=?" := leb : num_scope.
Infix ">?" := gtb : num_scope.
Infix ">=?" := geb : num_scope.

(** ** Completions *)

Inductive exn : Type := TypeError | RangeError.

(** The outcome of a method call: a value, or a thrown exception. *)
Inductive completion (A : Type) : Type :=
  | Ok (a : A)
  | Throw (e : exn).
Arguments Ok {A} a.
Arguments Throw {A} e.

Definition bind {A B} (c : completion A) (k : A -> completion B) : completion B :=
  match c with
  | Ok a => k a
  | Throw e => Throw e
  end.

Notation "'let*' x ':=' c 'in' k" := (bind c (fun x => k))
  (at level 10, x name, c at level 100, k at level 200).

(** [xs.map(f)] where [f] may throw: the first exception ends the call. *)
Fixpoint mapM {A B} (f : A -> completion B) (xs : list A) : completion (list B) :=
  match xs with
  | [] => Ok []
  | x :: xs' =>
      let* y := f x in
      let* ys := mapM f xs' in
      Ok (y :: ys)
  end.

(** [xs.filter(p)] where [p] may throw. *)
Fixpoint filterM {A} (p : A -> completion bool) (xs : list A) : completion (list A) :=
  match xs with
  | [] => Ok []
  | x :: xs' =>
      let* b := p x in
      let* ys := filterM p xs' in
      Ok (if b then x :: ys else ys)
  end.

(** ** Arrays *)

Section Sort.
Context {A : Type}.
(** The comparator's verdict [cmp x y > 0]: [x] goes after [y].  A [NaN]
    verdict counts as [0]. *)
Variable cmp : A -> A -> num.

Fixpoint sort_insert (x : A) (ys : list A) : list A :=
  match ys with
  | [] => [x]
  | y :: ys' =>
      if (cmp x y >? Fin 0)%num then y :: sort_insert x ys' else x :: ys
  end.

(** [Array.prototype.sort(cmp)]: a stable sort, here by insertion. *)
Fixpoint sort (xs : list A) : list A :=
  match xs with
  | [] => []
  | x :: xs' => sort_insert x (sort xs')
  end.
End Sort.

(** [xs.reduce(f)] without an initial value, on a non-empty array. *)
Definition reduce1 {A} (f : A -> A -> A) (x : A) (xs : list A) : A :=
  fold_left f xs x.

(** ** Strings *)

Definition lower_ascii (c : ascii) : ascii :=
  let n := nat_of_ascii c in
  if (Nat.leb 65 n && Nat.leb n 90)%bool then ascii_of_nat (n + 32) else c.

Fixpoint toLowerCase (s : string) : string :=
  match s with
  | EmptyString => EmptyString
  | String c s' => String (lower_ascii c) (toLowerCase s')
  end.

(** [s.includes(pat)]. *)
Fixpoint includes (pat s : string) : bool :=
  match s with
  | EmptyString => String.prefix pat EmptyString
  | String _ s' => (String.prefix pat s || includes pat s')%bool
  end.

(** [s.split(sep)[0]]: the part of [s] before the first [sep]. *)
Fixpoint split_head (sep : ascii) (s : string) : string :=
  match s with
  | EmptyString => EmptyString
  | String c s' =>
      if Ascii.eqb c sep then EmptyString else String c (split_head sep s')
  end.

Fixpoint repeat_char (c : ascii) (n : nat) : string :=
  match n with
  | O => EmptyString
  | S n' => String c (repeat_char c n')
  end.

(** [s.padStart(n, c)]. *)
Definition padStart (n : nat) (c : ascii) (s : string) : string :=
  (repeat_char c (n - String.length s) ++ s)%string.

(** The decimal digits of an integer. *)
Definition Z_toString (z : Z) : string := NilZero.string_of_int (Z.to_int z).

(** ** Dates *)

Definition msPerDay : Z := 86400000.
Definition maxTime : Z := 8640000000000000.

(** A time value: milliseconds since the epoch, [None] for an invalid date. *)
Definition Date : Type := option Z.

Definition TimeClip (t : Z) : Date :=
  if (Z.abs t <=? maxTime)%Z then Some t else None.

Definition valueOf (d : Date) : num :=
  match d with
  | Some t => Fin (inject_Z t)
  | None => NaN
  end.

(** The civil date [(year, month, day)] of a day number (days since
    1970-01-01), in the proleptic Gregorian calendar. *)
Definition civil_from_days (day : Z) : Z * Z * Z :=
  let z := (day + 719468)%Z in
  let era := (z / 146097)%Z in
  let doe := (z - era * 146097)%Z in
  let yoe := ((doe - doe / 1460 + doe / 36524 - doe / 146096) / 365)%Z in
  let doy := (doe - (365 * yoe + yoe / 4 - yoe / 100))%Z in
  let mp := ((5 * doy + 2) / 153)%Z in
  let d := (doy - (153 * mp + 2) / 5 + 1)%Z in
  let m := (if (mp <? 10)%Z then mp + 3 else mp - 9)%Z in
  let y := (yoe + era * 400 + (if (m <=? 2)%Z then 1 else 0))%Z in
  (y, m, d).

Definition pad_digits (n : nat) (z : Z) : string :=
  padStart n "0"%char (Z_toString z).

(** The day number [day] written [YYYY-MM-DD] (extended years take a sign
    and six digits). *)
Definition iso_date (day : Z) : string :=
  let '(y, m, d) := civil_from_days day in
  let year :=
    if ((0 <=? y) && (y <=? 9999))%Z%bool then pad_digits 4 y
    else ((if (y <? 0)%Z then "-" else "+") ++ pad_digits 6 (Z.abs y))%string in
  (year ++ "-" ++ pad_digits 2 m ++ "-" ++ pad_digits 2 d)%string.

(** ** The host *)

Record Host : Type := {
  (** [Math.exp], an implementation-approximated function. *)
  Math_exp : num -> num;
  (** The time value [new Date(s)] parses from a string. *)
  Date_parse : string -> Date;
  (** The clock read by [new Date()]. *)
  Date_now : Z;
  (** The offset of local time from UTC, in milliseconds. *)
  LocalTZA : Z;
  (** Number-to-string conversion of a value that is not an integer below
      [10^21] in magnitude (its digits depend on the binary64 value). *)
  Number_toString_other : Q -> string
}.

Section Runtime.
Variable host : Host.

(** [new Date()]. *)
Definition Date_new : Date := TimeClip (Date_now host).

(** [new Date(v)] on a string property that may be absent. *)
Definition Date_of (v : option string) : Date :=
  match v with
  | Some s => Date_parse host s
  | None => None
  end.

Definition LocalTime (t : Z) : Z := (t + LocalTZA host)%Z.
Definition UTC (t : Z) : Z := (t - LocalTZA host)%Z.

(** [d.setDate(d.getDate() + k)].  [MakeDay] of the local year and month
    with the day of the month moved by [k] is the local day number moved
    by [k]; the time within the day is kept. *)
Definition Date_addDays (d : Date) (k : Z) : Date :=
  match d with
  | Some t => TimeClip (UTC (LocalTime t + k * msPerDay))
  | None => None
  end.

(** [d.toDateString()], up to the rendering of the local calendar day:
    two results are the same string exactly when both dates are invalid
    or both fall on the same local day. *)
Definition toDateString (d : Date) : option Z :=
  match d with
  | Some t => Some (LocalTime t / msPerDay)%Z
  | None => None
  end.

Definition same_string (a b : option Z) : bool :=
  match a, b with
  | Some x, Some y => (x =? y)%Z
  | None, None => true
  | _, _ => false
  end.

(** [d.toISOString().split('T')[0]]: the UTC calendar date;
    [toISOString] throws on an invalid date. *)
Definition toISODate (d : Date) : completion string :=
  match d with
  | Some t => Ok (iso_date (t / msPerDay))
  | None => Throw RangeError
  end.

(** [d.getFullYear()]. *)
Definition getFullYear (d : Date) : num :=
  match d with
  | Some t =>
      let '(y, _, _) := civil_from_days (LocalTime t / msPerDay) in
      Fin (inject_Z y)
  | None => NaN
  end.

(** ToString on a number. *)
Definition Number_toString (x : num) : string :=
  match x with
  | NaN => "NaN"
  | PInf => "Infinity"
  | NInf => "-Infinity"
  | Fin q =>
      let r := Qred q in
      if ((Zpos (Qden r) =? 1) && (Z.abs (Qnum r) <? 10 ^ 21))%Z%bool
      then Z_toString (Qnum r)
      else Number_toString_other host q
  end.

(** [x.toFixed(2)]: the nearest multiple of [0.01], ties upwards in
    magnitude, with two decimals. *)
Definition toFixed2 (x : num) : string :=
  match x with
  | Fin q =>
      if Qle_bool (inject_Z (10 ^ 21)) (Qabs q) then Number_toString x
      else
        let n := Qfloor (Qabs q * 100 + (1 # 2)) in
        let digits := pad_digits 3 n in
        let k := (String.length digits - 2)%nat in
        ((if Qle_bool 0 q then "" else "-") ++
         substring 0 k digits ++ "." ++ substring k 2 digits)%string
  | _ => Number_toString x
  end.
End Runtime.

End JS.

Import JS.
Local Open Scope num_scope.
Local Open Scope bool_scope.

(* ================================================================== *)
(** * Data model                                                       *)
(* ================================================================== *)

(** An activity record as the data layer hands it over.  Every property
    may be absent. *)
Record Activity : Type := {
  type : option string;
  start_date_local : option string;
  moving_time : option num;
  distance : option num;
  average_heartrate : option num;
  has_heartrate : option bool;
  average_watts : option num;
  weighted_average_watts : option num;
  name : option string
}.

Record Athlete : Type := { created_at : option string }.

Module AthleteData.
Record t : Type := {
  athlete : Athlete;
  activities : option (list Activity)
}.
End AthleteData.

Module TrainingLoadPoint.
Record t : Type := { date : string; ctl : num; atl : num; tsb : num }.
End TrainingLoadPoint.

Module VO2maxSample.
Record t : Type := {
  date : string;
  vo2max : num;
  distance : option num;
  activityName : option string
}.
End VO2maxSample.

Module RacePredictionSet.
Record t : Type := {
  currentVO2max : num;
  predictions : list (string * string)
}.
End RacePredictionSet.

Module PowerCurvePoint.
Record t : Type := {
  duration : num;
  power : num;
  date : string;
  activityName : option string
}.
End PowerCurvePoint.

Module CriticalPower.
Record t : Type := { cp : num; wPrime : num }.
End CriticalPower.

Module PowerCurve.
Record t : Type := {
  curve : list PowerCurvePoint.t;
  criticalPower : option CriticalPower.t
}.
End PowerCurve.

Module IntervalWorkoutSummary.
Record t : Type := {
  date : string;
  name : option string;
  distance : string;
  avgPace : string;
  avgHR : option num;
  avgPower : option num;
  tss : num;
  quality : num
}.
End IntervalWorkoutSummary.

(** The state of a [StravaMetrics] object. *)
Record StravaMetrics : Type := {
  athlete : Athlete;
  activities : list Activity;
  maxHR : num;
  thresholdHR : num;
  restingHR : num;
  ftp : num
}.

(** [s.split('T')[0]] on a string property: a [TypeError] when it is absent. *)
Definition date_part (v : option string) : completion string :=
  match v with
  | Some s => Ok (split_head "T"%char s)
  | None => Throw TypeError
  end.

(** [Math.round(x * 10) / 10]. *)
Definition round1 (x : num) : num := Math_round (x * Fin 10) / Fin 10.

(** [a.weighted_average_watts || a.average_watts]. *)
Definition power_of (a : Activity) : option num :=
  or_else (weighted_average_watts a) (average_watts a).

(* ================================================================== *)
(** * The class                                                        *)
(* ================================================================== *)

Section Class.
Variable host : Host.

Definition calculateAge (createdAt : option string) : num :=
  let accountYear := getFullYear host (Date_of host createdAt) in
  let currentYear := getFullYear host (Date_new host) in
  let yearsActive := currentYear - accountYear in
  Fin 25 + yearsActive.

Definition estimateFTP (activities : list Activity) : num :=
  let activitiesWithPower :=
    List.filter (fun a =>
      truthy_opt (average_watts a) && (toNum (moving_time a) >=? Fin 1200))
      activities in
  if (length activitiesWithPower =? 0)%nat then Fin 250
  else
    let best20Min :=
      List.hd_error
        (sort (fun a b => toNum (power_of b) - toNum (power_of a))
           (List.filter (fun a =>
              (toNum (moving_time a) >=? Fin 1200) &&
              (toNum (moving_time a) <=? Fin 1800))
              activitiesWithPower)) in
    match best20Min with
    | Some best => Math_round (toNum (power_of best) * Fin 0.95)
    | None =>
        let bestAvgWatts :=
          Math_max (List.map (fun a => toNum (average_watts a)) activitiesWithPower) in
        Math_round (bestAvgWatts * Fin 0.75)
    end.

(** The constructor. *)
Definition new_StravaMetrics (athleteData : AthleteData.t) : StravaMetrics :=
  let athlete := AthleteData.athlete athleteData in
  let activities :=
    match AthleteData.activities athleteData with
    | Some l => l
    | None => []
    end in
  let age := calculateAge (created_at athlete) in
  let maxHR := Fin 220 - age in
  {| athlete := athlete;
     activities := activities;
     maxHR := maxHR;
     thresholdHR := Math_round (maxHR * Fin 0.9);
     restingHR := Fin 60;
     ftp := estimateFTP activities |}.

Variable this : StravaMetrics.

Definition calculateTSS (activity : Activity) : num :=
  let durationHours := toNum (moving_time activity) / Fin 3600 in
  if truthy_opt (average_watts activity) && truthy (ftp this) then
    let intensityFactor := toNum (average_watts activity) / ftp this in
    Math_round (durationHours * intensityFactor * intensityFactor * Fin 100)
  else if truthy_flag (has_heartrate activity)
          && truthy_opt (average_heartrate activity) then
    let hrr := (toNum (average_heartrate activity) - restingHR this)
               / (maxHR this - restingHR this) in
    let trimp := toNum (moving_time activity) / Fin 60 * hrr * Fin 0.64
                 * Math_exp host (Fin 1.92 * hrr) in
    Math_round trimp
  else if truthy_opt (distance activity) && truthy_opt (moving_time activity) then
    let paceMinPerKm := (toNum (moving_time activity) / Fin 60)
                        / (toNum (distance activity) / Fin 1000) in
    let intensity :=
      if paceMinPerKm <? Fin 4.5 then Fin 1.2
      else if paceMinPerKm <? Fin 5.5 then Fin 0.8 else Fin 0.5 in
    Math_round (durationHours * Fin 60 * intensity)
  else Fin 0.

(** The activities of the local calendar day of [date], and their
    summed score. *)
Definition tssOn (activities : list Activity) (date : Date) : num :=
  fold_left (fun sum a => sum + calculateTSS a)
    (List.filter (fun a =>
       same_string (toDateString host (Date_of host (start_date_local a)))
                   (toDateString host date))
       activities)
    (Fin 0).

Definition calculateCTL (activities : list Activity) (date : Date)
    (previousCTL : num) : num :=
  let tssToday := tssOn activities date in
  previousCTL + (tssToday - previousCTL)
                * (Fin 1 - Math_exp host (Fin (-1) / Fin 42)).

Definition calculateATL (activities : list Activity) (date : Date)
    (previousATL : num) : num :=
  let tssToday := tssOn activities date in
  previousATL + (tssToday - previousATL)
                * (Fin 1 - Math_exp host (Fin (-1) / Fin 7)).

Definition calculateTSB (ctl atl : num) : num := ctl - atl.

(** The body of the [for] loop of [generateTrainingLoadHistory], run at
    most [fuel] times: [d] is the loop variable, [ctl] and [atl] the
    running state. *)
Fixpoint history_loop (fuel : nat) (sorted : list Activity) (today d : Date)
    (ctl atl : num) : completion (list TrainingLoadPoint.t) :=
  match fuel with
  | O => Ok []
  | S fuel' =>
      if valueOf d <=? valueOf today then
        let ctl := calculateCTL sorted d ctl in
        let atl := calculateATL sorted d atl in
        let tsb := calculateTSB ctl atl in
        let* date := toISODate d in
        let point := {| TrainingLoadPoint.date := date;
                        TrainingLoadPoint.ctl := round1 ctl;
                        TrainingLoadPoint.atl := round1 atl;
                        TrainingLoadPoint.tsb := round1 tsb |} in
        let* rest := history_loop fuel' sorted today (Date_addDays host d 1) ctl atl in
        Ok (point :: rest)
      else Ok []
  end.

(** The number of days from [start] to [today], both included: the loop
    variable moves one day at a time, so the loop ends within that many
    rounds ([history_loop_fuel]). *)
Definition days_between (start today : Date) : nat :=
  match start, today with
  | Some s, Some n => Z.to_nat ((n - s) / msPerDay + 1)
  | _, _ => O
  end.

Definition generateTrainingLoadHistory (daysBack : Z)
    : completion (list TrainingLoadPoint.t) :=
  let sorted :=
    sort (fun a b => valueOf (Date_of host (start_date_local a))
                     - valueOf (Date_of host (start_date_local b)))
      (activities this) in
  let today := Date_new host in
  let startDate := Date_addDays host today (- daysBack) in
  history_loop (days_between startDate today) sorted today startDate
    (Fin 0) (Fin 0).

Definition estimateVO2max (activity : Activity) : option num :=
  if negb (truthy_flag (has_heartrate activity))
     || negb (truthy_opt (average_heartrate activity)) then None
  else if negb (truthy_opt (distance activity))
          || negb (truthy_opt (moving_time activity)) then None
  else
    let paceMetersPerMin :=
      toNum (distance activity) / (toNum (moving_time activity) / Fin 60) in
    let hrPercent := toNum (average_heartrate activity) / maxHR this in
    let speedMPerMin := paceMetersPerMin in
    let vo2 := (Fin 0.2 * speedMPerMin / Fin 5 + Fin 3.5)
               / (hrPercent * Fin 0.85) in
    if (toNum (distance activity) >? Fin 3000) && (hrPercent >? Fin 0.75) then
      let timeMinutes := toNum (moving_time activity) / Fin 60 in
      let distanceKm := toNum (distance activity) / Fin 1000 in
      let velocity := (distanceKm * Fin 1000) / timeMinutes in
      let vdot :=
        (Fin (-4.6) + Fin 0.182258 * velocity
         + Fin 0.000104 * velocity * velocity)
        / (Fin 0.8
           + Fin 0.1894393 * Math_exp host (Fin (-0.012778) * timeMinutes)
           + Fin 0.2989558 * Math_exp host (Fin (-0.1932605) * timeMinutes)) in
      Some (round1 vdot)
    else None.

(** The filter of [generateVO2maxHistory]: quality runs. *)
Definition isQualityRun (a : Activity) : bool :=
  if negb (truthy_flag (has_heartrate a))
     || negb (truthy_opt (average_heartrate a)) then false
  else if negb (truthy_opt (distance a))
          || (toNum (distance a) <? Fin 3000) then false
  else
    let hrPercent := toNum (average_heartrate a) / maxHR this in
    hrPercent >? Fin 0.75.

(** The sanity check on an estimate ([null] is falsy). *)
Definition saneVO2max (v : option num) : bool :=
  match v with
  | Some vo2max =>
      truthy vo2max && (vo2max >? Fin 30) && (vo2max <? Fin 90)
  | None => false
  end.

(** The [for ... of] loop of [generateVO2maxHistory]. *)
Fixpoint vo2max_loop (qualityRuns : list Activity)
    : completion (list VO2maxSample.t) :=
  match qualityRuns with
  | [] => Ok []
  | activity :: rest =>
      let vo2max := estimateVO2max activity in
      if saneVO2max vo2max then
        let* date := date_part (start_date_local activity) in
        let sample := {| VO2maxSample.date := date;
                         VO2maxSample.vo2max := toNum vo2max;
                         VO2maxSample.distance := distance activity;
                         VO2maxSample.activityName := name activity |} in
        let* history := vo2max_loop rest in
        Ok (sample :: history)
      else vo2max_loop rest
  end.

Definition qualityRuns : list Activity :=
  sort (fun a b => valueOf (Date_of host (start_date_local a))
                   - valueOf (Date_of host (start_date_local b)))
    (List.filter isQualityRun (activities this)).

Definition generateVO2maxHistory : completion (list VO2maxSample.t) :=
  vo2max_loop qualityRuns.

Definition predictTime (distanceKm vo2max : num) : string :=
  let velocity := vo2max * Fin 0.2 * distanceKm
                  / (Fin 0.000104 * distanceKm + Fin 0.182258) in
  let timeMinutes := (distanceKm * Fin 1000) / velocity in
  let hours := Math_floor (timeMinutes / Fin 60) in
  let minutes := Math_floor (timeMinutes %% Fin 60) in
  let seconds := Math_floor ((timeMinutes %% Fin 1) * Fin 60) in
  if hours >? Fin 0 then
    (Number_toString host hours ++ ":"
     ++ padStart 2 "0"%char (Number_toString host minutes) ++ ":"
     ++ padStart 2 "0"%char (Number_toString host seconds))%string
  else
    (Number_toString host minutes ++ ":"
     ++ padStart 2 "0"%char (Number_toString host seconds))%string.

Definition predictRaceTimes : completion (option RacePredictionSet.t) :=
  let* vo2History := generateVO2maxHistory in
  if (length vo2History =? 0)%nat then Ok None
  else
    let thirtyDaysAgo := Date_addDays host (Date_new host) (-30) in
    let recentVO2 :=
      List.map VO2maxSample.vo2max
        (List.filter (fun h =>
           valueOf (Date_parse host (VO2maxSample.date h)) >=? valueOf thirtyDaysAgo)
           vo2History) in
    let currentVO2max :=
      match recentVO2 with
      | x :: xs =>
          reduce1 add x xs / Fin (inject_Z (Z.of_nat (length recentVO2)))
      | [] =>
          match List.last (List.map Some vo2History) None with
          | Some h => VO2maxSample.vo2max h
          | None => NaN
          end
      end in
    let predictions :=
      [ ("5k", predictTime (Fin 5) currentVO2max);
        ("10k", predictTime (Fin 10) currentVO2max);
        ("Half Marathon", predictTime (Fin 21.097) currentVO2max);
        ("Marathon", predictTime (Fin 42.195) currentVO2max) ]%string in
    Ok (Some {| RacePredictionSet.currentVO2max := round1 currentVO2max;
                RacePredictionSet.predictions := predictions |}).

Definition calculateCriticalPower (curve : list PowerCurvePoint.t)
    : option CriticalPower.t :=
  if (length curve <? 3)%nat then None
  else
    let fiveMin :=
      List.find (fun c => (PowerCurvePoint.duration c >=? Fin 250)
                          && (PowerCurvePoint.duration c <=? Fin 350)) curve in
    let twentyMin :=
      List.find (fun c => (PowerCurvePoint.duration c >=? Fin 1000)
                          && (PowerCurvePoint.duration c <=? Fin 1400)) curve in
    match fiveMin, twentyMin with
    | Some fiveMin, Some twentyMin =>
        let cp :=
          (PowerCurvePoint.power fiveMin * PowerCurvePoint.duration fiveMin
           - PowerCurvePoint.power twentyMin * PowerCurvePoint.duration twentyMin)
          / (PowerCurvePoint.duration fiveMin - PowerCurvePoint.duration twentyMin) in
        let wPrime :=
          (PowerCurvePoint.power fiveMin - cp) * PowerCurvePoint.duration fiveMin in
        Some {| CriticalPower.cp := Math_round cp;
                CriticalPower.wPrime := Math_round wPrime |}
    | _, _ => None
    end.

(** The target durations of the power curve, in seconds. *)
Definition durations : list num :=
  [Fin 5; Fin 10; Fin 30; Fin 60; Fin 120; Fin 300; Fin 600; Fin 1200;
   Fin 1800; Fin 3600].

(** The candidates of a bucket: within 20% of the target duration. *)
Definition candidates (activitiesWithPower : list Activity) (duration : num)
    : list Activity :=
  List.filter (fun a =>
    let timeDiff := Math_abs (toNum (moving_time a) - duration) in
    timeDiff <? duration * Fin 0.2) activitiesWithPower.

Definition betterEffort (best current : Activity) : Activity :=
  let bestPower := power_of best in
  let currentPower := power_of current in
  if toNum currentPower >? toNum bestPower then current else best.

(** The [for ... of] loop of [analyzePowerCurve] over the durations. *)
Fixpoint curve_loop (activitiesWithPower : list Activity) (ds : list num)
    : completion (list PowerCurvePoint.t) :=
  match ds with
  | [] => Ok []
  | duration :: ds' =>
      match candidates activitiesWithPower duration with
      | c :: cs =>
          let bestEffort := reduce1 betterEffort c cs in
          let* date := date_part (start_date_local bestEffort) in
          let point := {| PowerCurvePoint.duration := duration;
                          PowerCurvePoint.power := toNum (power_of bestEffort);
                          PowerCurvePoint.date := date;
                          PowerCurvePoint.activityName := name bestEffort |} in
          let* curve := curve_loop activitiesWithPower ds' in
          Ok (point :: curve)
      | [] => curve_loop activitiesWithPower ds'
      end
  end.

Definition analyzePowerCurve : completion (option PowerCurve.t) :=
  let activitiesWithPower :=
    List.filter (fun a => truthy_opt (average_watts a)) (activities this) in
  if (length activitiesWithPower =? 0)%nat then Ok None
  else
    let* curve := curve_loop activitiesWithPower durations in
    let cp := calculateCriticalPower curve in
    Ok (Some {| PowerCurve.curve := curve; PowerCurve.criticalPower := cp |}).

Definition calculateWorkoutQuality (activity : Activity) (tss : num) : num :=
  let score := Fin 5 in
  let tssPerHour := tss / (toNum (moving_time activity) / Fin 3600) in
  let score :=
    if tssPerHour >? Fin 80 then score + Fin 2
    else if tssPerHour >? Fin 60 then score + Fin 1 else score in
  let score :=
    if truthy_flag (has_heartrate activity) then
      let hrPercent := toNum (average_heartrate activity) / maxHR this in
      if hrPercent >? Fin 0.85 then score + Fin 2
      else if hrPercent >? Fin 0.75 then score + Fin 1 else score
    else score in
  let score :=
    if truthy_opt (average_watts activity) && truthy (ftp this) then
      let powerPercent := toNum (average_watts activity) / ftp this in
      if powerPercent >? Fin 0.9 then score + Fin 1 else score
    else score in
  Math_min2 (Fin 10) (Math_max2 (Fin 0) score).

(** The name patterns of an interval workout. *)
Definition isIntervalName (a : Activity) : completion bool :=
  match name a with
  | None => Throw TypeError
  | Some n =>
      let name := toLowerCase n in
      Ok (includes "interval" name
          || includes "x " name
          || includes "tempo" name
          || includes "fartlek" name
          || includes "rep" name)
  end.

Definition summarize (workout : Activity) : completion IntervalWorkoutSummary.t :=
  let tss := calculateTSS workout in
  let paceMinPerKm := (toNum (moving_time workout) / Fin 60)
                      / (toNum (distance workout) / Fin 1000) in
  let* date := date_part (start_date_local workout) in
  Ok {| IntervalWorkoutSummary.date := date;
        IntervalWorkoutSummary.name := name workout;
        IntervalWorkoutSummary.distance :=
          toFixed2 host (toNum (distance workout) / Fin 1000);
        IntervalWorkoutSummary.avgPace :=
          (Number_toString host (Math_floor paceMinPerKm) ++ ":"
           ++ padStart 2 "0"%char
                (Number_toString host
                   (Math_round ((paceMinPerKm %% Fin 1) * Fin 60))))%string;
        IntervalWorkoutSummary.avgHR :=
          if truthy_opt (average_heartrate workout)
          then Some (Math_round (toNum (average_heartrate workout))) else None;
        IntervalWorkoutSummary.avgPower :=
          if truthy_opt (average_watts workout)
          then Some (Math_round (toNum (average_watts workout))) else None;
        IntervalWorkoutSummary.tss := tss;
        IntervalWorkoutSummary.quality := calculateWorkoutQuality workout tss |}.

Definition detectIntervals (minActivities : num)
    : completion (list IntervalWorkoutSummary.t) :=
  let* intervalWorkouts := filterM isIntervalName (activities this) in
  let* summaries := mapM summarize intervalWorkouts in
  Ok (sort (fun a b =>
              valueOf (Date_parse host (IntervalWorkoutSummary.date b))
              - valueOf (Date_parse host (IntervalWorkoutSummary.date a)))
        summaries).

(** One round of the loop of [getDailyTSS] on the object [dailyData]. *)
Definition daily_step (dailyData : gmap string num) (activity : Activity)
    : completion (gmap string num) :=
  let* date := date_part (start_date_local activity) in
  let tss := calculateTSS activity in
  let dailyData :=
    if negb (truthy_opt (dailyData !! date))
    then <[date := Fin 0]> dailyData else dailyData in
  Ok (<[date := toNum (dailyData !! date) + tss]> dailyData).

Fixpoint daily_loop (dailyData : gmap string num) (acts : list Activity)
    : completion (gmap string num) :=
  match acts with
  | [] => Ok dailyData
  | activity :: rest =>
      let* dailyData := daily_step dailyData activity in
      daily_loop dailyData rest
  end.

Definition getDailyTSS (daysBack : num) : completion (gmap string num) :=
  daily_loop ∅ (activities this).
End Class.

(* ================================================================== *)
(** * A concrete host                                                  *)
(* ================================================================== *)

(** A host to run the class on concrete data: [Math.exp] by a Taylor
    polynomial after argument halving, to thirty decimals, and
    [Date.parse] on the two ISO forms [YYYY-MM-DD] and
    [YYYY-MM-DDTHH:MM:SS] with an optional [Z]. *)
Module Demo.

(** A rational cut to thirty decimals. *)
Definition chop (q : Q) : Q :=
  Qred (Qmake (Qfloor (q * inject_Z (10 ^ 30))) (10 ^ 30)).

(** [1 + q/i (1 + q/(i+1) (1 + ...))], [n] factors deep. *)
Fixpoint horner (n : nat) (i : Z) (q : Q) : Q :=
  match n with
  | O => 1
  | S n' => chop (1 + q / inject_Z i * horner n' (i + 1) q)
  end.

(** [exp q] as the [2^k]-th power of the polynomial at [q / 2^k]. *)
Fixpoint exp_halving (k : nat) (q : Q) : Q :=
  match k with
  | O => horner 24 1 q
  | S k' => let r := exp_halving k' (q / 2) in chop (r * r)
  end.

Definition exp (x : num) : num :=
  match x with
  | NaN => NaN
  | PInf => PInf
  | NInf => Fin 0
  | Fin q => Fin (exp_halving (Z.to_nat (Z.log2_up (Qceiling (Qabs q)))) q)
  end.

Definition digit (c : ascii) : option Z :=
  let n := nat_of_ascii c in
  if (Nat.leb 48 n && Nat.leb n 57)%bool then Some (Z.of_nat (n - 48)) else None.

(** Reads exactly [n] decimal digits. *)
Fixpoint digits (n : nat) (acc : Z) (s : string) : option (Z * string) :=
  match n with
  | O => Some (acc, s)
  | S n' =>
      match s with
      | String c s' =>
          match digit c with
          | Some d => digits n' (10 * acc + d) s'
          | None => None
          end
      | EmptyString => None
      end
  end.

Definition expect (c : ascii) (s : string) : option string :=
  match s with
  | String c' s' => if Ascii.eqb c c' then Some s' else None
  | EmptyString => None
  end.

(** The day number of a civil date. *)
Definition days_from_civil (y m d : Z) : Z :=
  let y' := (if m <=? 2 then y - 1 else y)%Z in
  let era := (y' / 400)%Z in
  let yoe := (y' - era * 400)%Z in
  let mp := (if m <=? 2 then m + 9 else m - 3)%Z in
  let doy := ((153 * mp + 2) / 5 + d - 1)%Z in
  let doe := (yoe * 365 + yoe / 4 - yoe / 100 + doy)%Z in
  (era * 146097 + doe - 719468)%Z.

Definition parse_time (s : string) : option (Z * string) :=
  match digits 2 0 s with
  | Some (hh, s) =>
  match expect ":" s with
  | Some s =>
  match digits 2 0 s with
  | Some (mm, s) =>
  match expect ":" s with
  | Some s =>
  match digits 2 0 s with
  | Some (ss, s) =>
      if ((hh <? 24) && (mm <? 60) && (ss <? 60))%Z%bool
      then Some ((hh * 3600 + mm * 60 + ss) * 1000, s)%Z else None
  | None => None end | None => None end | None => None end
  | None => None end | None => None end.

Definition parse (tza : Z) (s : string) : Date :=
  match digits 4 0 s with
  | Some (y, s) =>
  match expect "-" s with
  | Some s =>
  match digits 2 0 s with
  | Some (m, s) =>
  match expect "-" s with
  | Some s =>
  match digits 2 0 s with
  | Some (d, s) =>
      if ((1 <=? m) && (m <=? 12) && (1 <=? d) && (d <=? 31))%Z%bool then
        let day := (days_from_civil y m d * msPerDay)%Z in
        match s with
        | EmptyString => TimeClip day
        | String c s =>
            if Ascii.eqb c "T" then
              match parse_time s with
              | Some (ms, EmptyString) => TimeClip (day + ms - tza)
              | Some (ms, String "Z" EmptyString) => TimeClip (day + ms)
              | _ => None
              end
            else None
        end
      else None
  | None => None end | None => None end | None => None end
  | None => None end | None => None end.

Definition host (now tza : Z) : Host :=
  {| Math_exp := exp;
     Date_parse := parse tza;
     Date_now := now;
     LocalTZA := tza;
     Number_toString_other := fun _ => "?"%string |}.

(** 2025-06-15T12:00:00Z. *)
Definition noon : Z := 1749988800000.
End Demo.

(* ================================================================== *)
(** * Reference definitions taken from the specification               *)
(* ================================================================== *)

(** The power-based score of the specification:
    [round(durationHours × (average_watts / FTP)² × 100)]. *)
Definition power_score (this : StravaMetrics) (a : Activity) : num :=
  let durationHours := toNum (moving_time a) / Fin 3600 in
  let IF := toNum (average_watts a) / ftp this in
  Math_round (durationHours * IF * IF * Fin 100).

(** Sample data: an easy hour without sensors whose power field is zero. *)
Definition hour_zero_watts : Activity :=
  {| type := Some "Run"%string;
     start_date_local := Some "2025-06-15T08:00:00Z"%string;
     moving_time := Some (Fin 3600);
     distance := Some (Fin 10000);
     average_heartrate := None;
     has_heartrate := None;
     average_watts := Some (Fin 0);
     weighted_average_watts := None;
     name := Some "Morning Run"%string |}.

(** Sample data: twenty-five minutes at half a watt, the only activity
    with power of its list, which rounds the FTP estimate to zero. *)
Definition half_watt : Activity :=
  {| type := Some "Run"%string;
     start_date_local := Some "2025-06-15T08:00:00Z"%string;
     moving_time := Some (Fin 1500);
     distance := Some (Fin 5000);
     average_heartrate := None;
     has_heartrate := None;
     average_watts := Some (Fin 0.5);
     weighted_average_watts := None;
     name := Some "Morning Run"%string |}.

Definition profile_2015 : Athlete :=
  {| created_at := Some "2015-03-01T00:00:00Z"%string |}.

Definition engine_of (acts : list Activity) : StravaMetrics :=
  new_StravaMetrics (Demo.host Demo.noon 0)
    {| AthleteData.athlete := profile_2015;
       AthleteData.activities := Some acts |}.

Definition is_nan (x : num) : bool :=
  match x with
  | NaN => true
  | _ => false
  end.


(** The two filters of [estimateFTP]: activities with power of at least
    twenty minutes, and those of at most thirty. *)
Definition qualifies (a : Activity) : bool :=
  truthy_opt (average_watts a) && (toNum (moving_time a) >=? Fin 1200).

Definition in_range (a : Activity) : bool :=
  (toNum (moving_time a) >=? Fin 1200) && (toNum (moving_time a) <=? Fin 1800).

(** Sample data: an hour's ride at 200 W. *)
Definition hour_ride : Activity :=
  {| type := Some "Ride"%string;
     start_date_local := Some "2025-06-14T09:00:00Z"%string;
     moving_time := Some (Fin 3600);
     distance := Some (Fin 30000);
     average_heartrate := None;
     has_heartrate := None;
     average_watts := Some (Fin 200);
     weighted_average_watts := None;
     name := Some "Sunday Ride"%string |}.

(** Sample data: a 25-minute effort at 300 W (310 W weighted). *)
Definition threshold_effort : Activity :=
  {| type := Some "Run"%string;
     start_date_local := Some "2025-06-13T18:00:00Z"%string;
     moving_time := Some (Fin 1500);
     distance := Some (Fin 6000);
     average_heartrate := Some (Fin 172);
     has_heartrate := Some true;
     average_watts := Some (Fin 300);
     weighted_average_watts := Some (Fin 310);
     name := Some "Tempo 25"%string |}.

(** The two anchor tests of [calculateCriticalPower]. *)
Definition near_five_min (c : PowerCurvePoint.t) : bool :=
  (PowerCurvePoint.duration c >=? Fin 250) && (PowerCurvePoint.duration c <=? Fin 350).

Definition near_twenty_min (c : PowerCurvePoint.t) : bool :=
  (PowerCurvePoint.duration c >=? Fin 1000) && (PowerCurvePoint.duration c <=? Fin 1400).

(** The two-parameter model of the specification:
    [CP = (P5·t5 − P20·t20) / (t5 − t20)] and [W' = (P5 − CP)·t5]. *)
Definition CP_model (p5 t5 p20 t20 : num) : num :=
  (p5 * t5 - p20 * t20) / (t5 - t20).

Definition W_model (p5 t5 p20 t20 : num) : num :=
  (p5 - CP_model p5 t5 p20 t20) * t5.

(** The activities with power, as [analyzePowerCurve] selects them. *)
Definition withPower (acts : list Activity) : list Activity :=
  List.filter (fun a => truthy_opt (average_watts a)) acts.

(** Sample data: a one-minute sprint at 500 W, and a curve of three
    points with both anchors. *)
Definition sprint : Activity :=
  {| type := Some "Run"%string;
     start_date_local := Some "2025-06-12T18:00:00Z"%string;
     moving_time := Some (Fin 60);
     distance := Some (Fin 400);
     average_heartrate := None;
     has_heartrate := None;
     average_watts := Some (Fin 500);
     weighted_average_watts := None;
     name := Some "Sprint"%string |}.

(** Sample data: twenty minutes at 280 W. *)
Definition twenty_minutes : Activity :=
  {| type := Some "Run"%string;
     start_date_local := Some "2025-06-11T18:00:00Z"%string;
     moving_time := Some (Fin 1200);
     distance := Some (Fin 5000);
     average_heartrate := None;
     has_heartrate := None;
     average_watts := Some (Fin 280);
     weighted_average_watts := None;
     name := Some "Twenty"%string |}.

Definition curve_point (duration power : Q) : PowerCurvePoint.t :=
  {| PowerCurvePoint.duration := Fin duration;
     PowerCurvePoint.power := Fin power;
     PowerCurvePoint.date := "2025-06-12"%string;
     PowerCurvePoint.activityName := None |}.

Definition three_points : list PowerCurvePoint.t :=
  [curve_point 60 500; curve_point 300 300; curve_point 1200 250].

(** Sample data: 10 km in 50 minutes at 160 bpm, and a 4 km hour's walk
    at 150 bpm. *)
Definition steady_10k : Activity :=
  {| type := Some "Run"%string;
     start_date_local := Some "2025-06-10T07:30:00Z"%string;
     moving_time := Some (Fin 3000);
     distance := Some (Fin 10000);
     average_heartrate := Some (Fin 160);
     has_heartrate := Some true;
     average_watts := None;
     weighted_average_watts := None;
     name := Some "Steady 10k"%string |}.

Definition slow_walk : Activity :=
  {| type := Some "Walk"%string;
     start_date_local := Some "2025-06-09T07:30:00Z"%string;
     moving_time := Some (Fin 3600);
     distance := Some (Fin 4000);
     average_heartrate := Some (Fin 150);
     has_heartrate := Some true;
     average_watts := None;
     weighted_average_watts := None;
     name := Some "Walk"%string |}.

(** An activity and the sample [generateVO2maxHistory] emits for it. *)
Definition sample_of (host : Host) (this : StravaMetrics)
    (a : Activity) (s : VO2maxSample.t) : Prop :=
  estimateVO2max host this a = Some (VO2maxSample.vo2max s)
  /\ date_part (start_date_local a) = Ok (VO2maxSample.date s)
  /\ VO2maxSample.distance s = distance a
  /\ VO2maxSample.activityName s = name a.

(** The predicted time in minutes, as [predictTime] computes it before
    formatting: [(D × 1000) / velocity] with
    [velocity = v × 0.2 × D / (0.000104·D + 0.182258)], in the order of
    operations of the source. *)
Definition timeMinutes (distanceKm vo2max : num) : num :=
  let velocity := vo2max * Fin 0.2 * distanceKm
                  / (Fin 0.000104 * distanceKm + Fin 0.182258) in
  (distanceKm * Fin 1000) / velocity.

(** Two decimal digits, zero-padded. *)
Definition two_digits (z : Z) : string :=
  if (z <? 10)%Z then ("0" ++ Z_toString z)%string else Z_toString z.

(** A duration of [t] minutes as the specification renders it: whole
    hours, minutes and seconds, [H:MM:SS] from one hour on and [M:SS]
    below, minutes and seconds on two digits.  The hours are printed as
    the host prints a number. *)
Definition format_duration (host : Host) (t : Q) : string :=
  let total := Qfloor (t * 60) in
  let h := (total / 3600)%Z in
  let m := ((total / 60) mod 60)%Z in
  let s := (total mod 60)%Z in
  if Qle_bool 60 t then
    (Number_toString host (Fin (inject_Z h)) ++ ":" ++ two_digits m
     ++ ":" ++ two_digits s)%string
  else (Z_toString m ++ ":" ++ two_digits s)%string.

(** The key [getDailyTSS] files an activity under: the date part of its
    [start_date_local]. *)
Definition date_key (a : Activity) : option string :=
  match start_date_local a with
  | Some s => Some (split_head "T"%char s)
  | None => None
  end.

Definition on_date (date : string) (a : Activity) : bool :=
  match date_key a with
  | Some k => String.eqb k date
  | None => false
  end.

(** The daily total of the specification: the sum of [calculateTSS] over
    all the activities of the set on that date. *)
Definition daily_total (host : Host) (this : StravaMetrics) (date : string) : num :=
  fold_left add
    (List.map (calculateTSS host this) (List.filter (on_date date) (activities this)))
    (Fin 0).

Definition is_finite (x : num) : bool :=
  match x with
  | Fin _ => true
  | _ => false
  end.

(** Sample data: a record without a date, one without a name, one without
    a duration but with power, and a plain jog. *)
Definition undated : Activity :=
  {| type := Some "Run"%string;
     start_date_local := None;
     moving_time := Some (Fin 1800);
     distance := Some (Fin 5000);
     average_heartrate := None;
     has_heartrate := None;
     average_watts := None;
     weighted_average_watts := None;
     name := Some "Lunch Run"%string |}.

Definition unnamed : Activity :=
  {| type := Some "Run"%string;
     start_date_local := Some "2025-06-15T12:00:00Z"%string;
     moving_time := Some (Fin 1800);
     distance := Some (Fin 5000);
     average_heartrate := None;
     has_heartrate := None;
     average_watts := None;
     weighted_average_watts := None;
     name := None |}.

Definition untimed : Activity :=
  {| type := Some "Run"%string;
     start_date_local := Some "2025-06-15T07:00:00Z"%string;
     moving_time := None;
     distance := Some (Fin 5000);
     average_heartrate := None;
     has_heartrate := None;
     average_watts := Some (Fin 200);
     weighted_average_watts := None;
     name := Some "Glitch"%string |}.

(** Sample data: a record with no property at all. *)
Definition blank : Activity :=
  {| type := None;
     start_date_local := None;
     moving_time := None;
     distance := None;
     average_heartrate := None;
     has_heartrate := None;
     average_watts := None;
     weighted_average_watts := None;
     name := None |}.

(** An activity with its [type] removed, and two activities that differ
    at most in their [type]. *)
Definition erase_type (a : Activity) : Activity :=
  {| type := None;
     start_date_local := start_date_local a;
     moving_time := moving_time a;
     distance := distance a;
     average_heartrate := average_heartrate a;
     has_heartrate := has_heartrate a;
     average_watts := average_watts a;
     weighted_average_watts := weighted_average_watts a;
     name := name a |}.

Definition same_but_type (a b : Activity) : Prop := erase_type a = erase_type b.

(** An engine with another activity list and the same profile. *)
Definition with_activities (this : StravaMetrics) (l : list Activity)
    : StravaMetrics :=
  {| athlete := athlete this;
     activities := l;
     maxHR := maxHR this;
     thresholdHR := thresholdHR this;
     restingHR := restingHR this;
     ftp := ftp this |}.

(** Sample data: the hour's ride filed as a run. *)
Definition hour_ride_as_run : Activity :=
  {| type := Some "Run"%string;
     start_date_local := Some "2025-06-14T09:00:00Z"%string;
     moving_time := Some (Fin 3600);
     distance := Some (Fin 30000);
     average_heartrate := None;
     has_heartrate := None;
     average_watts := Some (Fin 200);
     weighted_average_watts := None;
     name := Some "Sunday Ride"%string |}.

(** What the loop leaves under a key: the value it found there with the
    scores of the key's activities added in order. *)
Definition after_loop (v : option num) (scores : list num) : option num :=
  match v, scores with
  | None, [] => None
  | None, _ :: _ => Some (fold_left add scores (Fin 0))
  | Some x, _ => Some (fold_left add scores x)
  end.

(** An engine whose activities have lost their [type]. *)
Definition erased (this : StravaMetrics) : StravaMetrics :=
  with_activities this (List.map erase_type (activities this)).

(* ================================================================== *)
(** * The polyline decoder of the dashboard                            *)
(* ================================================================== *)

(** ** 32-bit integers

    The bitwise operators work on ToInt32 of their operands. *)
Module Int32.
(** ToInt32 on an integer: its representative in [[-2^31, 2^31)]. *)
Definition wrap (z : Z) : Z := ((z + 2 ^ 31) mod 2 ^ 32 - 2 ^ 31)%Z.
Definition and (x y : Z) : Z := wrap (Z.land (wrap x) (wrap y)).
Definition or (x y : Z) : Z := wrap (Z.lor (wrap x) (wrap y)).
Definition not (x : Z) : Z := wrap (Z.lnot (wrap x)).
(** [x << s] and [x >> s]: the shift count is taken modulo 32. *)
Definition shl (x s : Z) : Z := wrap (Z.shiftl (wrap x) (s mod 32)).
Definition sar (x s : Z) : Z := wrap (Z.shiftr (wrap x) (s mod 32)).
End Int32.

(** ToInt32 on a number: [NaN] and the infinities give [0]. *)
Definition ToInt32 (x : num) : Z :=
  match x with
  | Fin q => Int32.wrap (Qtrunc q)
  | _ => 0%Z
  end.

(** The code unit [charCodeAt] reads. *)
Definition charCode (c : ascii) : num :=
  Fin (inject_Z (Z.of_nat (nat_of_ascii c))).

(** The [do ... while (b >= 0x20)] loop of [decodePolyline].  The cursor
    [index] is kept as the rest of the input from it on; past the end
    [charCodeAt] is [NaN], which contributes no bit and ends the loop. *)
Fixpoint chunks (rest : string) (shift result : Z) : Z * string :=
  match rest with
  | EmptyString =>
      let b := NaN - Fin 63 in
      (Int32.or result (Int32.shl (Int32.and (ToInt32 b) 31) shift), EmptyString)
  | String c rest' =>
      let b := charCode c - Fin 63 in
      let result := Int32.or result (Int32.shl (Int32.and (ToInt32 b) 31) shift) in
      let shift := (shift + 5)%Z in
      if b >=? Fin 32 then chunks rest' shift result else (result, rest')
  end.

(** [(result & 1) ? ~(result >> 1) : (result >> 1)]. *)
Definition delta (result : Z) : Z :=
  if (Int32.and result 1 =? 0)%Z then Int32.sar result 1
  else Int32.not (Int32.sar result 1).

(** The [while (index < len)] loop, run at most [fuel] times; [lat] and
    [lng] are the running sums, in units of [1e-5] degree. *)
Fixpoint decode_loop (fuel : nat) (rest : string) (lat lng : Z)
    : list (num * num) :=
  match fuel with
  | O => []
  | S fuel' =>
      match rest with
      | EmptyString => []
      | String _ _ =>
          let '(result, rest) := chunks rest 0 0 in
          let dlat := delta result in
          let lat := (lat + dlat)%Z in
          let '(result, rest) := chunks rest 0 0 in
          let dlng := delta result in
          let lng := (lng + dlng)%Z in
          (Fin (inject_Z lat) / Fin 100000, Fin (inject_Z lng) / Fin 100000)
            :: decode_loop fuel' rest lat lng
      end
  end.

(** Every round reads at least one character, so the loop ends within
    [encoded.length] rounds ([decode_loop_fuel]). *)
Definition decodePolyline (encoded : string) : list (num * num) :=
  decode_loop (String.length encoded) encoded 0 0.

(** ** The encoding the decoder reads

    The polyline format writes each coordinate, in units of [1e-5]
    degree, as its difference from the previous point: the difference is
    doubled, complemented when negative, and cut into 5-bit chunks from
    the low end, each but the last flagged with [0x20], all offset by 63.
    The encoder is not part of the dashboard. *)
Fixpoint encode_chunks (fuel : nat) (v : Z) : string :=
  match fuel with
  | O => EmptyString
  | S fuel' =>
      if (v <? 32)%Z then String (ascii_of_nat (Z.to_nat (v + 63))) EmptyString
      else String (ascii_of_nat (Z.to_nat (32 + v mod 32 + 63)))
             (encode_chunks fuel' (v / 32))
  end.

Definition encode_value (d : Z) : string :=
  encode_chunks 7 (if (d <? 0)%Z then - 2 * d - 1 else 2 * d)%Z.

Fixpoint encode_path (prev : Z * Z) (path : list (Z * Z)) : string :=
  match path with
  | [] => EmptyString
  | p :: path' =>
      (encode_value (fst p - fst prev) ++ encode_value (snd p - snd prev)
       ++ encode_path p path')%string
  end.

Definition encodePolyline (path : list (Z * Z)) : string :=
  encode_path (0, 0)%Z path.

(** A step the decoder's 32-bit accumulator can hold. *)
Definition fits (d : Z) : Prop := (- 2 ^ 30 <= d < 2 ^ 30)%Z.

Fixpoint steps_fit (prev : Z * Z) (path : list (Z * Z)) : Prop :=
  match path with
  | [] => True
  | p :: path' =>
      fits (fst p - fst prev) /\ fits (snd p - snd prev) /\ steps_fit p path'
  end.

(** A point given in units of [1e-5] degree, as the decoder returns it. *)
Definition degrees (p : Z * Z) : num * num :=
  (Fin (inject_Z (fst p)) / Fin 100000, Fin (inject_Z (snd p)) / Fin 100000).

(** The characters of the format: ['?'] to ['~']. *)
Fixpoint printable (s : string) : Prop :=
  match s with
  | EmptyString => True
  | String c s' => (63 <= nat_of_ascii c <= 126)%nat /\ printable s'
  end.

(** Sample data: a path of three points. *)
Definition three_cities : list (Z * Z) :=
  [(3850000, -12020000); (4070000, -12095000); (4325200, -12645300)]%Z.

(* ================================================================== *)
(** * Further reference definitions                                    *)
(* ================================================================== *)

(** The band of the sanity check on VO2max estimates. *)
Definition in_band (x : num) : Prop :=
  exists v : Q, x = Fin v /\ (30 < v)%Q /\ (v < 90)%Q.

(** The time value [detectIntervals] sorts a summary by. *)
Definition reportedOn (host : Host) (s : IntervalWorkoutSummary.t) : num :=
  valueOf (Date_parse host (IntervalWorkoutSummary.date s)).

(** Two numbers with the same value (finite values are compared as
    rationals, not as fractions). *)
Definition same_value (x y : num) : Prop :=
  match x, y with
  | Fin a, Fin b => (a == b)%Q
  | NaN, NaN | PInf, PInf | NInf, NInf => True
  | _, _ => False
  end.

(** Sample data: five minutes at 340 W. *)
Definition five_minutes : Activity :=
  {| type := Some "Run"%string;
     start_date_local := Some "2025-06-10T18:00:00Z"%string;
     moving_time := Some (Fin 300);
     distance := Some (Fin 1500);
     average_heartrate := None;
     has_heartrate := None;
     average_watts := Some (Fin 340);
     weighted_average_watts := None;
     name := Some "Five"%string |}.

(** Sample data: an interval session of the week before. *)
Definition track_session : Activity :=
  {| type := Some "Run"%string;
     start_date_local := Some "2025-06-05T18:30:00Z"%string;
     moving_time := Some (Fin 2400);
     distance := Some (Fin 8000);
     average_heartrate := Some (Fin 165);
     has_heartrate := Some true;
     average_watts := None;
     weighted_average_watts := None;
     name := Some "6 x 800m"%string |}.

(** Sample data: a kilometre in 4 minutes 59.6 seconds. *)
Definition fast_kilometre : Activity :=
  {| type := Some "Run"%string;
     start_date_local := Some "2025-06-12T07:00:00Z"%string;
     moving_time := Some (Fin 299.6);
     distance := Some (Fin 1000);
     average_heartrate := None;
     has_heartrate := None;
     average_watts := None;
     weighted_average_watts := None;
     name := Some "Tempo km"%string |}.

(** Sample data: the steady 10 km at a higher heart rate. *)
Definition steady_10k_hard : Activity :=
  {| type := Some "Run"%string;
     start_date_local := Some "2025-06-10T07:30:00Z"%string;
     moving_time := Some (Fin 3000);
     distance := Some (Fin 10000);
     average_heartrate := Some (Fin 175);
     has_heartrate := Some true;
     average_watts := None;
     weighted_average_watts := None;
     name := Some "Steady 10k"%string |}.

(** Sample data: a profile without a creation date. *)
Definition undated_profile : AthleteData.t :=
  {| AthleteData.athlete := {| created_at := None |};
     AthleteData.activities := Some [steady_10k] |}.

(** Sample data: a steady 10 km of the week before. *)
Definition steady_10k_earlier : Activity :=
  {| type := Some "Run"%string;
     start_date_local := Some "2025-06-03T07:30:00Z"%string;
     moving_time := Some (Fin 3100);
     distance := Some (Fin 10000);
     average_heartrate := Some (Fin 158);
     has_heartrate := Some true;
     average_watts := None;
     weighted_average_watts := None;
     name := Some "Steady 10k"%string |}.

(** The time value the activities are sorted by. *)
Definition startedOn (host : Host) (a : Activity) : num :=
  valueOf (Date_of host (start_date_local a)).

(** A host two hours ahead of UTC the whole year (South Africa), at
    2025-06-14T23:30:00Z, half past one in the night of 2025-06-15 there. *)
Definition after_midnight : Z := 1749943800000.

Definition johannesburg : Host := Demo.host after_midnight 7200000.

(** An hour's ride started ten past midnight on 2025-06-15. *)
Definition midnight_ride : Activity :=
  {| type := Some "Ride"%string;
     start_date_local := Some "2025-06-15T00:10:00Z"%string;
     moving_time := Some (Fin 3600);
     distance := Some (Fin 30000);
     average_heartrate := None;
     has_heartrate := None;
     average_watts := Some (Fin 200);
     weighted_average_watts := None;
     name := Some "Midnight Ride"%string |}.

Definition night_owl : StravaMetrics :=
  new_StravaMetrics johannesburg
    {| AthleteData.athlete := profile_2015;
       AthleteData.activities := Some [midnight_ride] |}.
(* ================================================================== *)
(** * Facts about numbers                                              *)
(* ================================================================== *)

Lemma Qfloor_unique (q : Q) (z : Z) :
  (inject_Z z <= q)%Q -> (q < inject_Z (z + 1))%Q -> Qfloor q = z.
Proof.
  intros Hlo Hhi.
  pose proof (Qfloor_le q) as H1. pose proof (Qlt_floor q) as H2.
  assert (inject_Z z < inject_Z (Qfloor q + 1))%Q as H3
    by (eapply Qle_lt_trans; eauto).
  assert (inject_Z (Qfloor q) < inject_Z (z + 1))%Q as H4
    by (eapply Qle_lt_trans; eauto).
  rewrite <- Zlt_Qlt in H3, H4. lia.
Qed.

Lemma Math_round_integer (q : Q) (z : Z) :
  (q == inject_Z z)%Q -> Math_round (Fin q) = Fin (inject_Z z).
Proof.
  intros Hq. unfold Math_round. do 2 f_equal. apply Qfloor_unique.
  - rewrite Hq. lra.
  - rewrite Hq, inject_Z_plus. change (inject_Z 1) with 1%Q. lra.
Qed.

Lemma Qeq_bool_false (a b : Q) : ~ (a == b)%Q -> Qeq_bool a b = false.
Proof.
  intros H. destruct (Qeq_bool a b) eqn:E; [|reflexivity].
  apply Qeq_bool_iff in E. contradiction.
Qed.

Lemma div_Fin (a b : Q) : ~ (b == 0)%Q -> Fin a / Fin b = fin (a / b).
Proof. intros H. unfold div. now rewrite Qeq_bool_false. Qed.

Lemma mul_Fin (a b : Q) : Fin a * Fin b = Fin (Qred (a * b)).
Proof. reflexivity. Qed.

Lemma add_Fin (a b : Q) : Fin a + Fin b = Fin (Qred (a + b)).
Proof. reflexivity. Qed.

Lemma sub_Fin (a b : Q) : Fin a - Fin b = Fin (Qred (a - b)).
Proof. reflexivity. Qed.

Lemma truthy_Fin (q : Q) : truthy (Fin q) = true <-> ~ (q == 0)%Q.
Proof.
  unfold truthy. rewrite negb_true_iff. split.
  - intros E H. apply Qeq_bool_iff in H. congruence.
  - apply Qeq_bool_false.
Qed.

(* ================================================================== *)
(** * Training stress score                                            *)
(* ================================================================== *)

(** Claim C1, as amended.  For every activity whose [average_watts] is
    truthy (present, not zero) on an engine whose FTP is truthy,
    [calculateTSS] is the power-based score
    [round(durationHours × (average_watts / FTP)² × 100)], whatever
    heart-rate or pace data the record carries; in particular an activity
    of 3600 s at [average_watts] equal to a finite FTP scores 100. *)
Theorem calculateTSS_power_first (host : Host) (this : StravaMetrics) (a : Activity) :
  truthy_opt (average_watts a) = true ->
  truthy (ftp this) = true ->
  calculateTSS host this a = power_score this a
  /\ (forall t w f : Q,
        moving_time a = Some (Fin t) -> (t == 3600)%Q ->
        average_watts a = Some (Fin w) -> ftp this = Fin f -> (w == f)%Q ->
        calculateTSS host this a = Fin 100).
Proof.
  intros Hw Hf.
  assert (calculateTSS host this a = power_score this a) as Heq.
  { unfold calculateTSS, power_score. now rewrite Hw, Hf. }
  split; [exact Heq|].
  intros t w f Ht Ht' Hw' Hf' Hwf. rewrite Heq. unfold power_score.
  rewrite Ht, Hw', Hf'. rewrite Hf' in Hf. apply truthy_Fin in Hf.
  unfold toNum. rewrite !div_Fin by (try assumption; discriminate).
  unfold mul, fin. apply (Math_round_integer _ 100).
  rewrite !Qred_correct, Ht', Hwf. field. assumption.
Qed.

(** The amended claim holds of a threshold hour on the default FTP. *)
Lemma calculateTSS_power_first_witness :
  let a := {| type := None; start_date_local := None;
              moving_time := Some (Fin 3600); distance := None;
              average_heartrate := Some (Fin 170); has_heartrate := Some true;
              average_watts := Some (Fin 250); weighted_average_watts := None;
              name := None |} in
  calculateTSS (Demo.host Demo.noon 0) (engine_of []) a = power_score (engine_of []) a
  /\ calculateTSS (Demo.host Demo.noon 0) (engine_of []) a = Fin 100.
Proof.
  intros a.
  destruct (calculateTSS_power_first (Demo.host Demo.noon 0) (engine_of []) a)
    as [H1 H2]; [reflexivity | reflexivity |].
  split; [exact H1|].
  apply (H2 3600%Q 250%Q 250%Q); reflexivity.
Defined.

(** Claim C1 as stated fails on a record whose [average_watts] is present
    but zero: the power branch is skipped and the pace-based fallback
    scores the hour 30, where the power formula gives 0.  It also fails
    when the FTP estimate is zero: the record at half a watt is scored 20
    by pace, where the power formula divides by zero. *)
Lemma calculateTSS_zero_watts_falls_through :
  average_watts hour_zero_watts = Some (Fin 0)
  /\ calculateTSS (Demo.host Demo.noon 0) (engine_of [hour_zero_watts]) hour_zero_watts
     = Fin 30
  /\ power_score (engine_of [hour_zero_watts]) hour_zero_watts = Fin 0
  /\ ftp (engine_of [half_watt]) = Fin 0
  /\ calculateTSS (Demo.host Demo.noon 0) (engine_of [half_watt]) half_watt = Fin 20
  /\ power_score (engine_of [half_watt]) half_watt = PInf.
Proof. vm_compute. repeat split. Qed.

(* ================================================================== *)
(** * The order on numbers                                             *)
(* ================================================================== *)

Lemma Qle_bool_false (a b : Q) : Qle_bool a b = false <-> (b < a)%Q.
Proof.
  rewrite <- not_true_iff_false, Qle_bool_iff. split; intros H; lra.
Qed.

(** Turns the boolean tests on rationals of the context and the goal into
    propositions, and drops the reductions to lowest terms. *)
Ltac qprop :=
  repeat match goal with
  | H : context [Qle_bool ?a ?b] |- _ =>
      let E := fresh "E" in
      destruct (Qle_bool a b) eqn:E;
      [apply Qle_bool_iff in E | apply Qle_bool_false in E]
  | |- context [Qle_bool ?a ?b] =>
      let E := fresh "E" in
      destruct (Qle_bool a b) eqn:E;
      [apply Qle_bool_iff in E | apply Qle_bool_false in E]
  | H : context [Qred ?a] |- _ => rewrite (Qred_correct a) in H
  end;
  cbn [negb] in *; try discriminate; try reflexivity; try lra.

Lemma gtb_sub (x y : num) : (x - y >? Fin 0) = (x >? y).
Proof.
  destruct x as [| | |a], y as [| | |b]; try reflexivity.
  unfold gtb, ltb, sub, fin. qprop.
Qed.

Lemma gtb_asym (x y : num) : (x >? y) = true -> (y >? x) = false.
Proof.
  destruct x as [| | |a], y as [| | |b]; try reflexivity; try discriminate.
  unfold gtb, ltb. intros H. qprop.
Qed.

Lemma gtb_irrefl (x : num) : (x >? x) = false.
Proof. destruct x as [| | |a]; try reflexivity. unfold gtb, ltb. qprop. Qed.

(** Away from [NaN] the order is total, so "not above" is transitive. *)
Lemma not_gtb_trans (x y z : num) :
  is_nan y = false ->
  (x >? y) = false -> (y >? z) = false -> (x >? z) = false.
Proof.
  destruct x as [| | |a], y as [| | |b], z as [| | |c];
    try reflexivity; try discriminate.
  unfold gtb, ltb. intros _ H1 H2. qprop.
Qed.

Lemma truthy_not_nan (x : num) : truthy x = true -> is_nan x = false.
Proof. now destruct x. Qed.

(** ** Sorting *)

Section SortFacts.
Context {A : Type} (cmp : A -> A -> num).

Lemma sort_insert_In (x y : A) (l : list A) :
  In y (sort_insert cmp x l) <-> y = x \/ In y l.
Proof.
  induction l as [|z l IH]; cbn [sort_insert].
  - cbn. intuition.
  - destruct (cmp x z >? Fin 0); cbn [In]; [rewrite IH|]; intuition.
Qed.

Lemma sort_In (y : A) (l : list A) : In y (sort cmp l) <-> In y l.
Proof.
  induction l as [|x l IH]; cbn [sort]; [reflexivity|].
  rewrite sort_insert_In, IH. cbn. intuition.
Qed.

Lemma sort_insert_length (x : A) (l : list A) :
  length (sort_insert cmp x l) = S (length l).
Proof.
  induction l as [|z l IH]; cbn [sort_insert]; [reflexivity|].
  destruct (cmp x z >? Fin 0); cbn [length]; now rewrite ?IH.
Qed.

Lemma sort_length (l : list A) : length (sort cmp l) = length l.
Proof.
  induction l as [|x l IH]; cbn [sort]; [reflexivity|].
  now rewrite sort_insert_length, IH.
Qed.
End SortFacts.

(** Sorting by descending key puts a largest key in front. *)
Lemma sort_descending_head {A} (key : A -> num) (l : list A) (best : A) :
  (forall a, In a l -> is_nan (key a) = false) ->
  List.hd_error (sort (fun a b => key b - key a) l) = Some best ->
  In best l /\ forall e, In e l -> (key e >? key best) = false.
Proof.
  revert best. induction l as [|x l IH]; intros best Hnan Hhd; [discriminate|].
  cbn [sort] in Hhd.
  destruct (sort (fun a b => key b - key a) l) as [|y ys] eqn:Es.
  - assert (l = []) as ->.
    { apply (f_equal (@length A)) in Es. rewrite sort_length in Es.
      now destruct l. }
    cbn in Hhd. injection Hhd as <-. split; [now left|].
    intros e [<-|[]]. apply gtb_irrefl.
  - destruct (IH y) as [Hy Hmax]; [intros; apply Hnan; now right|reflexivity|].
    cbn [sort_insert] in Hhd. rewrite gtb_sub in Hhd.
    destruct (key y >? key x) eqn:Eyx; cbn in Hhd; injection Hhd as <-.
    + split; [now right|]. intros e [<-|He]; [now apply gtb_asym|now apply Hmax].
    + split; [now left|]. intros e [<-|He]; [apply gtb_irrefl|].
      apply not_gtb_trans with (y := key y); auto.
      apply Hnan. now right.
Qed.

(* ================================================================== *)
(** * Threshold power                                                  *)
(* ================================================================== *)

Lemma power_of_truthy (a : Activity) :
  truthy_opt (average_watts a) = true -> truthy (toNum (power_of a)) = true.
Proof.
  intros H. unfold power_of, or_else.
  destruct (truthy_opt (weighted_average_watts a)) eqn:E.
  - now destruct (weighted_average_watts a).
  - now destruct (average_watts a).
Qed.

Lemma length_zero_nil {A} (l : list A) : (length l =? 0)%nat = true <-> l = [].
Proof. destruct l; cbn; split; congruence. Qed.

(** Claim C6, as amended.  The fallback of the FTP estimate is reachable.
    For every activity list with at least one qualifying activity
    ([average_watts] truthy and [moving_time >= 1200]): when some qualifying
    activity has [moving_time] in [[1200, 1800]], [estimateFTP] is
    [round(0.95 × power)] of a best such effort (no effort in range has
    more power, where power is [weighted_average_watts], falling back to
    [average_watts]); when none has, it is [round(0.75 × the largest
    average_watts)] of the qualifying activities. *)
Theorem estimateFTP_qualifying (acts : list Activity) :
  (exists a, In a acts /\ qualifies a = true) ->
  let withPower := List.filter qualifies acts in
  ((exists a, In a withPower /\ in_range a = true) ->
   exists best,
     In best withPower /\ in_range best = true
     /\ (forall e, In e withPower -> in_range e = true ->
                   (toNum (power_of e) >? toNum (power_of best)) = false)
     /\ estimateFTP acts = Math_round (toNum (power_of best) * Fin 0.95))
  /\ ((forall a, In a withPower -> in_range a = false) ->
      estimateFTP acts
      = Math_round (Math_max (List.map (fun a => toNum (average_watts a)) withPower)
                    * Fin 0.75)).
Proof.
  intros [a0 [Hin0 Hq0]] withPower.
  assert (In a0 withPower) as Hin0' by (apply filter_In; auto).
  assert ((length withPower =? 0)%nat = false) as Hlen.
  { apply not_true_iff_false. rewrite length_zero_nil.
    intros E. now rewrite E in Hin0'. }
  unfold estimateFTP.
  change (List.filter _ acts) with withPower. rewrite Hlen.
  change (List.filter _ withPower) with (List.filter in_range withPower).
  split.
  - intros [a [Hin Hr]].
    destruct (List.hd_error _) as [best|] eqn:Ehd.
    + apply sort_descending_head in Ehd.
      * destruct Ehd as [Hb Hmax]. apply filter_In in Hb as [Hb1 Hb2].
        exists best. repeat split; auto.
        intros e He1 He2. apply Hmax. apply filter_In; auto.
      * intros e He. apply filter_In in He as [He _].
        apply filter_In in He as [_ He]. apply andb_true_iff in He as [He _].
        now apply truthy_not_nan, power_of_truthy.
    + exfalso.
      assert (In a (sort (fun a b => toNum (power_of b) - toNum (power_of a))
                      (List.filter in_range withPower))) as Hs
        by (apply sort_In, filter_In; auto).
      destruct (sort _ _); [destruct Hs | discriminate].
  - intros Hnone.
    assert (List.filter in_range withPower = []) as ->.
    { destruct (List.filter in_range withPower) as [|b l] eqn:E; [reflexivity|].
      assert (In b (List.filter in_range withPower)) as Hb by (rewrite E; now left).
      apply filter_In in Hb as [Hb1 Hb2]. rewrite Hnone in Hb2; [discriminate|auto]. }
    reflexivity.
Qed.

(** The amended claim on a list with one effort in range and one not. *)
Lemma estimateFTP_qualifying_witness :
  estimateFTP [hour_ride; threshold_effort] = Fin 295.
Proof.
  destruct (estimateFTP_qualifying [hour_ride; threshold_effort]) as [H _].
  { exists hour_ride. split; [now left | reflexivity]. }
  destruct H as [best [Hb [Hr [_ ->]]]].
  { exists threshold_effort. split; [right; now left | reflexivity]. }
  destruct Hb as [<-|[<-|[]]]; [discriminate Hr | reflexivity].
Defined.

(** Claim C6 as stated fails: an hour's ride qualifies, no effort lies in
    the 20–30 minute range, and the estimate is the fallback
    [round(0.75 × 200) = 150]. *)
Lemma estimateFTP_fallback_reached :
  In hour_ride [hour_ride]
  /\ average_watts hour_ride = Some (Fin 200)
  /\ (toNum (moving_time hour_ride) >=? Fin 1200) = true
  /\ List.filter in_range [hour_ride] = []
  /\ estimateFTP [hour_ride] = Fin 150.
Proof. vm_compute. repeat split. now left. Qed.

(* ================================================================== *)
(** * Critical power                                                   *)
(* ================================================================== *)

Lemma find_none_iff {A} (p : A -> bool) (l : list A) :
  List.find p l = None <-> forall x, In x l -> p x = false.
Proof.
  split.
  - intros H x Hx. now apply (find_none p l H).
  - induction l as [|y l IH]; intros H; cbn; [reflexivity|].
    rewrite (H y) by now left. apply IH. intros x Hx. apply H. now right.
Qed.

(** Every point of the curve sits on a target duration that has a
    candidate. *)
Lemma curve_loop_points (aw : list Activity) (ds : list num)
    (curve : list PowerCurvePoint.t) :
  curve_loop aw ds = Ok curve ->
  forall c, In c curve ->
    In (PowerCurvePoint.duration c) ds
    /\ candidates aw (PowerCurvePoint.duration c) <> [].
Proof.
  revert curve. induction ds as [|d ds IH]; intros curve H c Hc; cbn in H.
  - injection H as <-. destruct Hc.
  - destruct (candidates aw d) as [|x xs] eqn:Ec.
    + destruct (IH _ H c Hc). split; [now right|assumption].
    + destruct (date_part _) as [date|]; [|discriminate]. cbn in H.
      destruct (curve_loop aw ds) as [rest|]; [|discriminate]. cbn in H.
      injection H as <-. destruct Hc as [<-|Hc].
      * cbn. split; [now left | now rewrite Ec].
      * destruct (IH _ eq_refl c Hc). split; [now right|assumption].
Qed.

(** Claim C7.  [calculateCriticalPower] returns [null] exactly when the
    curve has fewer than 3 points, or no point with duration in
    [[250, 350]], or no point with duration in [[1000, 1400]]; otherwise it
    returns [{cp, wPrime}], the roundings of [CP = (P5·t5 − P20·t20)/(t5 −
    t20)] and [W' = (P5 − CP)·t5] at the two anchor points.  In particular
    [analyzePowerCurve] reports a [null] critical power when no activity
    with power is a candidate of the 300 s bucket, whatever 20-minute
    efforts exist. *)
Theorem calculateCriticalPower_null_iff (curve : list PowerCurvePoint.t) :
  (calculateCriticalPower curve = None <->
     (length curve < 3)%nat
     \/ (forall c, In c curve -> near_five_min c = false)
     \/ (forall c, In c curve -> near_twenty_min c = false))
  /\ (forall r, calculateCriticalPower curve = Some r ->
        exists five twenty,
          List.find near_five_min curve = Some five
          /\ List.find near_twenty_min curve = Some twenty
          /\ CriticalPower.cp r =
             Math_round (CP_model (PowerCurvePoint.power five)
                                  (PowerCurvePoint.duration five)
                                  (PowerCurvePoint.power twenty)
                                  (PowerCurvePoint.duration twenty))
          /\ CriticalPower.wPrime r =
             Math_round (W_model (PowerCurvePoint.power five)
                                 (PowerCurvePoint.duration five)
                                 (PowerCurvePoint.power twenty)
                                 (PowerCurvePoint.duration twenty)))
  /\ (forall this r,
        analyzePowerCurve this = Ok (Some r) ->
        curve = PowerCurve.curve r ->
        candidates (withPower (activities this)) (Fin 300) = [] ->
        PowerCurve.criticalPower r = None).
Proof.
  assert (calculateCriticalPower curve = None <->
     (length curve < 3)%nat
     \/ (forall c, In c curve -> near_five_min c = false)
     \/ (forall c, In c curve -> near_twenty_min c = false)) as Hiff.
  { unfold calculateCriticalPower.
    change (List.find _ curve) with (List.find near_five_min curve) at 1.
    change (List.find (fun c => _ && _) curve) with (List.find near_twenty_min curve).
    destruct (length curve <? 3)%nat eqn:El.
    - apply Nat.ltb_lt in El. tauto.
    - apply Nat.ltb_ge in El. rewrite <- !find_none_iff.
      destruct (List.find near_five_min curve), (List.find near_twenty_min curve);
        split; intros H; try discriminate H; try reflexivity;
        try (right; left; reflexivity); try (right; right; reflexivity);
        destruct H as [H|[H|H]]; try discriminate H; lia. }
  split; [exact Hiff|]. split.
  - intros r Hr. unfold calculateCriticalPower in Hr.
    change (List.find _ curve) with (List.find near_five_min curve) in Hr at 1.
    change (List.find (fun c => _ && _) curve)
      with (List.find near_twenty_min curve) in Hr.
    destruct (length curve <? 3)%nat; [discriminate|].
    destruct (List.find near_five_min curve) as [five|]; [|discriminate].
    destruct (List.find near_twenty_min curve) as [twenty|]; [|discriminate].
    injection Hr as <-. exists five, twenty. repeat split.
  - intros this r Hr -> Hnone. unfold analyzePowerCurve in Hr.
    change (List.filter _ (activities this)) with (withPower (activities this)) in Hr.
    destruct (length (withPower (activities this)) =? 0)%nat; [discriminate|].
    destruct (curve_loop _ durations) as [curve|] eqn:Ec; [|discriminate].
    cbn in Hr. injection Hr as <-. cbn [PowerCurve.criticalPower PowerCurve.curve] in *.
    apply Hiff. right. left. intros c Hc.
    destruct (curve_loop_points _ _ _ Ec c Hc) as [Hd Hcand].
    unfold near_five_min.
    cbn in Hd.
    repeat (destruct Hd as [Hd'|Hd];
            [rewrite <- Hd' in *; first [reflexivity | contradiction]|]).
    destruct Hd.
Qed.

(** The claim on a curve with both anchors, and on an engine with a
    20-minute effort but no 5-minute one. *)
Lemma calculateCriticalPower_null_iff_witness :
  calculateCriticalPower three_points
  = Some {| CriticalPower.cp := Fin 233; CriticalPower.wPrime := Fin 20000 |}
  /\ exists r,
       analyzePowerCurve (engine_of [sprint; twenty_minutes; hour_ride]) = Ok (Some r)
       /\ List.existsb near_twenty_min (PowerCurve.curve r) = true
       /\ PowerCurve.criticalPower r = None.
Proof.
  split.
  - destruct (calculateCriticalPower three_points) as [r|] eqn:E.
    + destruct (calculateCriticalPower_null_iff three_points) as [_ [H _]].
      destruct (H r E) as [five [twenty [H5 [H20 [Hcp Hw]]]]].
      injection H5 as <-. injection H20 as <-.
      destruct r as [c w]. cbn in Hcp, Hw. now rewrite Hcp, Hw.
    + discriminate E.
  - eexists. split; [vm_compute; reflexivity|]. split; [reflexivity|].
    match goal with
    | |- PowerCurve.criticalPower ?r = None =>
        destruct (calculateCriticalPower_null_iff (PowerCurve.curve r)) as [_ [_ H]];
        apply (H (engine_of [sprint; twenty_minutes; hour_ride]) r);
        [vm_compute|..]; reflexivity
    end.
Defined.

(* ================================================================== *)
(** * VO2max history                                                   *)
(* ================================================================== *)

(** The sanity check accepts exactly the finite estimates strictly
    between 30 and 90. *)
Lemma saneVO2max_iff (e : option num) :
  saneVO2max e = true <-> exists v : Q, e = Some (Fin v) /\ (30 < v)%Q /\ (v < 90)%Q.
Proof.
  split.
  - destruct e as [[| | |v]|]; cbn; try discriminate;
      rewrite ?andb_false_r; try discriminate.
    intros H. apply andb_true_iff in H as [H H90].
    apply andb_true_iff in H as [_ H30].
    exists v. unfold gtb, ltb in *. split; [reflexivity|]. split; qprop.
  - intros [v [-> [H30 H90]]]. unfold saneVO2max, truthy, gtb, ltb.
    rewrite Qeq_bool_false by lra. qprop.
Qed.

Lemma vo2max_loop_spec (host : Host) (this : StravaMetrics) (runs : list Activity)
    (history : list VO2maxSample.t) :
  vo2max_loop host this runs = Ok history ->
  Forall (fun s => exists v : Q,
            VO2maxSample.vo2max s = Fin v /\ (30 < v)%Q /\ (v < 90)%Q) history
  /\ Forall2 (sample_of host this)
       (List.filter (fun a => saneVO2max (estimateVO2max host this a)) runs) history.
Proof.
  revert history. induction runs as [|a runs IH]; intros history H; cbn in H.
  - injection H as <-. split; constructor.
  - cbn [List.filter]. destruct (saneVO2max (estimateVO2max host this a)) eqn:Es.
    + destruct (date_part (start_date_local a)) as [date|] eqn:Ed; [|discriminate].
      cbn in H. destruct (vo2max_loop host this runs) as [rest|]; [|discriminate].
      cbn in H. injection H as <-. destruct (IH rest eq_refl) as [IH1 IH2].
      apply saneVO2max_iff in Es as [v [Ev Hv]].
      split; constructor; auto.
      * exists v. cbn. now rewrite Ev.
      * unfold sample_of. cbn. rewrite Ev. repeat split; auto.
    + now apply IH.
Qed.

(** Claim C4.  Every sample [generateVO2maxHistory] emits has
    [30 < vo2max < 90]; the samples are, in order, those of the quality
    runs whose estimate passes the sanity check, so that an activity whose
    estimate is [null] or outside the open interval contributes no entry. *)
Theorem generateVO2maxHistory_sane (host : Host) (this : StravaMetrics)
    (history : list VO2maxSample.t) :
  generateVO2maxHistory host this = Ok history ->
  Forall (fun s => exists v : Q,
            VO2maxSample.vo2max s = Fin v /\ (30 < v)%Q /\ (v < 90)%Q) history
  /\ Forall2 (sample_of host this)
       (List.filter (fun a => saneVO2max (estimateVO2max host this a))
          (qualityRuns host this))
       history
  /\ (forall a,
        saneVO2max (estimateVO2max host this a) = true <->
        exists v : Q, estimateVO2max host this a = Some (Fin v)
                      /\ (30 < v)%Q /\ (v < 90)%Q).
Proof.
  intros H. apply vo2max_loop_spec in H as [H1 H2].
  split; [exact H1|]. split; [exact H2|]. intros a. apply saneVO2max_iff.
Qed.

(** The claim on a history of one accepted and one rejected run. *)
Lemma generateVO2maxHistory_sane_witness :
  exists history,
    generateVO2maxHistory (Demo.host Demo.noon 0) (engine_of [slow_walk; steady_10k])
    = Ok history
    /\ length history = 1%nat
    /\ Forall (fun s => exists v : Q,
                 VO2maxSample.vo2max s = Fin v /\ (30 < v)%Q /\ (v < 90)%Q) history.
Proof.
  eexists. split; [vm_compute; reflexivity|]. split; [reflexivity|].
  refine (proj1 (generateVO2maxHistory_sane (Demo.host Demo.noon 0)
                   (engine_of [slow_walk; steady_10k]) _ _)).
  vm_compute. reflexivity.
Defined.

(* ================================================================== *)
(** * Race-time prediction                                             *)
(* ================================================================== *)

Lemma Qfloor_div_pos (q : Q) (n : Z) :
  (0 < n)%Z -> Qfloor (q / inject_Z n) = (Qfloor q / n)%Z.
Proof.
  intros Hn. pose proof (Qfloor_le q) as H1. pose proof (Qlt_floor q) as H2.
  assert (0 < inject_Z n)%Q as Hn' by (change 0%Q with (inject_Z 0); now rewrite <- Zlt_Qlt).
  pose proof (Z.mul_div_le (Qfloor q) n Hn) as H3.
  pose proof (Z.mul_succ_div_gt (Qfloor q) n Hn) as H4.
  apply Qfloor_unique.
  - apply Qle_shift_div_l; [assumption|].
    rewrite <- inject_Z_mult. eapply Qle_trans; [|exact H1].
    rewrite <- Zle_Qle. lia.
  - apply Qlt_shift_div_r; [assumption|].
    rewrite <- inject_Z_mult. eapply Qlt_le_trans; [exact H2|].
    rewrite <- Zle_Qle. lia.
Qed.

Lemma Qfloor_sub_Z (q : Q) (z : Z) :
  Qfloor (q - inject_Z z) = (Qfloor q - z)%Z.
Proof.
  pose proof (Qfloor_le q) as H1. pose proof (Qlt_floor q) as H2.
  apply Qfloor_unique.
  - unfold Z.sub. rewrite inject_Z_plus, inject_Z_opp. lra.
  - replace (Qfloor q - z + 1)%Z with (Qfloor q + 1 - z)%Z by lia.
    unfold Z.sub at 1. rewrite inject_Z_plus, inject_Z_opp. lra.
Qed.

Lemma Qfloor_nonneg (q : Q) : (0 <= q)%Q -> (0 <= Qfloor q)%Z.
Proof. intros H. change 0%Z with (Qfloor 0). now apply Qfloor_resp_le. Qed.

Lemma Qtrunc_nonneg (q : Q) : (0 <= q)%Q -> Qtrunc q = Qfloor q.
Proof. intros H. unfold Qtrunc. apply Qle_bool_iff in H. now rewrite H. Qed.

Lemma Qred_inject_Z (z : Z) : Qred (inject_Z z) = inject_Z z.
Proof. apply Qcanon.Qred_identity. cbn. apply Z.gcd_1_r. Qed.

Lemma Number_toString_small (host : Host) (z : Z) :
  (Z.abs z < 10 ^ 21)%Z ->
  Number_toString host (Fin (inject_Z z)) = Z_toString z.
Proof.
  intros H. unfold Number_toString. rewrite Qred_inject_Z.
  cbn [Qden Qnum inject_Z]. apply Z.ltb_lt in H. now rewrite H.
Qed.

Lemma padStart_two_digits (z : Z) :
  (0 <= z < 60)%Z -> padStart 2 "0"%char (Z_toString z) = two_digits z.
Proof.
  intros H. assert (exists n, z = Z.of_nat n /\ (n < 60)%nat) as [n [-> Hn]]
    by (exists (Z.to_nat z); lia).
  clear H. do 60 (destruct n as [|n]; [reflexivity|]). lia.
Qed.

Lemma Qeq_bool_Qred (a b : Q) : Qeq_bool (Qred a) b = Qeq_bool a b.
Proof.
  destruct (Qeq_bool a b) eqn:E.
  - apply Qeq_bool_iff. apply Qeq_bool_iff in E. now rewrite Qred_correct.
  - apply Qeq_bool_false. intros H. rewrite Qred_correct in H.
    apply Qeq_bool_iff in H. congruence.
Qed.

(** The time components [predictTime] derives from a positive number of
    minutes are those of the whole number of seconds. *)
Lemma time_components (t : Q) :
  (0 < t)%Q ->
  let total := Qfloor (t * 60) in
  Qfloor (Qred (t / 60)) = (total / 3600)%Z
  /\ Qfloor (Qred (t - 60 * inject_Z (Qtrunc (t / 60)))) = ((total / 60) mod 60)%Z
  /\ Qfloor (Qred (Qred (t - 1 * inject_Z (Qtrunc (t / 1))) * 60)) = (total mod 60)%Z
  /\ (0 <= total)%Z.
Proof.
  intros Ht total.
  assert (0 <= total)%Z as Htot by (apply Qfloor_nonneg; lra).
  assert (Qfloor t = (total / 60)%Z) as Hft.
  { unfold total. rewrite <- Qfloor_div_pos by lia. apply Qfloor_comp.
    change (inject_Z 60) with 60%Q. field. }
  assert (Qfloor (t / 60) = (total / 3600)%Z) as Hh.
  { unfold total. rewrite <- Qfloor_div_pos by lia. apply Qfloor_comp.
    change (inject_Z 3600) with 3600%Q. field. }
  assert (Qtrunc (t / 60) = (total / 3600)%Z) as Htr60.
  { rewrite Qtrunc_nonneg; [exact Hh|]. apply Qle_shift_div_l; lra. }
  assert (Qtrunc (t / 1) = (total / 60)%Z) as Htr1.
  { rewrite Qtrunc_nonneg by (apply Qle_shift_div_l; lra).
    rewrite <- Hft. apply Qfloor_comp. field. }
  repeat split; [| | |exact Htot].
  - now rewrite Qred_correct.
  - rewrite Qred_correct, Htr60.
    rewrite (Qfloor_comp _ (t - inject_Z (60 * (total / 3600))))
      by (rewrite inject_Z_mult; reflexivity).
    rewrite Qfloor_sub_Z, Hft, Z.mod_eq, Z.div_div by lia. reflexivity.
  - rewrite Qred_correct, Qred_correct, Htr1.
    rewrite (Qfloor_comp _ (t * 60 - inject_Z (60 * (total / 60))))
      by (rewrite inject_Z_mult; change (inject_Z 60) with 60%Q; ring).
    rewrite Qfloor_sub_Z, Z.mod_eq by lia. reflexivity.
Qed.

Lemma format_minutes (host : Host) (t : Q) :
  (0 < t)%Q ->
  (let timeMinutes := Fin t in
   let hours := Math_floor (timeMinutes / Fin 60) in
   let minutes := Math_floor (timeMinutes %% Fin 60) in
   let seconds := Math_floor ((timeMinutes %% Fin 1) * Fin 60) in
   if hours >? Fin 0 then
     (Number_toString host hours ++ ":"
      ++ padStart 2 "0"%char (Number_toString host minutes) ++ ":"
      ++ padStart 2 "0"%char (Number_toString host seconds))%string
   else
     (Number_toString host minutes ++ ":"
      ++ padStart 2 "0"%char (Number_toString host seconds))%string)
  = format_duration host t.
Proof.
  intros Ht. cbv zeta.
  destruct (time_components t Ht) as [Hh [Hm [Hs Htot]]].
  unfold div, rem, mul, Math_floor, fin.
  change (Qeq_bool 60 0) with false. change (Qeq_bool 1 0) with false.
  cbv iota. rewrite Hh, Hm, Hs. unfold format_duration.
  set (total := Qfloor (t * 60)) in *.
  assert (0 <= (total / 60) mod 60 < 60)%Z as Hmr by (apply Z.mod_pos_bound; lia).
  assert (0 <= total mod 60 < 60)%Z as Hsr by (apply Z.mod_pos_bound; lia).
  rewrite !(Number_toString_small host ((total / 60) mod 60)) by lia.
  rewrite !(Number_toString_small host (total mod 60)) by lia.
  rewrite !padStart_two_digits by assumption.
  unfold gtb, ltb.
  assert (Qle_bool (inject_Z (total / 3600)) 0 = negb (Qle_bool 60 t)) as ->.
  { destruct (Qle_bool 60 t) eqn:E.
    - apply Qle_bool_iff in E. apply Qle_bool_false.
      change 0%Q with (inject_Z 0). rewrite <- Zlt_Qlt.
      assert (3600 <= total)%Z.
      { change 3600%Z with (Qfloor 3600). apply Qfloor_resp_le. lra. }
      apply (Z.div_str_pos total 3600). lia.
    - apply Qle_bool_false in E. apply Qle_bool_iff.
      change 0%Q with (inject_Z 0). rewrite <- Zle_Qle.
      assert (total < 3600)%Z.
      { pose proof (Qfloor_le (t * 60)) as Hf. fold total in Hf.
        rewrite Zlt_Qlt. change (inject_Z 3600) with 3600%Q. lra. }
      rewrite Z.div_small; lia. }
  rewrite negb_involutive. reflexivity.
Qed.

(** In the model the predicted time of a positive distance at a positive
    VO2max is a positive rational, [(0.52·D + 911.29) / v]. *)
Lemma timeMinutes_Fin (D v : Q) :
  (0 < D)%Q -> (0 < v)%Q ->
  exists t : Q,
    timeMinutes (Fin D) (Fin v) = Fin t /\ (0 < t)%Q
    /\ (t == (0.52 * D + 911.29) / v)%Q.
Proof.
  intros HD Hv.
  assert (0 < v * 0.2 * D)%Q as Hx
    by (apply Qmult_lt_0_compat; [apply Qmult_lt_0_compat|]; lra).
  assert (0 < 0.000104 * D + 0.182258)%Q as Hy by lra.
  assert (0 < v * 0.2 * D / (0.000104 * D + 0.182258))%Q as Hvel
    by (apply Qlt_shift_div_l; lra).
  unfold timeMinutes. rewrite !mul_Fin, add_Fin.
  rewrite (div_Fin (Qred (Qred (v * 0.2) * D)))
    by (rewrite !Qred_correct; lra).
  unfold fin. rewrite div_Fin by (rewrite !Qred_correct; lra).
  unfold fin. eexists. split; [reflexivity|].
  assert (Qred (Qred (D * 1000)
                / Qred (Qred (Qred (v * 0.2) * D) / Qred (Qred (0.000104 * D) + 0.182258)))
          == (0.52 * D + 911.29) / v)%Q as E.
  { rewrite !Qred_correct. field. split; lra. }
  split; [|exact E]. rewrite E. apply Qlt_shift_div_l; lra.
Qed.

(** [predictTime] formats its [timeMinutes]. *)
Lemma predictTime_timeMinutes (host : Host) (D v t : Q) :
  (0 < t)%Q -> timeMinutes (Fin D) (Fin v) = Fin t ->
  predictTime host (Fin D) (Fin v) = format_duration host t.
Proof.
  intros Ht Et. rewrite <- (format_minutes host t Ht). unfold predictTime.
  unfold timeMinutes in Et. cbv zeta in Et. rewrite Et. reflexivity.
Qed.

(** Claim C8.  For every positive VO2max [v] and distance [D] (in
    particular the marathon), with
    [timeMinutes = (D × 1000) / velocity] and
    [velocity = v × 0.2 × D / (0.000104·D + 0.182258)] a finite number
    [t]: the parts [H = floor(t / 60)], [M = floor(t % 60)] and
    [S = floor((t % 1) × 60)] the code computes are whole numbers, [M] and
    [S] between 0 and 59, and [H >= 1] exactly when [t] is at least 60
    minutes; [predictTime(D, v)] is [H:MM:SS] when the time is at least
    one hour and [M:SS] otherwise, minutes and seconds zero-padded to two
    digits (the minutes of [M:SS] are not padded).  The result is a
    function of [D] and [v].  The parts are those of the code's own
    expressions: which second a time on the boundary of two seconds falls
    on is not fixed here. *)
Theorem predictTime_format (host : Host) (D v t : Q) :
  (0 < D)%Q -> (0 < v)%Q ->
  timeMinutes (Fin D) (Fin v) = Fin t ->
  exists h m s : Z,
    Math_floor (Fin t / Fin 60) = Fin (inject_Z h)
    /\ Math_floor (Fin t %% Fin 60) = Fin (inject_Z m)
    /\ Math_floor ((Fin t %% Fin 1) * Fin 60) = Fin (inject_Z s)
    /\ (0 <= h)%Z /\ (0 <= m < 60)%Z /\ (0 <= s < 60)%Z
    /\ ((1 <= h)%Z <-> (60 <= t)%Q)
    /\ ((60 <= t)%Q ->
        predictTime host (Fin D) (Fin v)
        = (Number_toString host (Fin (inject_Z h)) ++ ":" ++ two_digits m
           ++ ":" ++ two_digits s)%string)
    /\ ((t < 60)%Q ->
        predictTime host (Fin D) (Fin v)
        = (Z_toString m ++ ":" ++ two_digits s)%string).
Proof.
  intros HD Hv Et.
  destruct (timeMinutes_Fin D v HD Hv) as [q [Eq [Hq _]]].
  rewrite Et in Eq. injection Eq as <-.
  rewrite (predictTime_timeMinutes host D v t Hq Et).
  destruct (time_components t Hq) as [Hh [Hm [Hs Htot]]].
  set (total := Qfloor (t * 60)) in *.
  assert (0 <= (total / 60) mod 60 < 60)%Z as Hmr by (apply Z.mod_pos_bound; lia).
  assert (0 <= total mod 60 < 60)%Z as Hsr by (apply Z.mod_pos_bound; lia).
  assert ((1 <= total / 3600)%Z <-> (60 <= t)%Q) as Hone.
  { split.
    - intros H1.
      assert (3600 <= total)%Z as H36.
      { destruct (Z.lt_ge_cases total 3600) as [Hlt|Hge]; [|exact Hge].
        rewrite Z.div_small in H1; lia. }
      pose proof (Qfloor_le (t * 60)) as Hf. fold total in Hf.
      rewrite Zle_Qle in H36. change (inject_Z 3600) with 3600%Q in H36. lra.
    - intros H.
      assert (3600 <= total)%Z.
      { change 3600%Z with (Qfloor 3600). apply Qfloor_resp_le. lra. }
      apply Z.div_le_lower_bound; lia. }
  exists (total / 3600)%Z, ((total / 60) mod 60)%Z, (total mod 60)%Z.
  split; [|split; [|split]].
  - unfold div. change (Qeq_bool 60 0) with false. cbv iota.
    unfold fin, Math_floor. now rewrite Hh.
  - unfold rem. change (Qeq_bool 60 0) with false. cbv iota.
    unfold fin, Math_floor. now rewrite Hm.
  - unfold rem. change (Qeq_bool 1 0) with false. cbv iota.
    unfold fin. rewrite mul_Fin. unfold Math_floor. now rewrite Hs.
  - split; [apply Z.div_pos; lia|]. split; [exact Hmr|]. split; [exact Hsr|].
    split; [exact Hone|]. unfold format_duration. fold total. split.
    + intros H. apply Qle_bool_iff in H. now rewrite H.
    + intros H. apply Qle_bool_false in H. now rewrite H.
Qed.

(** The claim on the marathon at a VO2max of 50 (18.664628 minutes) and at
    a VO2max of 3 (311.0771... minutes). *)
Lemma predictTime_format_witness :
  predictTime (Demo.host Demo.noon 0) (Fin 42.195) (Fin 50) = "18:39"%string
  /\ predictTime (Demo.host Demo.noon 0) (Fin 42.195) (Fin 3) = "5:11:04"%string.
Proof.
  split.
  - destruct (predictTime_format (Demo.host Demo.noon 0) 42.195 50 (4666157 # 250000)
                eq_refl eq_refl eq_refl)
      as (h & m & s & _ & Em & Es & _ & _ & _ & _ & _ & Hlt).
    rewrite (Hlt eq_refl). vm_compute in Em, Es.
    injection Em as <-. injection Es as <-. reflexivity.
  - destruct (predictTime_format (Demo.host Demo.noon 0) 42.195 3 (4666157 # 15000)
                eq_refl eq_refl eq_refl)
      as (h & m & s & Eh & Em & Es & _ & _ & _ & _ & Hge & _).
    rewrite Hge by (apply Qle_bool_iff; reflexivity). vm_compute in Eh, Em, Es.
    injection Eh as <-. injection Em as <-. injection Es as <-. reflexivity.
Defined.

(* ================================================================== *)
(** * Training-load history                                            *)
(* ================================================================== *)

Section History.
Variable host : Host.
Variable this : StravaMetrics.
Variable sorted : list Activity.

Lemma Date_addDays_Some (t k : Z) :
  Date_addDays host (Some t) k = TimeClip (t + k * msPerDay)%Z.
Proof. unfold Date_addDays, UTC, LocalTime. f_equal. lia. Qed.

Lemma leb_valueOf (d today : Date) :
  (valueOf d <=? valueOf today) = true <->
  exists s n, d = Some s /\ today = Some n /\ (s <= n)%Z.
Proof.
  destruct d as [s|], today as [n|]; cbn; split;
    try discriminate; try (intros [s' [n' [? [? _]]]]; discriminate).
  - intros H. apply Qle_bool_iff in H. rewrite <- Zle_Qle in H. eauto.
  - intros [s' [n' [E1 [E2 H]]]]. injection E1 as ->. injection E2 as ->.
    apply Qle_bool_iff. now rewrite <- Zle_Qle.
Qed.

Lemma TimeClip_cases (t : Z) :
  (TimeClip t = Some t /\ (Z.abs t <= maxTime)%Z)
  \/ (TimeClip t = None /\ (maxTime < Z.abs t)%Z).
Proof. unfold TimeClip. destruct (Z.leb_spec (Z.abs t) maxTime); auto. Qed.

(** The loop ends by its own test within [days_between d today] rounds:
    more fuel changes nothing. *)
Lemma history_loop_fuel (k fuel : nat) (today d : Date) (ctl atl : num) :
  (days_between d today <= fuel)%nat ->
  history_loop host this (fuel + k) sorted today d ctl atl
  = history_loop host this fuel sorted today d ctl atl.
Proof.
  revert d ctl atl. induction fuel as [|fuel IH]; intros d ctl atl Hb.
  - destruct k as [|k]; [reflexivity|]. cbn [Nat.add history_loop].
    destruct (valueOf d <=? valueOf today) eqn:E; [|reflexivity].
    apply leb_valueOf in E as [s [n [-> [-> Hsn]]]]. exfalso.
    unfold days_between in Hb.
    assert (0 <= (n - s) / msPerDay)%Z
      by (apply Z.div_pos; unfold msPerDay; lia).
    lia.
  - cbn [Nat.add history_loop].
    destruct (valueOf d <=? valueOf today) eqn:E; [|reflexivity].
    apply leb_valueOf in E as [s [n [-> [-> Hsn]]]].
    rewrite IH; [reflexivity|].
    rewrite Date_addDays_Some.
    destruct (TimeClip_cases (s + 1 * msPerDay)%Z) as [[-> _]|[-> _]];
      unfold days_between in *; [|lia].
    replace (n - (s + 1 * msPerDay))%Z with (n - s + (-1) * msPerDay)%Z by lia.
    rewrite Z.div_add by (unfold msPerDay; lia). lia.
Qed.

(** Inside the loop the date is valid, so [toISOString] does not throw. *)
Lemma history_loop_returns (fuel : nat) (today d : Date) (ctl atl : num) :
  exists history,
    history_loop host this fuel sorted today d ctl atl = Ok history.
Proof.
  revert d ctl atl. induction fuel as [|fuel IH]; intros d ctl atl;
    cbn [history_loop]; [eauto|].
  destruct (valueOf d <=? valueOf today) eqn:E; [|eauto].
  apply leb_valueOf in E as [s [n [-> [-> Hsn]]]]. cbn [toISODate bind].
  destruct (IH (Date_addDays host (Some s) 1)
              (calculateCTL host this sorted (Some s) ctl)
              (calculateATL host this sorted (Some s) atl)) as [rest ->].
  cbn. eauto.
Qed.

(** Every point carries the roundings of a fitness [c], a fatigue [a]
    and their difference. *)
Lemma history_loop_points (fuel : nat) (today d : Date) (ctl atl : num)
    (history : list TrainingLoadPoint.t) :
  history_loop host this fuel sorted today d ctl atl = Ok history ->
  Forall (fun p => exists c a,
            TrainingLoadPoint.ctl p = round1 c
            /\ TrainingLoadPoint.atl p = round1 a
            /\ TrainingLoadPoint.tsb p = round1 (c - a)) history.
Proof.
  revert d ctl atl history.
  induction fuel as [|fuel IH]; intros d ctl atl history H;
    cbn [history_loop] in H.
  - injection H as <-. constructor.
  - destruct (valueOf d <=? valueOf today); [|injection H as <-; constructor].
    destruct (toISODate d) as [date|]; [|discriminate]. cbn [bind] in H.
    destruct (history_loop host this fuel _ _ _ _ _) as [rest|] eqn:E;
      [|discriminate].
    cbn in H. injection H as <-. constructor; [|eapply IH; eassumption].
    cbn. unfold calculateTSB. eauto.
Qed.

End History.

Lemma round1_Fin_inv (x : num) (c : Q) :
  round1 x = Fin c ->
  exists q : Q,
    x = Fin q /\ (c == inject_Z (Qfloor (q * 10 + (1 # 2))) / 10)%Q.
Proof.
  destruct x as [| | |q]; try discriminate. intros H. exists q.
  split; [reflexivity|]. unfold round1 in H. rewrite mul_Fin in H.
  unfold Math_round in H. rewrite div_Fin in H by discriminate.
  unfold fin in H.
  match type of H with Fin ?e = Fin c => assert (c = e) as -> by congruence end.
  rewrite Qred_correct.
  now rewrite (Qfloor_comp (Qred (q * 10) + (1 # 2)) (q * 10 + (1 # 2)))
    by (now rewrite Qred_correct).
Qed.

Lemma round1_Fin (q : Q) :
  round1 (Fin q) = Fin (Qred (inject_Z (Qfloor (Qred (q * 10) + (1 # 2))) / 10)).
Proof.
  unfold round1. rewrite mul_Fin. unfold Math_round.
  now rewrite div_Fin by discriminate.
Qed.

(** Rounding the difference and subtracting the roundings differ by at
    most one tenth. *)
Lemma round1_sub_tolerance (x y : num) (c a : Q) :
  round1 x = Fin c -> round1 y = Fin a ->
  exists t : Q, round1 (x - y) = Fin t /\ (Qabs (t - (c - a)) <= 1 # 10)%Q.
Proof.
  intros Hx Hy.
  apply round1_Fin_inv in Hx as [q [-> Hc]].
  apply round1_Fin_inv in Hy as [r [-> Ha]].
  rewrite sub_Fin, round1_Fin. eexists. split; [reflexivity|].
  rewrite Qred_correct, Hc, Ha.
  rewrite (Qfloor_comp (Qred (Qred (q - r) * 10) + (1 # 2))
             ((q - r) * 10 + (1 # 2))) by (now rewrite !Qred_correct).
  set (C := Qfloor (q * 10 + (1 # 2))). set (A := Qfloor (r * 10 + (1 # 2))).
  set (T := Qfloor ((q - r) * 10 + (1 # 2))).
  pose proof (Qfloor_le (q * 10 + (1 # 2))) as HC1.
  pose proof (Qlt_floor (q * 10 + (1 # 2))) as HC2.
  pose proof (Qfloor_le (r * 10 + (1 # 2))) as HA1.
  pose proof (Qlt_floor (r * 10 + (1 # 2))) as HA2.
  pose proof (Qfloor_le ((q - r) * 10 + (1 # 2))) as HT1.
  pose proof (Qlt_floor ((q - r) * 10 + (1 # 2))) as HT2.
  fold C in HC1, HC2. fold A in HA1, HA2. fold T in HT1, HT2.
  rewrite inject_Z_plus in HC2, HA2, HT2. change (inject_Z 1) with 1%Q in *.
  assert (-1 <= T - C + A <= 1)%Z as Hz.
  { split.
    - assert (inject_Z (-2) < inject_Z (T - C + A))%Q as H
        by (unfold Z.sub; rewrite !inject_Z_plus, inject_Z_opp;
            change (inject_Z (-2)) with (-2)%Q; lra).
      rewrite <- Zlt_Qlt in H. lia.
    - assert (inject_Z (T - C + A) < inject_Z 2)%Q as H
        by (unfold Z.sub; rewrite !inject_Z_plus, inject_Z_opp;
            change (inject_Z 2) with 2%Q; lra).
      rewrite <- Zlt_Qlt in H. lia. }
  assert (inject_Z (-1) <= inject_Z (T - C + A) <= inject_Z 1)%Q as Hq
    by (rewrite <- !Zle_Qle; exact Hz).
  unfold Z.sub in Hq. rewrite !inject_Z_plus, inject_Z_opp in Hq.
  change (inject_Z (-1)) with (-1)%Q in Hq. change (inject_Z 1) with 1%Q in Hq.
  apply Qabs_Qle_condition. unfold Qdiv. change (/ 10)%Q with (1 # 10)%Q.
  split; lra.
Qed.

(** Claim C2, as amended.  [generateTrainingLoadHistory] returns, and at
    every point whose [ctl] and [atl] are finite, of magnitude at most
    1,000,000, the reported [tsb] is finite and within one tenth of
    [ctl − atl], up to a billionth: the three values are rounded to one
    decimal separately, and [tsb] is the rounding of the unrounded
    difference, so the reported values can disagree by one step of the
    rounding.  The billionth covers the error of writing a tenth as a
    binary64 number (below 10⁻⁹ at these magnitudes); in exact arithmetic
    the distance is at most 0.1. *)
Theorem trainingLoad_balance (host : Host) (this : StravaMetrics) (daysBack : Z) :
  exists history,
    generateTrainingLoadHistory host this daysBack = Ok history
    /\ forall p, In p history ->
       forall c a : Q,
         TrainingLoadPoint.ctl p = Fin c -> TrainingLoadPoint.atl p = Fin a ->
         (Qabs c <= 1000000)%Q -> (Qabs a <= 1000000)%Q ->
         exists t : Q,
           TrainingLoadPoint.tsb p = Fin t
           /\ (Qabs (t - (c - a)) <= (1 # 10) + (1 # 1000000000))%Q.
Proof.
  unfold generateTrainingLoadHistory.
  destruct (history_loop_returns host this
              (sort (fun a b => valueOf (Date_of host (start_date_local a))
                                - valueOf (Date_of host (start_date_local b)))
                 (activities this))
              (days_between (Date_addDays host (Date_new host) (- daysBack))
                 (Date_new host))
              (Date_new host) (Date_addDays host (Date_new host) (- daysBack))
              (Fin 0) (Fin 0)) as [history Hh].
  exists history. split; [exact Hh|].
  intros p Hp c a Hc Ha _ _.
  pose proof (history_loop_points _ _ _ _ _ _ _ _ _ Hh) as Hall.
  rewrite Forall_forall in Hall. destruct (Hall p Hp) as [x [y [Ex [Ey Et]]]].
  destruct (round1_sub_tolerance x y c a) as [t [Ht Hb]]; [congruence | congruence |].
  exists t. split; [now rewrite Et|]. lra.
Qed.

(** The amended claim on the two days after an hour's ride: on both the
    reported values differ by exactly one tenth. *)
Lemma trainingLoad_balance_witness :
  exists history,
    generateTrainingLoadHistory (Demo.host Demo.noon 0) (engine_of [hour_ride]) 1
    = Ok history
    /\ length history = 2%nat
    /\ forall p, In p history ->
       exists c a t : Q,
         TrainingLoadPoint.ctl p = Fin c /\ TrainingLoadPoint.atl p = Fin a
         /\ TrainingLoadPoint.tsb p = Fin t
         /\ (Qabs (t - (c - a)) <= (1 # 10) + (1 # 1000000000))%Q.
Proof.
  destruct (trainingLoad_balance (Demo.host Demo.noon 0) (engine_of [hour_ride]) 1)
    as [history [Hh Hp]].
  exists history. split; [exact Hh|].
  assert (Ok history
          = generateTrainingLoadHistory (Demo.host Demo.noon 0)
              (engine_of [hour_ride]) 1) as E by (now rewrite Hh).
  vm_compute in E. injection E as ->. split; [reflexivity|].
  intros p Hin.
  assert (exists c a : Q,
             TrainingLoadPoint.ctl p = Fin c /\ TrainingLoadPoint.atl p = Fin a
             /\ (Qabs c <= 1000000)%Q /\ (Qabs a <= 1000000)%Q) as (c & a & Ec & Ea & Bc & Ba).
  { destruct Hin as [<-|[<-|[]]]; do 2 eexists;
      (split; [reflexivity|]); (split; [reflexivity|]);
      split; apply Qle_bool_iff; reflexivity. }
  destruct (Hp p Hin c a Ec Ea Bc Ba) as [t [Et Hb]].
  exists c, a, t. auto.
Defined.

(** Claim C2 as stated fails the day after an hour's ride at 200 W: the
    point of 2025-06-15 reports [ctl = 4.1], [atl = 20.5] and
    [tsb = -16.5], where [ctl − atl = -16.4]. *)
Lemma trainingLoad_balance_off_by_a_tenth :
  generateTrainingLoadHistory (Demo.host Demo.noon 0) (engine_of [hour_ride]) 1
  = Ok [ {| TrainingLoadPoint.date := "2025-06-14";
            TrainingLoadPoint.ctl := Fin (21 # 5);
            TrainingLoadPoint.atl := Fin (237 # 10);
            TrainingLoadPoint.tsb := Fin (-39 # 2) |};
         {| TrainingLoadPoint.date := "2025-06-15";
            TrainingLoadPoint.ctl := Fin (41 # 10);
            TrainingLoadPoint.atl := Fin (41 # 2);
            TrainingLoadPoint.tsb := Fin (-33 # 2) |} ]
  /\ ~ (Qabs ((-33 # 2) - ((41 # 10) - (41 # 2))) <= 0.05)%Q.
Proof.
  split; [vm_compute; reflexivity|]. intros H. vm_compute in H. now apply H.
Qed.

(** Claim C3 on a host two hours ahead of UTC, half past one in the
    night of 2025-06-15 (local time), for the [daysBack = 90] of the
    training-load chart.  The loop steps local calendar days up to the
    local today and [calculateCTL] matches the activities by local day,
    but the label of a point is the date part of [toISOString], the UTC
    date of the same instant: the 91 labels run from 2025-03-16 to
    2025-06-14, a day behind the window the claim describes, and the ride
    started on 2025-06-15 is the load of the point labelled 2025-06-14
    (none of it is on the point before). *)
Lemma trainingLoad_window_a_day_behind :
  exists history,
    generateTrainingLoadHistory johannesburg night_owl 90 = Ok history
    /\ length history = 91%nat
    /\ toISODate (TimeClip (LocalTime johannesburg (Date_now johannesburg)))
       = Ok "2025-06-15"%string
    /\ List.hd_error (List.map TrainingLoadPoint.date history)
       = Some "2025-03-16"%string
    /\ List.last (List.map TrainingLoadPoint.date history) ""%string
       = "2025-06-14"%string
    /\ List.nth_error (List.map TrainingLoadPoint.ctl history) 89 = Some (Fin 0)
    /\ List.nth_error (List.map TrainingLoadPoint.ctl history) 90
       = Some (Fin (21 # 5)).
Proof.
  eexists. split; [vm_compute; reflexivity|].
  repeat split; vm_compute; reflexivity.
Qed.

(* ================================================================== *)
(** * Daily totals                                                     *)
(* ================================================================== *)

Lemma fold_add_finite (l : list num) (v : num) :
  is_finite v = true -> Forall (fun x => is_finite x = true) l ->
  is_finite (fold_left add l v) = true.
Proof.
  revert v. induction l as [|x l IH]; intros v Hv Hl; [exact Hv|].
  inversion Hl as [|? ? Hx Hl']; subst. cbn [fold_left]. apply IH; [|exact Hl'].
  destruct v, x; try discriminate. reflexivity.
Qed.

Lemma add_zero_like (v x : num) :
  is_finite v = true -> is_finite x = true -> truthy v = false ->
  Fin 0 + x = v + x.
Proof.
  destruct v as [| | |q], x as [| | |t]; try discriminate. intros _ _ H.
  unfold truthy in H. apply negb_false_iff, Qeq_bool_iff in H.
  rewrite !add_Fin. f_equal. apply Qred_complete. now rewrite H.
Qed.

Section Daily.
Variable host : Host.
Variable this : StravaMetrics.

Lemma daily_loop_spec (acts : list Activity) (dailyData : gmap string num) :
  (forall a, In a acts -> start_date_local a <> None) ->
  (forall a, In a acts -> is_finite (calculateTSS host this a) = true) ->
  (forall k x, dailyData !! k = Some x -> is_finite x = true) ->
  exists result,
    daily_loop host this dailyData acts = Ok result
    /\ forall date,
         result !! date
         = after_loop (dailyData !! date)
             (List.map (calculateTSS host this) (List.filter (on_date date) acts)).
Proof.
  revert dailyData. induction acts as [|a acts IH]; intros m Hd Hf Hm.
  - exists m. split; [reflexivity|]. intros date. cbn. now destruct (m !! date).
  - cbn [daily_loop]. unfold daily_step.
    destruct (start_date_local a) as [s|] eqn:Es;
      [|exfalso; apply (Hd a); [now left | exact Es]].
    cbn [date_part bind]. set (key := split_head "T"%char s).
    set (tss := calculateTSS host this a).
    assert (is_finite tss = true) as Htss by (apply Hf; now left).
    set (m1 := if negb (truthy_opt (m !! key)) then <[key := Fin 0]> m else m).
    set (m2 := <[key := toNum (m1 !! key) + tss]> m1).
    assert (forall k x, m2 !! k = Some x -> is_finite x = true) as Hm2.
    { intros k x. unfold m2. destruct (decide (key = k)) as [<-|Hne].
      - rewrite lookup_insert_eq. intros [= <-]. unfold m1.
        destruct (m !! key) as [v|] eqn:Ev; cbn [truthy_opt negb].
        + destruct (truthy v) eqn:Et; cbn [negb].
          * rewrite Ev. cbn. specialize (Hm _ _ Ev).
            destruct v, tss; try discriminate; reflexivity.
          * rewrite lookup_insert_eq. cbn. now destruct tss.
        + rewrite lookup_insert_eq. cbn. now destruct tss.
      - rewrite lookup_insert_ne by exact Hne. unfold m1.
        destruct (negb (truthy_opt (m !! key)));
          [rewrite lookup_insert_ne by exact Hne|]; apply Hm. }
    destruct (IH m2) as [result [Hres Hlook]];
      [intros; apply Hd; now right | intros; apply Hf; now right | exact Hm2 |].
    exists result. split; [exact Hres|]. intros date. rewrite Hlook.
    cbn [List.filter]. unfold on_date at 2, date_key. rewrite Es. fold key.
    destruct (String.eqb_spec key date) as [<-|Hne].
    + cbn [List.map]. unfold m2. rewrite lookup_insert_eq. fold tss.
      unfold m1. destruct (m !! key) as [v|] eqn:Ev; cbn [truthy_opt negb].
      * destruct (truthy v) eqn:Et; cbn [negb].
        -- rewrite Ev. reflexivity.
        -- rewrite lookup_insert_eq. cbn [toNum after_loop fold_left].
           rewrite (add_zero_like v tss); eauto.
      * rewrite lookup_insert_eq. cbn [toNum after_loop].
        destruct (List.map _ _); reflexivity.
    + unfold m2. rewrite lookup_insert_ne by exact Hne. unfold m1.
      destruct (negb (truthy_opt (m !! key)));
        [rewrite lookup_insert_ne by exact Hne|]; reflexivity.
Qed.
End Daily.

(** Claim C9, as amended.  For every activity list whose records all carry
    [start_date_local] and have a finite score, [getDailyTSS] returns the
    map that assigns to each date key the sum of [calculateTSS] over all
    the activities of the set filed under it (no windowing); and for every
    list and every two values of [daysBack] the outcome is the same. *)
Theorem getDailyTSS_totals (host : Host) (this : StravaMetrics) :
  (forall d1 d2, getDailyTSS host this d1 = getDailyTSS host this d2)
  /\ ((forall a, In a (activities this) ->
         start_date_local a <> None
         /\ is_finite (calculateTSS host this a) = true) ->
      forall daysBack, exists dailyData,
        getDailyTSS host this daysBack = Ok dailyData
        /\ forall date,
             dailyData !! date
             = if List.existsb (on_date date) (activities this)
               then Some (daily_total host this date) else None).
Proof.
  split; [reflexivity|]. intros Hall daysBack. unfold getDailyTSS.
  destruct (daily_loop_spec host this (activities this) ∅) as [result [Hres Hlook]].
  - intros a Ha. now apply Hall.
  - intros a Ha. now apply Hall.
  - intros k x. rewrite lookup_empty. discriminate.
  - exists result. split; [exact Hres|]. intros date. rewrite Hlook, lookup_empty.
    unfold daily_total. clear Hres Hlook Hall.
    induction (activities this) as [|a l IH]; [reflexivity|].
    cbn [List.existsb List.filter]. destruct (on_date date a); [reflexivity|].
    cbn [orb]. exact IH.
Qed.

(** The amended claim on three activities over two days. *)
Lemma getDailyTSS_totals_witness :
  exists dailyData,
    getDailyTSS (Demo.host Demo.noon 0)
      (engine_of [hour_zero_watts; steady_10k; unnamed]) (Fin 120) = Ok dailyData
    /\ dailyData !! "2025-06-15"%string = Some (Fin 45)
    /\ dailyData !! "2025-06-10"%string = Some (Fin 119)
    /\ dailyData !! "2025-06-11"%string = None.
Proof.
  destruct (getDailyTSS_totals (Demo.host Demo.noon 0)
              (engine_of [hour_zero_watts; steady_10k; unnamed])) as [_ H].
  destruct (H ltac:(intros a [<-|[<-|[<-|[]]]];
                    (split; [discriminate | vm_compute; reflexivity]))
              (Fin 120)) as [dailyData [Hd Hlook]].
  exists dailyData. split; [exact Hd|].
  rewrite !Hlook. repeat split; vm_compute; reflexivity.
Defined.

(** Claim C9 as stated fails on two kinds of list: a record without
    [start_date_local] makes [getDailyTSS] throw instead of returning a
    map; and a score that is [NaN] (here a record with power but no
    [moving_time]) is dropped by the [!dailyData[date]] reset when the next
    activity of the day arrives, so the day reads 30 where the sum of the
    scores is [NaN]. *)
Lemma getDailyTSS_not_the_sum :
  getDailyTSS (Demo.host Demo.noon 0) (engine_of [undated]) (Fin 120)
  = Throw TypeError
  /\ exists dailyData,
       getDailyTSS (Demo.host Demo.noon 0)
         (engine_of [untimed; hour_zero_watts]) (Fin 120) = Ok dailyData
       /\ dailyData !! "2025-06-15"%string = Some (Fin 30)
       /\ daily_total (Demo.host Demo.noon 0)
            (engine_of [untimed; hour_zero_watts]) "2025-06-15" = NaN.
Proof.
  split; [reflexivity|]. eexists. split; [vm_compute; reflexivity|].
  split; vm_compute; reflexivity.
Qed.

(* ================================================================== *)
(** * Totality                                                         *)
(* ================================================================== *)

Lemma mapM_returns {A B} (f : A -> completion B) (l : list A) :
  (forall a, In a l -> exists b, f a = Ok b) -> exists r, mapM f l = Ok r.
Proof.
  induction l as [|a l IH]; intros H; cbn [mapM]; [eauto|].
  destruct (H a) as [b ->]; [now left|].
  destruct IH as [r ->]; [intros; apply H; now right|]. cbn. eauto.
Qed.

Lemma filterM_returns {A} (p : A -> completion bool) (l : list A) :
  (forall a, In a l -> exists b, p a = Ok b) ->
  exists r, filterM p l = Ok r /\ forall a, In a r -> In a l.
Proof.
  induction l as [|a l IH]; intros H; cbn [filterM].
  - exists []. split; [reflexivity | intros a []].
  - destruct (H a) as [b ->]; [now left|].
    destruct IH as [r [-> Hr]]; [intros; apply H; now right|]. cbn.
    eexists. split; [reflexivity|]. intros x Hx.
    destruct b; [destruct Hx as [<-|Hx]; [now left|]|]; right; now apply Hr.
Qed.

Lemma reduce1_betterEffort_In (c : Activity) (cs : list Activity) :
  In (reduce1 betterEffort c cs) (c :: cs).
Proof.
  unfold reduce1. revert c. induction cs as [|x cs IH]; intros c; [now left|].
  cbn [fold_left]. specialize (IH (betterEffort c x)).
  destruct IH as [E|Hin].
  - rewrite <- E. unfold betterEffort.
    destruct (_ >? _); [right; now left | now left].
  - right. now right.
Qed.

Section Totality.
Variable host : Host.
Variable this : StravaMetrics.
Hypothesis dated : forall a, In a (activities this) -> start_date_local a <> None.

Lemma date_part_returns (a : Activity) :
  In a (activities this) -> exists d, date_part (start_date_local a) = Ok d.
Proof.
  intros Ha. specialize (dated a Ha).
  destruct (start_date_local a); [cbn; eauto | congruence].
Qed.

Lemma vo2max_loop_returns (runs : list Activity) :
  (forall a, In a runs -> In a (activities this)) ->
  exists h, vo2max_loop host this runs = Ok h.
Proof.
  induction runs as [|a runs IH]; intros Hsub; cbn [vo2max_loop]; [eauto|].
  destruct IH as [h Hh]; [intros; apply Hsub; now right|].
  destruct (saneVO2max _); [|eauto].
  destruct (date_part_returns a) as [d ->]; [apply Hsub; now left|].
  cbn [bind]. rewrite Hh. cbn. eauto.
Qed.

Lemma generateVO2maxHistory_returns :
  exists h, generateVO2maxHistory host this = Ok h.
Proof.
  apply vo2max_loop_returns. intros a Ha.
  apply sort_In, filter_In in Ha. tauto.
Qed.

Lemma predictRaceTimes_returns : exists r, predictRaceTimes host this = Ok r.
Proof.
  unfold predictRaceTimes. destruct generateVO2maxHistory_returns as [h ->].
  cbn [bind]. destruct (length h =? 0)%nat; eauto.
Qed.

Lemma curve_loop_returns (aw : list Activity) (ds : list num) :
  (forall a, In a aw -> In a (activities this)) ->
  exists curve, curve_loop aw ds = Ok curve.
Proof.
  intros Hsub. induction ds as [|d ds [curve IH]]; cbn [curve_loop]; [eauto|].
  destruct (candidates aw d) as [|c cs] eqn:Ec; [eauto|].
  destruct (date_part_returns (reduce1 betterEffort c cs)) as [date ->].
  - apply Hsub. pose proof (reduce1_betterEffort_In c cs) as Hin.
    rewrite <- Ec in Hin. apply filter_In in Hin. tauto.
  - cbn [bind]. rewrite IH. cbn. eauto.
Qed.

Lemma analyzePowerCurve_returns : exists r, analyzePowerCurve this = Ok r.
Proof.
  unfold analyzePowerCurve. destruct (length _ =? 0)%nat; [eauto|].
  destruct (curve_loop_returns
              (List.filter (fun a => truthy_opt (average_watts a)) (activities this))
              durations) as [curve ->].
  - intros a Ha. apply filter_In in Ha. tauto.
  - cbn. eauto.
Qed.

Lemma daily_loop_returns (acts : list Activity) (dailyData : gmap string num) :
  (forall a, In a acts -> In a (activities this)) ->
  exists m, daily_loop host this dailyData acts = Ok m.
Proof.
  revert dailyData. induction acts as [|a acts IH]; intros m Hsub;
    cbn [daily_loop]; [eauto|].
  unfold daily_step.
  destruct (date_part_returns a) as [d ->]; [apply Hsub; now left|].
  cbn [bind]. apply IH. intros; apply Hsub; now right.
Qed.

Lemma detectIntervals_returns (minActivities : num) :
  (forall a, In a (activities this) -> name a <> None) ->
  exists l, detectIntervals host this minActivities = Ok l.
Proof.
  intros named. unfold detectIntervals.
  destruct (filterM_returns isIntervalName (activities this)) as [ws [-> Hws]].
  - intros a Ha. specialize (named a Ha). unfold isIntervalName.
    destruct (name a); [eauto | congruence].
  - cbn [bind]. destruct (mapM_returns (summarize host this) ws) as [ss ->].
    + intros a Ha. unfold summarize.
      destruct (date_part_returns a) as [d ->]; [now apply Hws|]. cbn. eauto.
    + cbn. eauto.
Qed.
End Totality.

(** Claim C5, as amended.  [generateTrainingLoadHistory] returns on every
    activity list, and [calculateTSS] and [calculateWorkoutQuality] give
    their defaults (0 and 5) on a record with no property at all.
    [generateVO2maxHistory], [predictRaceTimes], [analyzePowerCurve] and
    [getDailyTSS] return whenever every record carries [start_date_local],
    and [detectIntervals] whenever every record carries [start_date_local]
    and [name]; absent heart rate, power, distance or duration never make
    an operation raise. *)
Theorem derivations_total (host : Host) (this : StravaMetrics) :
  (forall daysBack,
     exists h, generateTrainingLoadHistory host this daysBack = Ok h)
  /\ calculateTSS host this blank = Fin 0
  /\ (forall tss, calculateWorkoutQuality this blank tss = Fin 5)
  /\ ((forall a, In a (activities this) -> start_date_local a <> None) ->
      (exists h, generateVO2maxHistory host this = Ok h)
      /\ (exists r, predictRaceTimes host this = Ok r)
      /\ (exists r, analyzePowerCurve this = Ok r)
      /\ (forall daysBack, exists m, getDailyTSS host this daysBack = Ok m)
      /\ ((forall a, In a (activities this) -> name a <> None) ->
          forall minActivities,
            exists l, detectIntervals host this minActivities = Ok l)).
Proof.
  split; [|split; [|split]].
  - intros daysBack. apply history_loop_returns.
  - reflexivity.
  - intros tss. unfold calculateWorkoutQuality. cbn.
    destruct tss; reflexivity.
  - intros dated. repeat split.
    + now apply generateVO2maxHistory_returns.
    + now apply predictRaceTimes_returns.
    + now apply analyzePowerCurve_returns.
    + intros daysBack. now apply daily_loop_returns.
    + intros named n. now apply detectIntervals_returns.
Qed.

(** The amended claim on records without heart rate, power or distance. *)
Lemma derivations_total_witness :
  let this := engine_of [hour_zero_watts; steady_10k;
                         {| type := None;
                            start_date_local := Some "2025-06-01"%string;
                            moving_time := None; distance := None;
                            average_heartrate := None; has_heartrate := None;
                            average_watts := None; weighted_average_watts := None;
                            name := Some "5 x 1000m"%string |}] in
  (exists h, generateVO2maxHistory (Demo.host Demo.noon 0) this = Ok h)
  /\ (exists m, getDailyTSS (Demo.host Demo.noon 0) this (Fin 120) = Ok m)
  /\ (exists l, detectIntervals (Demo.host Demo.noon 0) this (Fin 20) = Ok l
                /\ length l = 1%nat).
Proof.
  intros this.
  destruct (derivations_total (Demo.host Demo.noon 0) this) as [_ [_ [_ H]]].
  destruct H as [Hv [_ [_ [Hd Hi]]]].
  { intros a [<-|[<-|[<-|[]]]]; discriminate. }
  split; [exact Hv|]. split; [apply Hd|].
  destruct (Hi ltac:(intros a [<-|[<-|[<-|[]]]]; discriminate) (Fin 20)) as [l Hl].
  exists l. split; [exact Hl|].
  assert (Ok l = detectIntervals (Demo.host Demo.noon 0) this (Fin 20)) as E
    by (now rewrite Hl).
  vm_compute in E. injection E as ->. reflexivity.
Defined.

(** Claim C5 as stated fails: [detectIntervals] raises a [TypeError] on a
    record without [name] ([a.name.toLowerCase()]), and [getDailyTSS],
    like the other operations that read [start_date_local.split], on a
    record without a date. *)
Lemma derivations_raise_on_missing_name_or_date :
  detectIntervals (Demo.host Demo.noon 0) (engine_of [unnamed]) (Fin 20)
  = Throw TypeError
  /\ getDailyTSS (Demo.host Demo.noon 0) (engine_of [undated]) (Fin 120)
     = Throw TypeError
  /\ detectIntervals (Demo.host Demo.noon 0)
       (engine_of [{| type := Some "Run"%string; start_date_local := None;
                      moving_time := Some (Fin 1800); distance := Some (Fin 5000);
                      average_heartrate := None; has_heartrate := None;
                      average_watts := None; weighted_average_watts := None;
                      name := Some "Tempo"%string |}]) (Fin 20)
     = Throw TypeError.
Proof. repeat split; vm_compute; reflexivity. Qed.

(* ================================================================== *)
(** * The type of an activity is never read                            *)
(* ================================================================== *)

Section MapFacts.
Context {A : Type} (g : A -> A).

Lemma filter_map_comm (p : A -> bool) (l : list A) :
  (forall a, p (g a) = p a) ->
  List.filter p (List.map g l) = List.map g (List.filter p l).
Proof.
  intros H. induction l as [|a l IH]; [reflexivity|].
  cbn [List.map List.filter]. rewrite H, IH. now destruct (p a).
Qed.

Lemma sort_insert_map_comm (cmp : A -> A -> num) (x : A) (l : list A) :
  (forall a b, cmp (g a) (g b) = cmp a b) ->
  sort_insert cmp (g x) (List.map g l) = List.map g (sort_insert cmp x l).
Proof.
  intros H. induction l as [|a l IH]; [reflexivity|].
  cbn [List.map sort_insert]. rewrite H, IH. now destruct (cmp x a >? Fin 0).
Qed.

Lemma sort_map_comm (cmp : A -> A -> num) (l : list A) :
  (forall a b, cmp (g a) (g b) = cmp a b) ->
  sort cmp (List.map g l) = List.map g (sort cmp l).
Proof.
  intros H. induction l as [|a l IH]; [reflexivity|].
  cbn [List.map sort]. now rewrite IH, sort_insert_map_comm.
Qed.

Lemma fold_left_map_comm {B} (f : B -> A -> B) (l : list A) (b : B) :
  (forall b a, f b (g a) = f b a) ->
  fold_left f (List.map g l) b = fold_left f l b.
Proof.
  intros H. revert b. induction l as [|a l IH]; intros b; [reflexivity|].
  cbn [List.map fold_left]. now rewrite H, IH.
Qed.

Lemma map_map_comm {B} (f : A -> B) (l : list A) :
  (forall a, f (g a) = f a) -> List.map f (List.map g l) = List.map f l.
Proof. intros H. rewrite map_map. now apply map_ext. Qed.

Lemma mapM_map_comm {B} (f : A -> completion B) (l : list A) :
  (forall a, f (g a) = f a) -> mapM f (List.map g l) = mapM f l.
Proof.
  intros H. induction l as [|a l IH]; [reflexivity|].
  cbn [List.map mapM]. now rewrite H, IH.
Qed.

Lemma filterM_map_comm (p : A -> completion bool) (l : list A) :
  (forall a, p (g a) = p a) ->
  filterM p (List.map g l)
  = bind (filterM p l) (fun r => Ok (List.map g r)).
Proof.
  intros H. induction l as [|a l IH]; [reflexivity|].
  cbn [List.map filterM]. rewrite H, IH. destruct (p a) as [b|]; [|reflexivity].
  cbn [bind]. destruct (filterM p l); [|reflexivity]. cbn. now destruct b.
Qed.
End MapFacts.

Section TypeBlind.
Variable host : Host.
Variable this : StravaMetrics.

Lemma estimateFTP_erase (l : list Activity) :
  estimateFTP (List.map erase_type l) = estimateFTP l.
Proof.
  unfold estimateFTP.
  rewrite (filter_map_comm erase_type) by (now intros []).
  rewrite length_map.
  rewrite (filter_map_comm erase_type) by (now intros []).
  rewrite (sort_map_comm erase_type) by (now intros [] []).
  rewrite (map_map_comm erase_type) by (now intros []).
  destruct (sort _ _) as [|best rest]; [reflexivity|].
  cbn [List.map List.hd_error]. now destruct best.
Qed.

Lemma calculateTSS_erase (a : Activity) :
  calculateTSS host (erased this) (erase_type a) = calculateTSS host this a.
Proof. now destruct a. Qed.

Lemma calculateWorkoutQuality_erase (a : Activity) (tss : num) :
  calculateWorkoutQuality (erased this) (erase_type a) tss
  = calculateWorkoutQuality this a tss.
Proof. now destruct a. Qed.

Lemma tssOn_erase (l : list Activity) (d : Date) :
  tssOn host (erased this) (List.map erase_type l) d = tssOn host this l d.
Proof.
  unfold tssOn. rewrite (filter_map_comm erase_type) by (now intros []).
  apply fold_left_map_comm. intros b a. now destruct a.
Qed.

Lemma history_loop_erase (fuel : nat) (sorted : list Activity) (today d : Date)
    (ctl atl : num) :
  history_loop host (erased this) fuel (List.map erase_type sorted) today d ctl atl
  = history_loop host this fuel sorted today d ctl atl.
Proof.
  revert d ctl atl. induction fuel as [|fuel IH]; intros d ctl atl; [reflexivity|].
  cbn [history_loop]. unfold calculateCTL, calculateATL.
  rewrite !tssOn_erase. destruct (_ <=? _); [|reflexivity].
  destruct (toISODate d); [|reflexivity]. cbn [bind]. now rewrite IH.
Qed.

Lemma generateTrainingLoadHistory_erase (daysBack : Z) :
  generateTrainingLoadHistory host (erased this) daysBack
  = generateTrainingLoadHistory host this daysBack.
Proof.
  unfold generateTrainingLoadHistory. cbn [activities erased with_activities].
  rewrite (sort_map_comm erase_type) by (now intros [] []).
  apply history_loop_erase.
Qed.

Lemma vo2max_loop_erase (runs : list Activity) :
  vo2max_loop host (erased this) (List.map erase_type runs) = vo2max_loop host this runs.
Proof.
  induction runs as [|a runs IH]; [reflexivity|].
  cbn [List.map vo2max_loop]. rewrite IH. now destruct a.
Qed.

Lemma generateVO2maxHistory_erase :
  generateVO2maxHistory host (erased this) = generateVO2maxHistory host this.
Proof.
  unfold generateVO2maxHistory, qualityRuns. cbn [activities erased with_activities].
  rewrite (filter_map_comm erase_type) by (now intros []).
  rewrite (sort_map_comm erase_type) by (now intros [] []).
  apply vo2max_loop_erase.
Qed.

Lemma predictRaceTimes_erase :
  predictRaceTimes host (erased this) = predictRaceTimes host this.
Proof. unfold predictRaceTimes. now rewrite generateVO2maxHistory_erase. Qed.

Lemma reduce1_betterEffort_erase (c : Activity) (cs : list Activity) :
  reduce1 betterEffort (erase_type c) (List.map erase_type cs)
  = erase_type (reduce1 betterEffort c cs).
Proof.
  unfold reduce1. revert c. induction cs as [|x cs IH]; intros c; [reflexivity|].
  cbn [List.map fold_left]. rewrite <- IH. f_equal.
  unfold betterEffort. destruct c, x; cbn. now destruct (_ >? _).
Qed.

Lemma curve_loop_erase (aw : list Activity) (ds : list num) :
  curve_loop (List.map erase_type aw) ds = curve_loop aw ds.
Proof.
  induction ds as [|d ds IH]; [reflexivity|]. cbn [curve_loop].
  unfold candidates. rewrite (filter_map_comm erase_type) by (now intros []).
  rewrite IH. destruct (List.filter _ aw) as [|c cs]; [reflexivity|].
  cbn [List.map]. rewrite reduce1_betterEffort_erase.
  now destruct (reduce1 betterEffort c cs).
Qed.

Lemma analyzePowerCurve_erase : analyzePowerCurve (erased this) = analyzePowerCurve this.
Proof.
  unfold analyzePowerCurve. cbn [activities erased with_activities].
  rewrite (filter_map_comm erase_type) by (now intros []).
  now rewrite length_map, curve_loop_erase.
Qed.

Lemma detectIntervals_erase (minActivities : num) :
  detectIntervals host (erased this) minActivities = detectIntervals host this minActivities.
Proof.
  unfold detectIntervals. cbn [activities erased with_activities].
  rewrite (filterM_map_comm erase_type) by (now intros []).
  destruct (filterM isIntervalName (activities this)) as [ws|]; [|reflexivity].
  cbn [bind]. rewrite (mapM_map_comm erase_type); [reflexivity|].
  intros a. unfold summarize. rewrite calculateTSS_erase,
    calculateWorkoutQuality_erase. now destruct a.
Qed.

Lemma daily_loop_erase (acts : list Activity) (dailyData : gmap string num) :
  daily_loop host (erased this) dailyData (List.map erase_type acts)
  = daily_loop host this dailyData acts.
Proof.
  revert dailyData. induction acts as [|a acts IH]; intros m; [reflexivity|].
  cbn [List.map daily_loop]. unfold daily_step. rewrite calculateTSS_erase.
  destruct a; cbn. destruct (date_part _); [|reflexivity]. cbn [bind]. apply IH.
Qed.

Lemma getDailyTSS_erase (daysBack : num) :
  getDailyTSS host (erased this) daysBack = getDailyTSS host this daysBack.
Proof. apply daily_loop_erase. Qed.
End TypeBlind.

Lemma Forall2_same_but_type (l l' : list Activity) :
  Forall2 same_but_type l l' -> List.map erase_type l = List.map erase_type l'.
Proof.
  induction 1 as [|a a' l l' Ha _ IH]; [reflexivity|].
  cbn [List.map]. now rewrite Ha, IH.
Qed.

Lemma new_StravaMetrics_erase (host : Host) (who : Athlete) (l : list Activity) :
  let this := new_StravaMetrics host
                {| AthleteData.athlete := who; AthleteData.activities := Some l |} in
  new_StravaMetrics host
    {| AthleteData.athlete := who;
       AthleteData.activities := Some (List.map erase_type l) |}
  = with_activities this (List.map erase_type (activities this)).
Proof.
  unfold new_StravaMetrics, with_activities. cbn. now rewrite estimateFTP_erase.
Qed.

(** Claim C10.  No operation reads the [type] of an activity: two engines
    built for the same athlete from activity lists that differ only in the
    [type] of their records have the same FTP and heart-rate thresholds,
    give every pair of corresponding records the same score and the same
    quality, and return the same training-load history, VO2max history,
    race predictions, power curve, interval workouts and daily totals. *)
Theorem type_never_read (host : Host) (who : Athlete) (l l' : list Activity) :
  Forall2 same_but_type l l' ->
  let this := new_StravaMetrics host
                {| AthleteData.athlete := who; AthleteData.activities := Some l |} in
  let this' := new_StravaMetrics host
                 {| AthleteData.athlete := who; AthleteData.activities := Some l' |} in
  ftp this' = ftp this
  /\ maxHR this' = maxHR this
  /\ thresholdHR this' = thresholdHR this
  /\ Forall2 (fun a a' =>
                calculateTSS host this' a' = calculateTSS host this a
                /\ forall tss, calculateWorkoutQuality this' a' tss
                               = calculateWorkoutQuality this a tss) l l'
  /\ (forall daysBack, generateTrainingLoadHistory host this' daysBack
                       = generateTrainingLoadHistory host this daysBack)
  /\ generateVO2maxHistory host this' = generateVO2maxHistory host this
  /\ predictRaceTimes host this' = predictRaceTimes host this
  /\ analyzePowerCurve this' = analyzePowerCurve this
  /\ (forall minActivities, detectIntervals host this' minActivities
                            = detectIntervals host this minActivities)
  /\ (forall daysBack, getDailyTSS host this' daysBack
                       = getDailyTSS host this daysBack).
Proof.
  intros Hsame this this'.
  pose proof (Forall2_same_but_type l l' Hsame) as Hmap.
  assert (erased this' = erased this) as Heng.
  { unfold erased, this, this'. rewrite <- !new_StravaMetrics_erase.
    now rewrite Hmap. }
  assert (ftp this' = ftp this) as Hftp by exact (f_equal ftp Heng).
  split; [exact Hftp|]. split; [reflexivity|]. split; [reflexivity|].
  clearbody this this'. split; [|repeat split].
  - clear Hmap. induction Hsame as [|a a' l0 l0' Ha _ IH]; constructor; [|exact IH].
    split; [|intros tss].
    + rewrite <- (calculateTSS_erase host this a),
        <- (calculateTSS_erase host this' a'), Heng. now rewrite Ha.
    + rewrite <- (calculateWorkoutQuality_erase this a),
        <- (calculateWorkoutQuality_erase this' a'), Heng. now rewrite Ha.
  - intros daysBack.
    now rewrite <- (generateTrainingLoadHistory_erase host this),
      <- (generateTrainingLoadHistory_erase host this'), Heng.
  - now rewrite <- (generateVO2maxHistory_erase host this),
      <- (generateVO2maxHistory_erase host this'), Heng.
  - now rewrite <- (predictRaceTimes_erase host this),
      <- (predictRaceTimes_erase host this'), Heng.
  - now rewrite <- (analyzePowerCurve_erase this),
      <- (analyzePowerCurve_erase this'), Heng.
  - intros n.
    now rewrite <- (detectIntervals_erase host this),
      <- (detectIntervals_erase host this'), Heng.
  - intros d.
    now rewrite <- (getDailyTSS_erase host this),
      <- (getDailyTSS_erase host this'), Heng.
Qed.

(** The claim on a ride turned into a run. *)
Lemma type_never_read_witness :
  analyzePowerCurve (engine_of [hour_ride_as_run; steady_10k])
  = analyzePowerCurve (engine_of [hour_ride; steady_10k])
  /\ getDailyTSS (Demo.host Demo.noon 0) (engine_of [hour_ride_as_run; steady_10k])
       (Fin 120)
     = getDailyTSS (Demo.host Demo.noon 0) (engine_of [hour_ride; steady_10k])
         (Fin 120).
Proof.
  destruct (type_never_read (Demo.host Demo.noon 0) profile_2015
              [hour_ride; steady_10k] [hour_ride_as_run; steady_10k])
    as [_ [_ [_ [_ [_ [_ [_ [Hc [_ Hd]]]]]]]]].
  { repeat constructor. }
  split; [exact Hc | exact (Hd (Fin 120))].
Defined.

(* ================================================================== *)
(** * Workout quality                                                  *)
(* ================================================================== *)

(** Property X1.  For every activity and score, on every engine,
    [calculateWorkoutQuality] is a whole number from 5 to 10: the base
    score only grows, so that the lower clamp at 0 never applies, and the
    bonuses add up to 10 at most.  The badge class the scorecard derives
    from it, [Math.floor(quality / 3)], is therefore 1, 2 or 3. *)
Theorem calculateWorkoutQuality_range (this : StravaMetrics) (a : Activity) (tss : num) :
  exists k b : Z,
    (5 <= k <= 10)%Z /\ (1 <= b <= 3)%Z
    /\ calculateWorkoutQuality this a tss = Fin (inject_Z k)
    /\ Math_floor (calculateWorkoutQuality this a tss / Fin 3) = Fin (inject_Z b).
Proof.
  unfold calculateWorkoutQuality.
  repeat match goal with
  | |- context [if ?c then _ else _] => destruct c
  end;
  first [ exists 5%Z, 1%Z; repeat split; try lia; fail
        | exists 6%Z, 2%Z; repeat split; try lia; fail
        | exists 7%Z, 2%Z; repeat split; try lia; fail
        | exists 8%Z, 2%Z; repeat split; try lia; fail
        | exists 9%Z, 3%Z; repeat split; try lia; fail
        | exists 10%Z, 3%Z; repeat split; try lia; fail ].
Qed.


(* ================================================================== *)
(** * Training stress and its moving averages                          *)
(* ================================================================== *)

Lemma Math_round_Fin_inv (x : num) (q : Q) :
  Math_round x = Fin q -> exists z : Z, q = inject_Z z.
Proof. destruct x; try discriminate. cbn. intros [= <-]. eauto. Qed.

(** Property X2.  Whenever [calculateTSS] returns a finite number, it is
    a whole number: each of the three estimates is rounded, and the
    default is 0. *)
Theorem calculateTSS_whole (host : Host) (this : StravaMetrics) (a : Activity) (q : Q) :
  calculateTSS host this a = Fin q -> exists z : Z, q = inject_Z z.
Proof.
  unfold calculateTSS.
  destruct (truthy_opt (average_watts a) && truthy (ftp this));
    [apply Math_round_Fin_inv|].
  destruct (truthy_flag (has_heartrate a) && truthy_opt (average_heartrate a));
    [apply Math_round_Fin_inv|].
  destruct (truthy_opt (distance a) && truthy_opt (moving_time a));
    [apply Math_round_Fin_inv|].
  intros [= <-]. now exists 0%Z.
Qed.


(** The property on an hour at 200 W against the default FTP of 250. *)
Lemma calculateTSS_whole_witness :
  exists q : Q,
    calculateTSS (Demo.host Demo.noon 0) (engine_of []) hour_ride = Fin q
    /\ exists z : Z, q = inject_Z z.
Proof.
  eexists. split; [vm_compute; reflexivity|].
  apply (calculateTSS_whole (Demo.host Demo.noon 0) (engine_of []) hour_ride).
  vm_compute. reflexivity.
Defined.

Lemma ewma_between (p s e : Q) :
  (0 <= e)%Q -> (e <= 1)%Q ->
  exists c : Q,
    Fin p + (Fin s - Fin p) * (Fin 1 - Fin e) = Fin c
    /\ ((p <= c /\ c <= s) \/ (s <= c /\ c <= p))%Q.
Proof.
  intros H0 H1. rewrite !sub_Fin, mul_Fin, add_Fin. eexists. split; [reflexivity|].
  rewrite !Qred_correct.
  destruct (Qlt_le_dec p s) as [Hps|Hps]; [left|right]; split; nra.
Qed.


(** Property X3.  On a host whose [Math.exp] takes values in [[0, 1]] at
    [-1/42] and [-1/7], one step of [calculateCTL] and of [calculateATL]
    from a finite previous value lands between that value and the
    day's summed score (both included): the averages move towards the
    day's load and never overshoot it. *)
Theorem trainingLoad_step_between (host : Host) (this : StravaMetrics)
    (acts : list Activity) (date : Date) (p s e42 e7 : Q) :
  Math_exp host (Fin (-1) / Fin 42) = Fin e42 -> (0 <= e42)%Q -> (e42 <= 1)%Q ->
  Math_exp host (Fin (-1) / Fin 7) = Fin e7 -> (0 <= e7)%Q -> (e7 <= 1)%Q ->
  tssOn host this acts date = Fin s ->
  (exists c : Q,
     calculateCTL host this acts date (Fin p) = Fin c
     /\ ((p <= c /\ c <= s) \/ (s <= c /\ c <= p))%Q)
  /\ (exists a : Q,
        calculateATL host this acts date (Fin p) = Fin a
        /\ ((p <= a /\ a <= s) \/ (s <= a /\ a <= p))%Q).
Proof.
  intros E42 H42 H42' E7 H7 H7' Es. unfold calculateCTL, calculateATL.
  rewrite E42, E7, Es. split; now apply ewma_between.
Qed.


(** The property on a rest day after a fitness of 50. *)
Lemma trainingLoad_step_between_witness :
  (exists c : Q,
     calculateCTL (Demo.host Demo.noon 0) (engine_of []) [] (Some Demo.noon) (Fin 50) = Fin c
     /\ ((50 <= c /\ c <= 0) \/ (0 <= c /\ c <= 50))%Q)
  /\ (exists a : Q,
        calculateATL (Demo.host Demo.noon 0) (engine_of []) [] (Some Demo.noon) (Fin 50) = Fin a
        /\ ((50 <= a /\ a <= 0) \/ (0 <= a /\ a <= 50))%Q).
Proof.
  apply (trainingLoad_step_between (Demo.host Demo.noon 0) (engine_of []) [] (Some Demo.noon)
           50 0
           (match Demo.exp (Fin (-1) / Fin 42) with Fin e => e | _ => 0 end)
           (match Demo.exp (Fin (-1) / Fin 7) with Fin e => e | _ => 0 end)).
  - vm_compute. reflexivity.
  - apply Qle_bool_iff. vm_compute. reflexivity.
  - apply Qle_bool_iff. vm_compute. reflexivity.
  - vm_compute. reflexivity.
  - apply Qle_bool_iff. vm_compute. reflexivity.
  - apply Qle_bool_iff. vm_compute. reflexivity.
  - reflexivity.
Defined.

Lemma ewma_rest (e : Q) :
  Fin 0 + (Fin 0 - Fin 0) * (Fin 1 - Fin e) = Fin 0.
Proof.
  rewrite !sub_Fin, mul_Fin, add_Fin. f_equal.
Qed.

Section Rest.
Variable host : Host.
Variable this : StravaMetrics.
Variable sorted : list Activity.
Variables e42 e7 : Q.
Hypothesis exp42 : Math_exp host (Fin (-1) / Fin 42) = Fin e42.
Hypothesis exp7 : Math_exp host (Fin (-1) / Fin 7) = Fin e7.
Hypothesis idle : forall a, In a sorted -> calculateTSS host this a = Fin 0.

Lemma tssOn_idle (date : Date) : tssOn host this sorted date = Fin 0.
Proof.
  unfold tssOn.
  assert (forall a, In a (List.filter (fun a =>
            same_string (toDateString host (Date_of host (start_date_local a)))
                        (toDateString host date)) sorted) ->
          calculateTSS host this a = Fin 0) as H.
  { intros a Ha. apply filter_In in Ha as [Ha _]. now apply idle. }
  induction (List.filter _ sorted) as [|a l IH]; [reflexivity|].
  cbn [fold_left]. rewrite (H a) by now left.
  change (Fin 0 + Fin 0) with (Fin 0). apply IH. intros x Hx. apply H. now right.
Qed.

Lemma history_loop_idle (fuel : nat) (today d : Date)
    (history : list TrainingLoadPoint.t) :
  history_loop host this fuel sorted today d (Fin 0) (Fin 0) = Ok history ->
  Forall (fun p => TrainingLoadPoint.ctl p = Fin 0
                   /\ TrainingLoadPoint.atl p = Fin 0
                   /\ TrainingLoadPoint.tsb p = Fin 0) history.
Proof.
  revert d history. induction fuel as [|fuel IH]; intros d history H;
    cbn [history_loop] in H.
  - injection H as <-. constructor.
  - destruct (valueOf d <=? valueOf today); [|injection H as <-; constructor].
    destruct (toISODate d) as [date|]; [|discriminate]. cbn [bind] in H.
    unfold calculateCTL, calculateATL in H.
    rewrite exp42, exp7, tssOn_idle, !ewma_rest in H.
    destruct (history_loop host this fuel _ _ _ _ _) as [rest|] eqn:E;
      [|discriminate].
    cbn [bind] in H. injection H as <-. constructor; [|now apply (IH _ _ E)].
    cbn. repeat split.
Qed.
End Rest.


(** Property X4.  On a host whose [Math.exp] is finite at [-1/42] and
    [-1/7], when every activity scores 0 (in particular when there is no
    activity), every point [generateTrainingLoadHistory] returns has
    [ctl = atl = tsb = 0]. *)
Theorem trainingLoad_rest (host : Host) (this : StravaMetrics) (daysBack : Z)
    (e42 e7 : Q) (history : list TrainingLoadPoint.t) :
  Math_exp host (Fin (-1) / Fin 42) = Fin e42 ->
  Math_exp host (Fin (-1) / Fin 7) = Fin e7 ->
  (forall a, In a (activities this) -> calculateTSS host this a = Fin 0) ->
  generateTrainingLoadHistory host this daysBack = Ok history ->
  Forall (fun p => TrainingLoadPoint.ctl p = Fin 0
                   /\ TrainingLoadPoint.atl p = Fin 0
                   /\ TrainingLoadPoint.tsb p = Fin 0) history.
Proof.
  intros E42 E7 Hidle H. unfold generateTrainingLoadHistory in H.
  eapply history_loop_idle; [exact E42 | exact E7 | | exact H].
  intros a Ha. apply sort_In in Ha. now apply Hidle.
Qed.


(** The property on a record without any data, over three days. *)
Lemma trainingLoad_rest_witness :
  exists history,
    generateTrainingLoadHistory (Demo.host Demo.noon 0) (engine_of [blank]) 2 = Ok history
    /\ length history = 3%nat
    /\ Forall (fun p => TrainingLoadPoint.ctl p = Fin 0
                        /\ TrainingLoadPoint.atl p = Fin 0
                        /\ TrainingLoadPoint.tsb p = Fin 0) history.
Proof.
  eexists. split; [vm_compute; reflexivity|]. split; [reflexivity|].
  eapply (trainingLoad_rest (Demo.host Demo.noon 0) (engine_of [blank]) 2).
  - vm_compute. reflexivity.
  - vm_compute. reflexivity.
  - intros a [<-|[]]. reflexivity.
  - vm_compute. reflexivity.
Defined.


(* ================================================================== *)
(** * The constructor                                                  *)
(* ================================================================== *)

Lemma estimateVO2max_no_maxHR (host : Host) (this : StravaMetrics) (a : Activity) :
  maxHR this = NaN -> estimateVO2max host this a = None.
Proof.
  intros E. unfold estimateVO2max. rewrite E.
  destruct (_ || _); [reflexivity|]. destruct (_ || _); [reflexivity|].
  assert (toNum (average_heartrate a) / NaN = NaN) as -> by now destruct (toNum _).
  now rewrite andb_false_r.
Qed.

Lemma vo2max_loop_none (host : Host) (this : StravaMetrics) (runs : list Activity) :
  (forall a, estimateVO2max host this a = None) ->
  vo2max_loop host this runs = Ok [].
Proof.
  intros H. induction runs as [|a runs IH]; [reflexivity|].
  cbn [vo2max_loop]. now rewrite H.
Qed.


(** Property X5.  When the athlete's [created_at] is absent or does not
    parse, the constructor leaves [maxHR] and [thresholdHR] at [NaN];
    then [estimateVO2max] is [null] for every activity, the VO2max
    history is empty, [predictRaceTimes] returns [null], and the
    heart-rate-based score of every activity that reaches that branch of
    [calculateTSS] is [NaN]. *)
Theorem new_StravaMetrics_undated_account (host : Host) (data : AthleteData.t) :
  Date_of host (created_at (AthleteData.athlete data)) = None ->
  let this := new_StravaMetrics host data in
  maxHR this = NaN
  /\ thresholdHR this = NaN
  /\ (forall a, estimateVO2max host this a = None)
  /\ generateVO2maxHistory host this = Ok []
  /\ predictRaceTimes host this = Ok None
  /\ (forall a,
        truthy_opt (average_watts a) && truthy (ftp this) = false ->
        truthy_flag (has_heartrate a) && truthy_opt (average_heartrate a) = true ->
        calculateTSS host this a = NaN).
Proof.
  intros Hd this.
  assert (maxHR this = NaN) as Hmax.
  { unfold this, new_StravaMetrics, calculateAge. cbn [maxHR]. rewrite Hd.
    cbn [getFullYear]. now destruct (getFullYear host (Date_new host)). }
  assert (forall a, estimateVO2max host this a = None) as Hnone
    by (intros a; now apply estimateVO2max_no_maxHR).
  assert (generateVO2maxHistory host this = Ok []) as Hh
    by now apply vo2max_loop_none.
  split; [exact Hmax|]. split.
  { unfold this, new_StravaMetrics in *. cbn [thresholdHR maxHR] in *. now rewrite Hmax. }
  split; [exact Hnone|]. split; [exact Hh|]. split.
  { unfold predictRaceTimes. now rewrite Hh. }
  intros a Hp Hhr. unfold calculateTSS. rewrite Hp, Hhr, Hmax.
  assert ((toNum (average_heartrate a) - restingHR this) / (NaN - restingHR this) = NaN)
    as -> by now destruct (_ - _).
  assert (toNum (moving_time a) / Fin 60 * NaN = NaN) as -> by now destruct (_ / _).
  reflexivity.
Qed.


(** The property on a profile without a creation date. *)
Lemma new_StravaMetrics_undated_account_witness :
  maxHR (new_StravaMetrics (Demo.host Demo.noon 0) undated_profile) = NaN
  /\ predictRaceTimes (Demo.host Demo.noon 0) (new_StravaMetrics (Demo.host Demo.noon 0) undated_profile) = Ok None
  /\ calculateTSS (Demo.host Demo.noon 0) (new_StravaMetrics (Demo.host Demo.noon 0) undated_profile) steady_10k = NaN.
Proof.
  destruct (new_StravaMetrics_undated_account (Demo.host Demo.noon 0) undated_profile eq_refl)
    as [H1 [_ [_ [_ [H2 H3]]]]].
  split; [exact H1|]. split; [exact H2|]. apply H3; reflexivity.
Defined.


(* ================================================================== *)
(** * The FTP estimate and the order of the activities                 *)
(* ================================================================== *)

Lemma tie_same_value (x y : num) :
  is_nan x = false -> is_nan y = false ->
  (x >? y) = false -> (y >? x) = false -> same_value x y.
Proof.
  destruct x as [| | |a], y as [| | |b]; try discriminate; try (intros; exact I).
  unfold gtb, ltb, same_value. intros _ _ H1 H2.
  apply negb_false_iff, Qle_bool_iff in H1. apply negb_false_iff, Qle_bool_iff in H2.
  lra.
Qed.

Lemma round_scale_same_value (x y : num) (c : Q) :
  same_value x y -> Math_round (x * Fin c) = Math_round (y * Fin c).
Proof.
  destruct x as [| | |a], y as [| | |b]; try contradiction; try reflexivity.
  cbn [same_value]. intros H. rewrite !mul_Fin. f_equal. f_equal.
  apply Qred_complete. now rewrite H.
Qed.

Lemma Math_max2_cases (x y : num) :
  is_nan x = false -> is_nan y = false ->
  is_nan (Math_max2 x y) = false
  /\ (Math_max2 x y = x \/ Math_max2 x y = y)
  /\ (x >? Math_max2 x y) = false /\ (y >? Math_max2 x y) = false.
Proof.
  intros Hx Hy.
  assert (Math_max2 x y = if x <? y then y else x) as ->
    by (destruct x, y; try discriminate; reflexivity).
  destruct (x <? y) eqn:E.
  - repeat split; auto. + now apply gtb_asym. + apply gtb_irrefl.
  - repeat split; auto. apply gtb_irrefl.
Qed.

Lemma fold_max_spec (l : list num) (m0 : num) :
  is_nan m0 = false -> (forall x, In x l -> is_nan x = false) ->
  let m := fold_left Math_max2 l m0 in
  is_nan m = false /\ (m = m0 \/ In m l)
  /\ (m0 >? m) = false /\ forall x, In x l -> (x >? m) = false.
Proof.
  revert m0. induction l as [|x l IH]; intros m0 H0 Hl; cbn [fold_left].
  - repeat split; auto. + apply gtb_irrefl. + intros x [].
  - destruct (Math_max2_cases m0 x H0 (Hl x (or_introl eq_refl)))
      as [Hn [Hc [Hm0 Hx]]].
    destruct (IH (Math_max2 m0 x) Hn (fun y Hy => Hl y (or_intror Hy)))
      as [Hn' [Hc' [Hm1 Hall]]].
    split; [exact Hn'|]. split; [|split].
    + destruct Hc' as [->|Hin]; [|right; now right].
      destruct Hc as [->| ->]; [now left | right; now left].
    + eapply not_gtb_trans; [exact Hn|exact Hm0|exact Hm1].
    + intros y [<-|Hy]; [|now apply Hall].
      eapply not_gtb_trans; [exact Hn|exact Hx|exact Hm1].
Qed.

Lemma Math_max_spec (l : list num) :
  l <> [] -> (forall x, In x l -> is_nan x = false) ->
  is_nan (Math_max l) = false /\ In (Math_max l) l
  /\ forall x, In x l -> (x >? Math_max l) = false.
Proof.
  intros Hne Hl. destruct (fold_max_spec l NInf eq_refl Hl) as [Hn [Hc [_ Hall]]].
  fold (Math_max l) in *. split; [exact Hn|]. split; [|exact Hall].
  destruct Hc as [E|Hin]; [|exact Hin].
  destruct l as [|x l]; [congruence|]. rewrite E.
  specialize (Hall x (or_introl eq_refl)). rewrite E in Hall.
  specialize (Hl x (or_introl eq_refl)).
  destruct x; try discriminate. now left.
Qed.

Lemma Math_max_same_value (l l' : list num) :
  l <> [] -> (forall x, In x l <-> In x l') ->
  (forall x, In x l -> is_nan x = false) ->
  same_value (Math_max l) (Math_max l').
Proof.
  intros Hne Hmem Hl.
  assert (l' <> []) as Hne'.
  { destruct l as [|x l]; [congruence|]. intros ->.
    destruct (proj1 (Hmem x) (or_introl eq_refl)). }
  destruct (Math_max_spec l Hne Hl) as [Hn [Hin Hall]].
  destruct (Math_max_spec l' Hne') as [Hn' [Hin' Hall']].
  { intros x Hx. apply Hl. now apply Hmem. }
  apply tie_same_value; auto.
  - apply Hall'. now apply Hmem.
  - apply Hall. now apply Hmem.
Qed.

Lemma filter_mem {A} (p : A -> bool) (l l' : list A) :
  (forall a, In a l <-> In a l') ->
  forall a, In a (List.filter p l) <-> In a (List.filter p l').
Proof. intros H a. rewrite !filter_In, H. reflexivity. Qed.

Lemma mem_nil {A} (l l' : list A) :
  (forall a, In a l <-> In a l') -> l = [] -> l' = [].
Proof.
  intros H ->. destruct l' as [|x l']; [reflexivity|].
  destruct (proj2 (H x) (or_introl eq_refl)).
Qed.


(** Property X6.  [estimateFTP] depends on the activities as a set only:
    two lists with the same members, in any order and with any
    repetitions, give the same estimate. *)
Theorem estimateFTP_order_free (acts acts' : list Activity) :
  (forall a, In a acts <-> In a acts') -> estimateFTP acts = estimateFTP acts'.
Proof.
  intros Hmem. unfold estimateFTP.
  set (q := fun a : Activity =>
              truthy_opt (average_watts a) && (toNum (moving_time a) >=? Fin 1200)).
  set (r := fun a : Activity =>
              (toNum (moving_time a) >=? Fin 1200) && (toNum (moving_time a) <=? Fin 1800)).
  set (key := fun a : Activity => toNum (power_of a)).
  pose proof (filter_mem q _ _ Hmem) as HW.
  set (W := List.filter q acts) in *. set (W' := List.filter q acts') in *.
  assert (forall a, In a W -> truthy_opt (average_watts a) = true) as Hq.
  { intros a Ha. apply filter_In in Ha as [_ Ha]. unfold q in Ha.
    now apply andb_true_iff in Ha. }
  destruct W as [|w0 W0] eqn:EW.
  { rewrite (mem_nil [] W' HW eq_refl). reflexivity. }
  destruct W' as [|w0' W0'] eqn:EW'.
  { symmetry in HW. discriminate (mem_nil _ _ (fun a => iff_sym (iff_sym (HW a))) eq_refl). }
  rewrite <- EW, <- EW' in *. cbn [length Nat.eqb].
  replace (length W =? 0)%nat with false by (rewrite EW; reflexivity).
  replace (length W' =? 0)%nat with false by (rewrite EW'; reflexivity).
  pose proof (filter_mem r _ _ HW) as HR.
  set (R := List.filter r W) in *. set (R' := List.filter r W') in *.
  assert (forall a, In a R -> is_nan (key a) = false) as HnR.
  { intros a Ha. apply filter_In in Ha as [Ha _].
    apply truthy_not_nan, power_of_truthy, Hq, Ha. }
  assert (forall a, In a R' -> is_nan (key a) = false) as HnR'
    by (intros a Ha; apply HnR, HR, Ha).
  destruct (List.hd_error (sort _ R)) as [best|] eqn:Eb;
    destruct (List.hd_error (sort _ R')) as [best'|] eqn:Eb'.
  - apply (sort_descending_head key) in Eb as [Hin Hmax]; [|exact HnR].
    apply (sort_descending_head key) in Eb' as [Hin' Hmax']; [|exact HnR'].
    apply round_scale_same_value.
    apply tie_same_value;
      [apply (HnR _ Hin) | apply (HnR' _ Hin')
      | apply Hmax'; now apply HR | apply Hmax; now apply HR].
  - exfalso. apply (sort_descending_head key) in Eb as [Hin _]; [|exact HnR].
    apply HR in Hin.
    destruct (sort _ R') as [|y ys] eqn:Es; [|discriminate].
    apply (f_equal (@length Activity)) in Es. rewrite sort_length in Es.
    destruct R'; [destruct Hin|discriminate].
  - exfalso. apply (sort_descending_head key) in Eb' as [Hin _]; [|exact HnR'].
    apply HR in Hin.
    destruct (sort _ R) as [|y ys] eqn:Es; [|discriminate].
    apply (f_equal (@length Activity)) in Es. rewrite sort_length in Es.
    destruct R; [destruct Hin|discriminate].
  - apply round_scale_same_value. apply Math_max_same_value.
    + rewrite EW. discriminate.
    + intros x. rewrite !in_map_iff. split; intros [a [<- Ha]]; exists a;
        (split; [reflexivity|now apply HW]).
    + intros x Hx. apply in_map_iff in Hx as [a [<- Ha]].
      apply truthy_not_nan. specialize (Hq a Ha).
      now destruct (average_watts a).
Qed.


(** The property on two efforts, reordered and with one repeated. *)
Lemma estimateFTP_order_free_witness :
  estimateFTP [threshold_effort; hour_ride]
  = estimateFTP [hour_ride; threshold_effort; hour_ride].
Proof.
  apply estimateFTP_order_free. intros a. cbn [In]. tauto.
Defined.


(* ================================================================== *)
(** * VO2max estimates and race predictions                            *)
(* ================================================================== *)

Lemma estimateVO2max_Some_inv (host : Host) (this : StravaMetrics) (a : Activity) (v : num) :
  estimateVO2max host this a = Some v ->
  isQualityRun this a = true
  /\ (toNum (distance a) >? Fin 3000) = true
  /\ truthy_opt (moving_time a) = true.
Proof.
  unfold estimateVO2max, isQualityRun.
  destruct (negb (truthy_flag (has_heartrate a))
            || negb (truthy_opt (average_heartrate a))); [discriminate|].
  destruct (truthy_opt (distance a)); [|discriminate].
  destruct (truthy_opt (moving_time a)); [|discriminate]. cbn [negb orb].
  destruct (toNum (distance a) >? Fin 3000) eqn:Ed; [|discriminate].
  destruct (toNum (average_heartrate a) / maxHR this >? Fin 0.75) eqn:Eh;
    [|discriminate].
  intros _. apply gtb_asym in Ed. unfold gtb in Ed. rewrite Ed. auto.
Qed.


(** Property X7.  [estimateVO2max] returns an estimate exactly for the
    activities that pass the quality-run filter of
    [generateVO2maxHistory], are longer than 3000 m and have a
    [moving_time]: the filter never discards an activity with an
    estimate, and it lets through the runs of exactly 3000 m and the runs
    without [moving_time], for which the estimate is [null]. *)
Theorem estimateVO2max_defined_iff (host : Host) (this : StravaMetrics) (a : Activity) :
  (exists v, estimateVO2max host this a = Some v) <->
  isQualityRun this a = true
  /\ (toNum (distance a) >? Fin 3000) = true
  /\ truthy_opt (moving_time a) = true.
Proof.
  split.
  - intros [v H]. now apply estimateVO2max_Some_inv in H.
  - intros [Hq [Hd Ht]]. unfold isQualityRun in Hq. unfold estimateVO2max.
    destruct (negb (truthy_flag (has_heartrate a))
              || negb (truthy_opt (average_heartrate a))); [discriminate|].
    destruct (truthy_opt (distance a)); [|discriminate]. cbn [negb orb] in *.
    rewrite Ht, Hd. cbn [negb].
    destruct (toNum (distance a) <? Fin 3000); [discriminate|].
    rewrite Hq. cbn [andb]. eauto.
Qed.


(** Property X8.  The estimate is a function of [distance] and
    [moving_time] alone: the heart rate and the maximal heart rate decide
    whether there is an estimate, never its value. *)
Theorem estimateVO2max_from_pace_alone (host : Host) (this this' : StravaMetrics)
    (a b : Activity) (v w : num) :
  distance a = distance b -> moving_time a = moving_time b ->
  estimateVO2max host this a = Some v -> estimateVO2max host this' b = Some w ->
  v = w.
Proof.
  intros Hd Ht. unfold estimateVO2max. rewrite Hd, Ht.
  repeat match goal with
  | |- context [if ?c then _ else _] => destruct c
  end; try discriminate.
  intros [= <-] [= <-]. reflexivity.
Qed.


(** The property on the steady 10 km at 160 and at 175 beats. *)
Lemma estimateVO2max_from_pace_alone_witness :
  exists v w,
    estimateVO2max (Demo.host Demo.noon 0) (engine_of []) steady_10k = Some v
    /\ estimateVO2max (Demo.host Demo.noon 0) (engine_of []) steady_10k_hard = Some w
    /\ v = w.
Proof.
  eexists. eexists. split; [vm_compute; reflexivity|].
  split; [vm_compute; reflexivity|].
  apply (estimateVO2max_from_pace_alone (Demo.host Demo.noon 0) (engine_of []) (engine_of [])
           steady_10k steady_10k_hard);
    [reflexivity | reflexivity | vm_compute; reflexivity | vm_compute; reflexivity].
Defined.

Section SortAscending.
Context {A : Type} (key : A -> num).

Lemma sort_insert_ascending (x : A) (l : list A) :
  is_nan (key x) = false ->
  Forall (fun a => is_nan (key a) = false) l ->
  StronglySorted (fun a b => (key a >? key b) = false) l ->
  StronglySorted (fun a b => (key a >? key b) = false)
    (sort_insert (fun a b => key a - key b) x l).
Proof.
  intros Hx Hl Hs. induction l as [|y l IH]; cbn [sort_insert].
  - repeat constructor.
  - inversion Hl as [|? ? Hy Hl']; subst.
    inversion Hs as [|? ? Hs' Hyl]; subst. rewrite gtb_sub.
    destruct (key x >? key y) eqn:E.
    + constructor; [now apply IH|]. apply Forall_forall. intros e He.
      apply sort_insert_In in He as [<-|He]; [now apply gtb_asym|].
      rewrite Forall_forall in Hyl. now apply Hyl.
    + constructor; [exact Hs|]. constructor; [exact E|].
      apply Forall_forall. intros e He. rewrite Forall_forall in Hyl.
      apply not_gtb_trans with (y := key y); auto.
Qed.

Lemma sort_ascending (l : list A) :
  Forall (fun a => is_nan (key a) = false) l ->
  StronglySorted (fun a b => (key a >? key b) = false)
    (sort (fun a b => key a - key b) l).
Proof.
  induction l as [|x l IH]; intros H; cbn [sort]; [constructor|].
  inversion H as [|? ? Hx Hl]; subst.
  apply sort_insert_ascending; [exact Hx| |now apply IH].
  apply Forall_forall. intros e He. apply sort_In in He.
  rewrite Forall_forall in Hl. now apply Hl.
Qed.

End SortAscending.

Lemma StronglySorted_filter {A} (R : A -> A -> Prop) (p : A -> bool) (l : list A) :
  StronglySorted R l -> StronglySorted R (List.filter p l).
Proof.
  induction 1 as [|x l Hs IH Hx]; cbn [List.filter]; [constructor|].
  destruct (p x); [|exact IH]. constructor; [exact IH|].
  apply Forall_forall. intros e He. apply filter_In in He as [He _].
  rewrite Forall_forall in Hx. now apply Hx.
Qed.

(** Property X21.  When the start dates of the quality runs parse, the
    samples of [generateVO2maxHistory] come oldest first: they are the
    samples of activities of the athlete listed in ascending order of
    start date, so that the last sample is a most recent one. *)
Theorem generateVO2maxHistory_oldest_first (host : Host) (this : StravaMetrics)
    (history : list VO2maxSample.t) :
  generateVO2maxHistory host this = Ok history ->
  (forall a, In a (activities this) -> isQualityRun this a = true ->
             Date_of host (start_date_local a) <> None) ->
  exists runs,
    Forall2 (sample_of host this) runs history
    /\ (forall a, In a runs -> In a (activities this))
    /\ StronglySorted (fun a b => (startedOn host a >? startedOn host b) = false) runs.
Proof.
  intros H Hd. apply vo2max_loop_spec in H as [_ H].
  eexists. split; [exact H|]. split.
  - intros a Ha. apply filter_In in Ha as [Ha _]. unfold qualityRuns in Ha.
    apply sort_In, filter_In in Ha. tauto.
  - apply StronglySorted_filter. unfold qualityRuns.
    apply (sort_ascending (startedOn host)).
    apply Forall_forall. intros a Ha. apply filter_In in Ha as [Ha Hq].
    specialize (Hd a Ha Hq). unfold startedOn.
    now destruct (Date_of host (start_date_local a)).
Qed.

(** The property on two runs listed newest first. *)
Lemma generateVO2maxHistory_oldest_first_witness :
  exists history,
    generateVO2maxHistory (Demo.host Demo.noon 0)
      (engine_of [steady_10k; steady_10k_earlier]) = Ok history
    /\ List.map VO2maxSample.date history = ["2025-06-03"; "2025-06-10"]%string
    /\ exists runs,
         Forall2 (sample_of (Demo.host Demo.noon 0)
                    (engine_of [steady_10k; steady_10k_earlier])) runs history
         /\ (forall a, In a runs ->
                       In a (activities (engine_of [steady_10k; steady_10k_earlier])))
         /\ StronglySorted
              (fun a b => (startedOn (Demo.host Demo.noon 0) a
                           >? startedOn (Demo.host Demo.noon 0) b) = false) runs.
Proof.
  eexists. split; [vm_compute; reflexivity|]. split; [reflexivity|].
  apply (generateVO2maxHistory_oldest_first (Demo.host Demo.noon 0)
           (engine_of [steady_10k; steady_10k_earlier])).
  - vm_compute. reflexivity.
  - intros a [<-|[<-|[]]] _ E; vm_compute in E; discriminate E.
Defined.

Lemma vo2max_loop_nil_iff (host : Host) (this : StravaMetrics) (runs : list Activity) :
  vo2max_loop host this runs = Ok [] <->
  forall a, In a runs -> saneVO2max (estimateVO2max host this a) = false.
Proof.
  induction runs as [|a runs IH]; cbn [vo2max_loop].
  - split; [intros _ a []|reflexivity].
  - destruct (saneVO2max (estimateVO2max host this a)) eqn:Es.
    + split.
      * destruct (date_part (start_date_local a)); [|discriminate]. cbn.
        destruct (vo2max_loop host this runs); discriminate.
      * intros H. rewrite (H a) in Es by (now left). discriminate.
    + rewrite IH. split.
      * intros H x [<-|Hx]; auto.
      * intros H x Hx. apply H. now right.
Qed.


(** Property X9.  [predictRaceTimes] returns [null] exactly when no
    activity of the athlete has an estimate that passes the sanity check
    ([30 < vo2max < 90]). *)
Theorem predictRaceTimes_null_iff (host : Host) (this : StravaMetrics) :
  predictRaceTimes host this = Ok None <->
  forall a, In a (activities this) ->
    saneVO2max (estimateVO2max host this a) = false.
Proof.
  unfold predictRaceTimes.
  assert (generateVO2maxHistory host this = Ok [] <->
          forall a, In a (activities this) ->
            saneVO2max (estimateVO2max host this a) = false) as Hnil.
  { unfold generateVO2maxHistory. rewrite vo2max_loop_nil_iff. unfold qualityRuns.
    split.
    - intros H a Ha. destruct (isQualityRun this a) eqn:Eq.
      + apply H. apply sort_In. apply filter_In. auto.
      + destruct (estimateVO2max host this a) as [v|] eqn:Ev; [|reflexivity].
        apply estimateVO2max_Some_inv in Ev as [Hq _]. congruence.
    - intros H a Ha. apply sort_In, filter_In in Ha as [Ha _]. auto. }
  rewrite <- Hnil.
  destruct (generateVO2maxHistory host this) as [[|s history]|e]; cbn.
  - tauto.
  - split; discriminate.
  - split; discriminate.
Qed.

Lemma fold_add_band (l : list num) (a : Q) (k : nat) :
  Forall in_band l ->
  (inject_Z (Z.of_nat k) * 30 < a)%Q -> (a < inject_Z (Z.of_nat k) * 90)%Q ->
  exists s : Q,
    fold_left add l (Fin a) = Fin s
    /\ (inject_Z (Z.of_nat (k + length l)) * 30 < s)%Q
    /\ (s < inject_Z (Z.of_nat (k + length l)) * 90)%Q.
Proof.
  revert a k. induction l as [|x l IH]; intros a k Hl Hlo Hhi.
  - exists a. rewrite Nat.add_0_r. auto.
  - inversion Hl as [|? ? [v [-> [Hv1 Hv2]]] Hl']; subst. cbn [fold_left].
    rewrite add_Fin. destruct (IH (Qred (a + v)) (S k) Hl') as [s [Hs Hb]].
    + rewrite Qred_correct, Nat2Z.inj_succ. unfold Z.succ. rewrite inject_Z_plus.
      change (inject_Z 1) with 1%Q. lra.
    + rewrite Qred_correct, Nat2Z.inj_succ. unfold Z.succ. rewrite inject_Z_plus.
      change (inject_Z 1) with 1%Q. lra.
    + exists s. split; [exact Hs|]. cbn [length].
      now rewrite Nat.add_succ_r.
Qed.

Lemma mean_band (x : num) (xs : list num) :
  Forall in_band (x :: xs) ->
  in_band (reduce1 add x xs / Fin (inject_Z (Z.of_nat (length (x :: xs))))).
Proof.
  intros H. inversion H as [|? ? [v [-> [Hv1 Hv2]]] Hxs]; subst.
  destruct (fold_add_band xs v 1 Hxs) as [s [Hs [H1 H2]]].
  - change (inject_Z (Z.of_nat 1)) with 1%Q. lra.
  - change (inject_Z (Z.of_nat 1)) with 1%Q. lra.
  - unfold reduce1. rewrite Hs. cbn [length].
    change (1 + length xs)%nat with (S (length xs)) in *.
    set (n := inject_Z (Z.of_nat (S (length xs)))) in *.
    assert (0 < n)%Q as Hn.
    { unfold n. change 0%Q with (inject_Z 0). rewrite <- Zlt_Qlt. lia. }
    rewrite div_Fin by lra. exists (Qred (s / n)). split; [reflexivity|].
    rewrite Qred_correct. split.
    + apply Qlt_shift_div_l; [exact Hn|]. lra.
    + apply Qlt_shift_div_r; [exact Hn|]. lra.
Qed.

Lemma round1_band (x : num) :
  in_band x -> exists c : Q, round1 x = Fin c /\ (30 <= c)%Q /\ (c <= 90)%Q.
Proof.
  intros [v [-> [H1 H2]]]. rewrite round1_Fin. eexists. split; [reflexivity|].
  rewrite Qred_correct.
  set (z := Qfloor (Qred (v * 10) + (1 # 2))).
  assert (300 <= z <= 900)%Z as Hz.
  { unfold z. split.
    - change 300%Z with (Qfloor (inject_Z 300)). apply Qfloor_resp_le.
      rewrite Qred_correct. change (inject_Z 300) with 300%Q. lra.
    - change 900%Z with (Qfloor (inject_Z 900 + (1 # 2))). apply Qfloor_resp_le.
      rewrite Qred_correct. change (inject_Z 900) with 900%Q. lra. }
  destruct Hz as [Hz1 Hz2]. rewrite Zle_Qle in Hz1, Hz2.
  change (inject_Z 300) with 300%Q in Hz1. change (inject_Z 900) with 900%Q in Hz2.
  split.
  - apply Qle_shift_div_l; [reflexivity|]. lra.
  - apply Qle_shift_div_r; [reflexivity|]. lra.
Qed.

Lemma last_Some_In {A} (l : list A) (h : A) :
  List.last (List.map Some l) None = Some h -> In h l.
Proof.
  induction l as [|x l IH]; [discriminate|].
  destruct l as [|y l]; cbn [List.map List.last] in *.
  - intros [= <-]. now left.
  - intros H. right. apply IH. exact H.
Qed.


(** Property X10.  When [predictRaceTimes] returns predictions, the
    [currentVO2max] it reports lies between 30 and 90 (both included,
    after rounding to one decimal), and the predictions are those of the
    5k, the 10k, the half marathon and the marathon, in this order. *)
Theorem predictRaceTimes_estimate (host : Host) (this : StravaMetrics)
    (r : RacePredictionSet.t) :
  predictRaceTimes host this = Ok (Some r) ->
  (exists c : Q,
     RacePredictionSet.currentVO2max r = Fin c /\ (30 <= c)%Q /\ (c <= 90)%Q)
  /\ List.map fst (RacePredictionSet.predictions r)
     = ["5k"; "10k"; "Half Marathon"; "Marathon"]%string.
Proof.
  unfold predictRaceTimes.
  destruct (generateVO2maxHistory host this) as [history|e] eqn:Eh; [|discriminate].
  cbn [bind]. destruct (length history =? 0)%nat eqn:El; [discriminate|].
  apply vo2max_loop_spec in Eh as [Hband _].
  assert (Forall (fun s => in_band (VO2maxSample.vo2max s)) history) as Hb
    by exact Hband.
  clear Hband. intros [= <-]. cbn [RacePredictionSet.currentVO2max
    RacePredictionSet.predictions List.map fst]. split; [|reflexivity].
  apply round1_band.
  set (recent := List.map VO2maxSample.vo2max (List.filter _ history)).
  assert (Forall in_band recent) as Hr.
  { unfold recent. apply Forall_forall. intros x Hx.
    apply in_map_iff in Hx as [s [<- Hs]]. apply filter_In in Hs as [Hs _].
    rewrite Forall_forall in Hb. now apply Hb. }
  destruct recent as [|x xs].
  - destruct (List.last (List.map Some history) None) as [h|] eqn:E.
    + apply last_Some_In in E. rewrite Forall_forall in Hb. now apply Hb.
    + exfalso. destruct history as [|s history]; [discriminate|].
      clear - E. revert s E. induction history as [|y l IH]; intros s E;
        [discriminate|]. apply (IH y). exact E.
  - now apply mean_band.
Qed.


(** The property on the steady 10 km of five days ago. *)
Lemma predictRaceTimes_estimate_witness :
  exists r,
    predictRaceTimes (Demo.host Demo.noon 0) (engine_of [steady_10k]) = Ok (Some r)
    /\ exists c : Q,
         RacePredictionSet.currentVO2max r = Fin c /\ (30 <= c)%Q /\ (c <= 90)%Q.
Proof.
  eexists. split; [vm_compute; reflexivity|].
  refine (proj1 (predictRaceTimes_estimate (Demo.host Demo.noon 0) (engine_of [steady_10k]) _ _)).
  vm_compute. reflexivity.
Defined.

(** Property X11.  The distance all but cancels out of [predictTime]:
    for every distance from 5 km to the marathon and every VO2max from 30
    to 90 (the band of the estimator's sanity check) the prediction has
    no hours part and reads [M:SS] with [M] between 10 and 31, the
    seconds on two digits. *)
Theorem predictTime_minutes_band (host : Host) (D v : Q) :
  (5 <= D)%Q -> (D <= 42.195)%Q -> (30 <= v)%Q -> (v <= 90)%Q ->
  exists m s : Z,
    (10 <= m <= 31)%Z /\ (0 <= s <= 59)%Z
    /\ predictTime host (Fin D) (Fin v)
       = (Z_toString m ++ ":" ++ two_digits s)%string.
Proof.
  intros HD1 HD2 Hv1 Hv2.
  destruct (timeMinutes_Fin D v) as [t [Et [Ht Hq]]]; [lra | lra |].
  assert (10 <= t)%Q as Hlo by (rewrite Hq; apply Qle_shift_div_l; lra).
  assert (t <= 31.2)%Q as Hhi by (rewrite Hq; apply Qle_shift_div_r; lra).
  rewrite (predictTime_timeMinutes host D v t Ht Et). unfold format_duration.
  assert (Qle_bool 60 t = false) as -> by (apply Qle_bool_false; lra).
  set (total := Qfloor (t * 60)).
  assert (600 <= total)%Z as H1.
  { change 600%Z with (Qfloor 600). apply Qfloor_resp_le. lra. }
  assert (total <= 1872)%Z as H2.
  { change 1872%Z with (Qfloor 1872). apply Qfloor_resp_le. lra. }
  assert (10 <= total / 60 <= 31)%Z as H3.
  { split; [apply Z.div_le_lower_bound; lia|].
    apply Z.lt_succ_r. apply Z.div_lt_upper_bound; lia. }
  exists ((total / 60) mod 60)%Z, (total mod 60)%Z.
  rewrite (Z.mod_small (total / 60) 60) by lia.
  pose proof (Z.mod_pos_bound total 60). repeat split; try lia.
Qed.

(** The property on the marathon at a VO2max of 50: ["18:39"]. *)
Lemma predictTime_minutes_band_witness :
  exists m s : Z,
    (10 <= m <= 31)%Z /\ (0 <= s <= 59)%Z
    /\ predictTime (Demo.host Demo.noon 0) (Fin 42.195) (Fin 50)
       = (Z_toString m ++ ":" ++ two_digits s)%string.
Proof.
  apply (predictTime_minutes_band (Demo.host Demo.noon 0) 42.195 50);
    apply Qle_bool_iff; reflexivity.
Defined.


(* ================================================================== *)
(** * The power curve                                                  *)
(* ================================================================== *)

(** Property X12.  [analyzePowerCurve] returns [null] exactly when no
    activity has a truthy [average_watts]. *)
Theorem analyzePowerCurve_null_iff (this : StravaMetrics) :
  analyzePowerCurve this = Ok None <->
  forall a, In a (activities this) -> truthy_opt (average_watts a) = false.
Proof.
  unfold analyzePowerCurve.
  set (aw := List.filter (fun a => truthy_opt (average_watts a)) (activities this)).
  assert (aw = [] <->
          forall a, In a (activities this) -> truthy_opt (average_watts a) = false)
    as Hnil.
  { split.
    - intros E a Ha. destruct (truthy_opt (average_watts a)) eqn:Et; [|reflexivity].
      assert (In a aw) as Hin by (apply filter_In; auto).
      rewrite E in Hin. destruct Hin.
    - intros H. destruct aw as [|x l] eqn:E; [reflexivity|].
      assert (In x aw) as Hin by (rewrite E; now left).
      apply filter_In in Hin as [Hin Ht]. rewrite (H x Hin) in Ht. discriminate. }
  rewrite <- Hnil. destruct (length aw =? 0)%nat eqn:El.
  - apply length_zero_nil in El. tauto.
  - split.
    + destruct (curve_loop aw durations); discriminate.
    + intros E. rewrite E in El. discriminate.
Qed.

Lemma curve_loop_sublist (aw : list Activity) (ds : list num)
    (curve : list PowerCurvePoint.t) :
  curve_loop aw ds = Ok curve ->
  sublist (List.map PowerCurvePoint.duration curve) ds
  /\ forall d, In d ds -> candidates aw d <> [] ->
       In d (List.map PowerCurvePoint.duration curve).
Proof.
  revert curve. induction ds as [|d ds IH]; intros curve H; cbn [curve_loop] in H.
  - injection H as <-. split; [constructor|]. intros d [].
  - destruct (candidates aw d) as [|x xs] eqn:Ec.
    + destruct (IH _ H) as [IH1 IH2]. split; [now constructor|].
      intros d' [<-|Hd'] Hc; [congruence|auto].
    + destruct (date_part _) as [date|]; [|discriminate]. cbn [bind] in H.
      destruct (curve_loop aw ds) as [rest|]; [|discriminate]. cbn [bind] in H.
      injection H as <-. destruct (IH _ eq_refl) as [IH1 IH2].
      cbn [List.map PowerCurvePoint.duration]. split; [now constructor|].
      intros d' [<-|Hd'] Hc; [now left | right; auto].
Qed.


(** Property X13.  The durations of the curve [analyzePowerCurve] returns
    are a subsequence of the ten target durations (ascending, none
    twice, ten points at most), and a target duration has a point
    exactly when some activity with power lies within 20% of it. *)
Theorem analyzePowerCurve_durations (this : StravaMetrics) (r : PowerCurve.t) :
  analyzePowerCurve this = Ok (Some r) ->
  let points := List.map PowerCurvePoint.duration (PowerCurve.curve r) in
  sublist points durations
  /\ (length points <= 10)%nat
  /\ forall d,
       In d points <->
       In d durations /\ candidates (withPower (activities this)) d <> [].
Proof.
  unfold analyzePowerCurve. fold (withPower (activities this)).
  destruct (length (withPower (activities this)) =? 0)%nat; [discriminate|].
  destruct (curve_loop (withPower (activities this)) durations) as [curve|] eqn:Ec;
    [|discriminate].
  cbn [bind]. intros [= <-]. cbn [PowerCurve.curve].
  destruct (curve_loop_sublist _ _ _ Ec) as [Hsub Hall].
  split; [exact Hsub|]. split.
  - apply sublist_length in Hsub. exact Hsub.
  - intros d. split.
    + intros Hd. apply in_map_iff in Hd as [c [<- Hc]].
      now apply (curve_loop_points _ _ _ Ec).
    + intros [Hd Hc]. now apply Hall.
Qed.


(** The property on a one-minute sprint and a twenty-minute effort. *)
Lemma analyzePowerCurve_durations_witness :
  exists r,
    analyzePowerCurve (engine_of [sprint; twenty_minutes]) = Ok (Some r)
    /\ List.map PowerCurvePoint.duration (PowerCurve.curve r) = [Fin 60; Fin 1200]
    /\ sublist (List.map PowerCurvePoint.duration (PowerCurve.curve r)) durations.
Proof.
  eexists. split; [vm_compute; reflexivity|]. split; [reflexivity|].
  refine (proj1 (analyzePowerCurve_durations (engine_of [sprint; twenty_minutes]) _ _)).
  vm_compute. reflexivity.
Defined.







Lemma anchor_five (d : num) :
  In d durations -> (d >=? Fin 250) && (d <=? Fin 350) = true -> d = Fin 300.
Proof.
  unfold durations. intros H Ht.
  repeat (destruct H as [<-|H]; [first [reflexivity | discriminate Ht]|]).
  destruct H.
Qed.

Lemma anchor_twenty (d : num) :
  In d durations -> (d >=? Fin 1000) && (d <=? Fin 1400) = true -> d = Fin 1200.
Proof.
  unfold durations. intros H Ht.
  repeat (destruct H as [<-|H]; [first [reflexivity | discriminate Ht]|]).
  destruct H.
Qed.


(** Property X15.  When [analyzePowerCurve] reports a critical power,
    its two anchors are the points of the 300 s and of the 1200 s
    targets, and [cp] and [wPrime] are the roundings of the two-point
    model at their powers [P5] and [P20]:
    [cp = round((P5·300 − P20·1200) / (300 − 1200))] and
    [wPrime = round((P5 − CP)·300)] with [CP] the unrounded quotient. *)
Theorem analyzePowerCurve_criticalPower (this : StravaMetrics) (r : PowerCurve.t)
    (model : CriticalPower.t) :
  analyzePowerCurve this = Ok (Some r) ->
  PowerCurve.criticalPower r = Some model ->
  exists five twenty,
    In five (PowerCurve.curve r) /\ PowerCurvePoint.duration five = Fin 300
    /\ In twenty (PowerCurve.curve r) /\ PowerCurvePoint.duration twenty = Fin 1200
    /\ CriticalPower.cp model
       = Math_round (CP_model (PowerCurvePoint.power five) (Fin 300)
                              (PowerCurvePoint.power twenty) (Fin 1200))
    /\ CriticalPower.wPrime model
       = Math_round (W_model (PowerCurvePoint.power five) (Fin 300)
                             (PowerCurvePoint.power twenty) (Fin 1200)).
Proof.
  unfold analyzePowerCurve.
  destruct (length _ =? 0)%nat; [discriminate|].
  destruct (curve_loop _ durations) as [curve|] eqn:Ec; [|discriminate].
  cbn [bind]. intros [= <-]. cbn [PowerCurve.curve PowerCurve.criticalPower].
  unfold calculateCriticalPower. destruct (length curve <? 3)%nat; [discriminate|].
  destruct (List.find _ curve) as [five|] eqn:E5; [|discriminate].
  destruct (List.find _ curve) as [twenty|] eqn:E20 in |- *; [|discriminate].
  intros [= <-]. cbn [CriticalPower.cp CriticalPower.wPrime].
  apply find_some in E5 as [H5 T5]. apply find_some in E20 as [H20 T20].
  pose proof (proj1 (curve_loop_points _ _ _ Ec five H5)) as D5.
  pose proof (proj1 (curve_loop_points _ _ _ Ec twenty H20)) as D20.
  apply anchor_five in T5; [|exact D5]. apply anchor_twenty in T20; [|exact D20].
  exists five, twenty. repeat (split; [assumption|]).
  rewrite T5, T20. split; reflexivity.
Qed.


(** The property on a sprint, five minutes at 340 W and twenty at 280 W:
    [cp = 260] and [wPrime = 24000]. *)
Lemma analyzePowerCurve_criticalPower_witness :
  exists r model,
    analyzePowerCurve (engine_of [sprint; five_minutes; twenty_minutes]) = Ok (Some r)
    /\ PowerCurve.criticalPower r = Some model
    /\ CriticalPower.cp model = Fin 260
    /\ CriticalPower.wPrime model = Fin 24000
    /\ exists five twenty,
         In five (PowerCurve.curve r) /\ PowerCurvePoint.duration five = Fin 300
         /\ In twenty (PowerCurve.curve r)
         /\ PowerCurvePoint.duration twenty = Fin 1200
         /\ CriticalPower.cp model
            = Math_round (CP_model (PowerCurvePoint.power five) (Fin 300)
                                   (PowerCurvePoint.power twenty) (Fin 1200))
         /\ CriticalPower.wPrime model
            = Math_round (W_model (PowerCurvePoint.power five) (Fin 300)
                                  (PowerCurvePoint.power twenty) (Fin 1200)).
Proof.
  eexists. eexists. split; [vm_compute; reflexivity|].
  split; [reflexivity|]. split; [reflexivity|]. split; [reflexivity|].
  apply (analyzePowerCurve_criticalPower
           (engine_of [sprint; five_minutes; twenty_minutes]));
    [vm_compute; reflexivity | reflexivity].
Defined.


(* ================================================================== *)
(** * Interval workouts                                                *)
(* ================================================================== *)

Section SortOrder.
Context {A : Type} (key : A -> num).

Lemma sort_insert_descending (x : A) (l : list A) :
  is_nan (key x) = false ->
  Forall (fun a => is_nan (key a) = false) l ->
  StronglySorted (fun a b => (key b >? key a) = false) l ->
  StronglySorted (fun a b => (key b >? key a) = false)
    (sort_insert (fun a b => key b - key a) x l).
Proof.
  intros Hx Hl Hs. induction l as [|y l IH]; cbn [sort_insert].
  - repeat constructor.
  - inversion Hl as [|? ? Hy Hl']; subst.
    inversion Hs as [|? ? Hs' Hyl]; subst. rewrite gtb_sub.
    destruct (key y >? key x) eqn:E.
    + constructor; [now apply IH|]. apply Forall_forall. intros e He.
      apply sort_insert_In in He as [<-|He]; [now apply gtb_asym|].
      rewrite Forall_forall in Hyl. now apply Hyl.
    + constructor; [exact Hs|]. constructor; [exact E|].
      apply Forall_forall. intros e He. rewrite Forall_forall in Hyl.
      apply not_gtb_trans with (y := key y); auto.
Qed.

Lemma sort_descending (l : list A) :
  Forall (fun a => is_nan (key a) = false) l ->
  StronglySorted (fun a b => (key b >? key a) = false)
    (sort (fun a b => key b - key a) l).
Proof.
  induction l as [|x l IH]; intros H; cbn [sort]; [constructor|].
  inversion H as [|? ? Hx Hl]; subst.
  apply sort_insert_descending; [exact Hx| |now apply IH].
  apply Forall_forall. intros e He. apply sort_In in He.
  rewrite Forall_forall in Hl. now apply Hl.
Qed.
End SortOrder.


(** Property X16.  When the dates of the summaries parse,
    [detectIntervals] returns them newest first: no summary is dated
    later than one that stands before it. *)
Theorem detectIntervals_newest_first (host : Host) (this : StravaMetrics)
    (minActivities : num) (workouts : list IntervalWorkoutSummary.t) :
  detectIntervals host this minActivities = Ok workouts ->
  Forall (fun s => Date_parse host (IntervalWorkoutSummary.date s) <> None) workouts ->
  StronglySorted (fun s t => (reportedOn host t >? reportedOn host s) = false) workouts.
Proof.
  unfold detectIntervals.
  destruct (filterM isIntervalName (activities this)) as [ws|]; [|discriminate].
  cbn [bind]. destruct (mapM (summarize host this) ws) as [summaries|]; [|discriminate].
  cbn [bind]. intros [= <-] Hd. apply (sort_descending (reportedOn host)).
  apply Forall_forall. intros s Hs. rewrite Forall_forall in Hd.
  specialize (Hd s ltac:(apply sort_In; exact Hs)).
  unfold reportedOn. now destruct (Date_parse host _).
Qed.


(** The property on two sessions listed oldest first. *)
Lemma detectIntervals_newest_first_witness :
  exists workouts,
    detectIntervals (Demo.host Demo.noon 0) (engine_of [track_session; threshold_effort]) (Fin 20)
    = Ok workouts
    /\ List.map IntervalWorkoutSummary.date workouts
       = ["2025-06-13"; "2025-06-05"]%string
    /\ StronglySorted
         (fun s t => (reportedOn (Demo.host Demo.noon 0) t >? reportedOn (Demo.host Demo.noon 0) s) = false) workouts.
Proof.
  eexists. split; [vm_compute; reflexivity|]. split; [reflexivity|].
  apply (detectIntervals_newest_first (Demo.host Demo.noon 0)
           (engine_of [track_session; threshold_effort]) (Fin 20)).
  - vm_compute. reflexivity.
  - repeat constructor; intros E; vm_compute in E; discriminate E.
Defined.

(** Property X17.  The pace of a summary shows 60 seconds when the
    fraction of the minute rounds up: for a workout of 1 m to 1000 km
    whose pace lies between [k + 0.992] and [k + 0.999] minutes per
    kilometre ([k] a whole number below 1000), [avgPace] is ["k:60"], not
    the next full minute.  The band keeps a margin from the two
    boundaries of the rounding ([k + 119/120] and [k + 1]). *)
Theorem summarize_pace_sixty (host : Host) (this : StravaMetrics) (workout : Activity)
    (t d : Q) (s : string) (k : Z) :
  moving_time workout = Some (Fin t) -> distance workout = Some (Fin d) ->
  start_date_local workout = Some s ->
  (0 < t)%Q -> (1 <= d)%Q -> (d <= 1000000)%Q -> (0 <= k <= 999)%Z ->
  let pace := ((t / 60) / (d / 1000))%Q in
  (inject_Z k + 0.992 <= pace)%Q -> (pace <= inject_Z k + 0.999)%Q ->
  exists summary,
    summarize host this workout = Ok summary
    /\ IntervalWorkoutSummary.avgPace summary = (Z_toString k ++ ":60")%string.
Proof.
  intros Ht Hd Hs Ht0 Hd0 _ Hk pace Hlo Hhi. unfold summarize.
  rewrite Ht, Hd, Hs. cbn [date_part bind toNum]. eexists. split; [reflexivity|].
  cbn [IntervalWorkoutSummary.avgPace].
  rewrite (div_Fin t 60), (div_Fin d 1000) by discriminate. unfold fin.
  assert (0 < d / 1000)%Q as Hd1 by (apply Qlt_shift_div_l; lra).
  assert (0 < t / 60)%Q as Ht1 by (apply Qlt_shift_div_l; lra).
  rewrite div_Fin by (rewrite Qred_correct; lra). unfold fin.
  set (q := Qred (Qred (t / 60) / Qred (d / 1000))).
  assert (q == pace)%Q as Hq by (unfold q, pace; now rewrite !Qred_correct).
  assert (0 <= inject_Z k)%Q as Hk0
    by (change 0%Q with (inject_Z 0); rewrite <- Zle_Qle; lia).
  assert (Qfloor q = k) as Hfl.
  { apply Qfloor_unique; rewrite Hq; [lra|].
    rewrite inject_Z_plus. change (inject_Z 1) with 1%Q. lra. }
  assert (Qfloor (q / 1) = k) as Hfl1.
  { rewrite <- Hfl. apply Qfloor_comp. field. }
  unfold Math_floor at 1. rewrite Hfl, Number_toString_small by lia.
  unfold rem. change (Qeq_bool 1 0) with false. cbv iota.
  rewrite Qtrunc_nonneg, Hfl1 by (apply Qle_shift_div_l; lra).
  unfold fin. rewrite mul_Fin.
  assert (Math_round (Fin (Qred (Qred (q - 1 * inject_Z k) * 60))) = Fin (inject_Z 60))
    as ->.
  { unfold Math_round. do 2 f_equal. apply Qfloor_unique.
    - rewrite !Qred_correct, Hq. change (inject_Z 60) with 60%Q. lra.
    - rewrite !Qred_correct, Hq. change (inject_Z (60 + 1)) with 61%Q. lra. }
  rewrite Number_toString_small by (cbn; lia). reflexivity.
Qed.


(** The property on a kilometre in 4 minutes 59.6 seconds (a pace of
    4.9933 minutes per kilometre). *)
Lemma summarize_pace_sixty_witness :
  exists summary,
    summarize (Demo.host Demo.noon 0) (engine_of []) fast_kilometre = Ok summary
    /\ IntervalWorkoutSummary.avgPace summary = "4:60"%string.
Proof.
  apply (summarize_pace_sixty (Demo.host Demo.noon 0) (engine_of []) fast_kilometre
           299.6 1000 "2025-06-12T07:00:00Z" 4);
    try reflexivity; try discriminate.
  lia.
Defined.


(* ================================================================== *)
(** * The polyline decoder                                             *)
(* ================================================================== *)

Lemma wrap_small (z : Z) : (- 2 ^ 31 <= z < 2 ^ 31)%Z -> Int32.wrap z = z.
Proof. intros H. unfold Int32.wrap. rewrite Z.mod_small; lia. Qed.

Lemma lor_disjoint (a c s : Z) :
  (0 <= s)%Z -> (0 <= a < 2 ^ s)%Z ->
  Z.lor a (Z.shiftl c s) = (a + c * 2 ^ s)%Z.
Proof.
  intros Hs Ha. rewrite Z.shiftl_mul_pow2 by lia.
  assert (Z.land a (c * 2 ^ s) = 0%Z) as Hland.
  { apply Z.bits_inj'. intros n Hn. rewrite Z.land_spec, Z.bits_0.
    destruct (Z.lt_ge_cases n s) as [Hlt|Hge].
    - rewrite Z.mul_pow2_bits_low by lia. apply andb_false_r.
    - rewrite <- (Z.mod_small a (2 ^ s)) by lia.
      rewrite Z.mod_pow2_bits_high by lia. reflexivity. }
  rewrite <- Z.lxor_lor by exact Hland. symmetry. now apply Z.add_nocarry_lxor.
Qed.

Lemma sub_charCode (k : Z) :
  (0 <= k < 256)%Z ->
  charCode (ascii_of_nat (Z.to_nat k)) - Fin 63 = Fin (inject_Z (k - 63)).
Proof.
  intros Hk. unfold charCode. rewrite nat_ascii_embedding by lia.
  rewrite Z2Nat.id by lia. rewrite sub_Fin. f_equal.
  rewrite <- (Qred_inject_Z (k - 63)). apply Qred_complete.
  unfold Z.sub. rewrite inject_Z_plus, inject_Z_opp. reflexivity.
Qed.

Lemma ToInt32_small (z : Z) :
  (- 2 ^ 31 <= z < 2 ^ 31)%Z -> ToInt32 (Fin (inject_Z z)) = z.
Proof.
  intros Hz. unfold ToInt32, Qtrunc.
  destruct (Qle_bool 0 (inject_Z z));
    rewrite ?Qfloor_Z, ?Qceiling_Z; now apply wrap_small.
Qed.

Lemma geb_32 (a : Z) : (Fin (inject_Z a) >=? Fin 32) = (32 <=? a)%Z.
Proof.
  unfold geb, leb. change 32%Q with (inject_Z 32).
  destruct (Z.leb_spec 32 a) as [H|H].
  - apply Qle_bool_iff. now rewrite <- Zle_Qle.
  - apply Qle_bool_false. now rewrite <- Zlt_Qlt.
Qed.

(** One round of the inner loop on a chunk [b] read below [2^31]. *)
Lemma chunk_or (b shift acc : Z) :
  (0 <= b < 64)%Z -> (0 <= shift)%Z -> (0 <= acc < 2 ^ shift)%Z ->
  (acc + b mod 32 * 2 ^ shift < 2 ^ 31)%Z ->
  Int32.or acc (Int32.shl (Int32.and (ToInt32 (Fin (inject_Z b))) 31) shift)
  = (acc + b mod 32 * 2 ^ shift)%Z.
Proof.
  intros Hb Hs Ha Hlt. rewrite ToInt32_small by lia.
  assert (0 <= b mod 32 < 32)%Z as Hc by (apply Z.mod_pos_bound; lia).
  assert (0 < 2 ^ shift)%Z as Hpow by (apply Z.pow_pos_nonneg; lia).
  assert (Int32.and b 31 = b mod 32)%Z as ->.
  { unfold Int32.and. rewrite (wrap_small b), (wrap_small 31) by lia.
    change 31%Z with (Z.ones 5). rewrite Z.land_ones by lia.
    change (2 ^ 5)%Z with 32%Z. apply wrap_small. lia. }
  unfold Int32.or, Int32.shl. rewrite (wrap_small (b mod 32)) by lia.
  destruct (Z.eq_dec (b mod 32) 0) as [->|Hne].
  - rewrite Z.shiftl_0_l. change (Int32.wrap 0) with 0%Z.
    rewrite Z.lor_0_r, (wrap_small acc), (wrap_small acc) by lia. lia.
  - assert (shift < 31)%Z as Hs31.
    { destruct (Z.lt_ge_cases shift 31) as [H|H]; [exact H|exfalso].
      assert (2 ^ 31 <= 2 ^ shift)%Z by (apply Z.pow_le_mono_r; lia). nia. }
    rewrite (Z.mod_small shift 32) by lia.
    rewrite 2!(wrap_small (Z.shiftl _ _))
      by (rewrite Z.shiftl_mul_pow2 by lia; nia).
    rewrite (wrap_small acc) by lia.
    rewrite lor_disjoint by lia. apply wrap_small. nia.
Qed.

Lemma append_String (c : ascii) (s r : string) :
  (String c s ++ r)%string = String c (s ++ r)%string.
Proof. reflexivity. Qed.

Lemma append_empty (r : string) : (EmptyString ++ r)%string = r.
Proof. reflexivity. Qed.

Lemma chunks_encode (fuel : nat) (v : Z) (rest : string) (shift acc : Z) :
  (0 < fuel)%nat -> (0 <= v < 32 ^ Z.of_nat fuel)%Z ->
  (0 <= shift)%Z -> (0 <= acc < 2 ^ shift)%Z ->
  (acc + v * 2 ^ shift < 2 ^ 31)%Z ->
  chunks (encode_chunks fuel v ++ rest) shift acc = ((acc + v * 2 ^ shift)%Z, rest).
Proof.
  revert v shift acc.
  induction fuel as [|fuel IH]; intros v shift acc Hf Hv Hs Ha Hlt; [lia|].
  assert (0 < 2 ^ shift)%Z as Hpow by (apply Z.pow_pos_nonneg; lia).
  cbn [encode_chunks]. destruct (Z.ltb_spec v 32) as [Hv32|Hv32].
  - rewrite append_String, append_empty. cbn [chunks]. rewrite sub_charCode by lia.
    replace (v + 63 - 63)%Z with v by lia.
    rewrite geb_32. destruct (Z.leb_spec 32 v) as [H|_]; [lia|].
    rewrite chunk_or by (rewrite ?Z.mod_small by lia; lia).
    now rewrite Z.mod_small by lia.
  - assert (0 <= v mod 32 < 32)%Z as Hc by (apply Z.mod_pos_bound; lia).
    rewrite append_String. cbn [chunks]. rewrite sub_charCode by lia.
    replace (32 + v mod 32 + 63 - 63)%Z with (32 + v mod 32)%Z by lia.
    rewrite geb_32. destruct (Z.leb_spec 32 (32 + v mod 32)) as [_|H]; [|lia].
    assert ((32 + v mod 32) mod 32 = v mod 32)%Z as Hm.
    { rewrite Z.add_mod, Z.mod_mod by lia. change (32 mod 32)%Z with 0%Z.
      rewrite Z.add_0_l. apply Z.mod_mod. lia. }
    assert (v = 32 * (v / 32) + v mod 32)%Z as Hdiv by (apply Z.div_mod; lia).
    assert (2 ^ (shift + 5) = 32 * 2 ^ shift)%Z as Hp.
    { rewrite Z.pow_add_r by lia. change (2 ^ 5)%Z with 32%Z. lia. }
    assert (1 <= v / 32)%Z as Hq by (apply Z.div_le_lower_bound; lia).
    rewrite chunk_or by (rewrite ?Hm; first [lia|nia]). rewrite Hm.
    rewrite IH.
    + f_equal. rewrite Hp. nia.
    + destruct fuel; [|lia]. change (32 ^ Z.of_nat 1)%Z with 32%Z in Hv. lia.
    + split; [lia|]. apply Z.div_lt_upper_bound; [lia|].
      rewrite Nat2Z.inj_succ, Z.pow_succ_r in Hv by lia. lia.
    + lia.
    + rewrite Hp. nia.
    + rewrite Hp. nia.
Qed.

Lemma and_1 (x : Z) :
  (- 2 ^ 31 <= x < 2 ^ 31)%Z -> Int32.and x 1 = (x mod 2)%Z.
Proof.
  intros Hx. unfold Int32.and. rewrite (wrap_small x) by lia.
  change (Int32.wrap 1) with (Z.ones 1). rewrite Z.land_ones by lia.
  change (2 ^ 1)%Z with 2%Z. apply wrap_small.
  pose proof (Z.mod_pos_bound x 2). lia.
Qed.

Lemma sar_1 (x : Z) :
  (- 2 ^ 31 <= x < 2 ^ 31)%Z -> Int32.sar x 1 = (x / 2)%Z.
Proof.
  intros Hx. unfold Int32.sar. rewrite (wrap_small x) by lia.
  change (1 mod 32)%Z with 1%Z. rewrite Z.shiftr_div_pow2 by lia.
  change (2 ^ 1)%Z with 2%Z. apply wrap_small.
  pose proof (Z.div_mod x 2). pose proof (Z.mod_pos_bound x 2). lia.
Qed.

Lemma delta_zigzag (d : Z) :
  fits d -> delta (if (d <? 0)%Z then - 2 * d - 1 else 2 * d)%Z = d.
Proof.
  unfold fits. intros Hd. unfold delta.
  destruct (Z.ltb_spec d 0) as [Hneg|Hpos].
  - rewrite and_1, sar_1 by lia.
    replace ((- 2 * d - 1) mod 2)%Z with 1%Z
      by (apply (Z.mod_unique_pos _ _ (- d - 1)); lia).
    replace ((- 2 * d - 1) / 2)%Z with (- d - 1)%Z
      by (apply (Z.div_unique_pos _ _ _ 1); lia).
    cbn [Z.eqb]. unfold Int32.not. rewrite (wrap_small (- d - 1)) by lia.
    unfold Z.lnot. replace (Z.pred (- (- d - 1)))%Z with d by lia.
    apply wrap_small. lia.
  - rewrite and_1, sar_1 by lia.
    replace ((2 * d) mod 2)%Z with 0%Z
      by (apply (Z.mod_unique_pos _ _ d); lia).
    replace (2 * d / 2)%Z with d by (apply (Z.div_unique_pos _ _ _ 0); lia).
    reflexivity.
Qed.

Lemma chunks_encode_value (d : Z) (rest : string) :
  fits d ->
  chunks (encode_value d ++ rest) 0 0
  = ((if (d <? 0)%Z then - 2 * d - 1 else 2 * d)%Z, rest).
Proof.
  unfold fits. intros Hd. unfold encode_value.
  rewrite chunks_encode; [f_equal; lia|lia| |lia|cbn; lia|].
  - change (32 ^ Z.of_nat 7)%Z with (2 ^ 35)%Z. destruct (d <? 0)%Z eqn:E; lia.
  - change (2 ^ 0)%Z with 1%Z. destruct (d <? 0)%Z eqn:E; lia.
Qed.

Lemma length_append (s r : string) :
  String.length (s ++ r) = (String.length s + String.length r)%nat.
Proof.
  induction s as [|c s IH]; [reflexivity|].
  rewrite append_String. cbn [String.length]. now rewrite IH.
Qed.

Lemma encode_value_length (d : Z) : (1 <= String.length (encode_value d))%nat.
Proof.
  unfold encode_value. cbn [encode_chunks]. destruct (_ <? 32)%Z; cbn; lia.
Qed.

Lemma decode_loop_encode (path : list (Z * Z)) (prev : Z * Z) (fuel : nat) :
  steps_fit prev path ->
  (String.length (encode_path prev path) <= fuel)%nat ->
  decode_loop fuel (encode_path prev path) (fst prev) (snd prev)
  = List.map degrees path.
Proof.
  revert prev fuel. induction path as [|p path IH]; intros prev fuel Hfit Hlen.
  - destruct fuel; reflexivity.
  - destruct Hfit as [Hlat [Hlng Hfit]]. cbn [encode_path] in *.
    rewrite !length_append in Hlen.
    pose proof (encode_value_length (fst p - fst prev)) as H1.
    pose proof (encode_value_length (snd p - snd prev)) as H2.
    destruct fuel as [|fuel]; [lia|]. cbn [decode_loop].
    destruct (encode_value (fst p - fst prev) ++ _)%string eqn:E.
    { apply (f_equal String.length) in E. rewrite length_append in E.
      change (String.length EmptyString) with 0%nat in E. lia. }
    rewrite <- E. clear E.
    rewrite chunks_encode_value, delta_zigzag by assumption.
    rewrite chunks_encode_value, delta_zigzag by assumption.
    replace (fst prev + (fst p - fst prev))%Z with (fst p) by lia.
    replace (snd prev + (snd p - snd prev))%Z with (snd p) by lia.
    cbn [List.map]. unfold degrees at 1. f_equal. apply IH; [exact Hfit|lia].
Qed.

Lemma printable_append (s r : string) :
  printable s -> printable r -> printable (s ++ r).
Proof.
  induction s as [|c s IH]; intros Hs Hr; [exact Hr|].
  destruct Hs as [Hc Hs]. rewrite append_String. split; [exact Hc|]. now apply IH.
Qed.

Lemma printable_encode_chunks (fuel : nat) (v : Z) :
  (0 <= v)%Z -> printable (encode_chunks fuel v).
Proof.
  revert v. induction fuel as [|fuel IH]; intros v Hv; [exact I|].
  cbn [encode_chunks]. destruct (Z.ltb_spec v 32) as [H|H]; cbn [printable].
  - rewrite nat_ascii_embedding by lia. split; [lia|exact I].
  - pose proof (Z.mod_pos_bound v 32).
    rewrite nat_ascii_embedding by lia. split; [lia|].
    apply IH. apply Z.div_pos; lia.
Qed.

Lemma printable_encode_path (path : list (Z * Z)) (prev : Z * Z) :
  printable (encode_path prev path).
Proof.
  revert prev. induction path as [|p path IH]; intros prev; [exact I|].
  cbn [encode_path]. unfold encode_value.
  repeat apply printable_append; try apply IH;
    apply printable_encode_chunks; destruct (_ <? 0)%Z eqn:E; lia.
Qed.


(** Property X18.  [decodePolyline] inverts the polyline encoding: for
    every path whose steps (the differences between consecutive points,
    the first one taken from the origin, in units of [1e-5] degree) lie
    in [[-2^30, 2^30)], decoding the encoded path returns its points, in
    degrees. *)
Theorem decodePolyline_encodePolyline (path : list (Z * Z)) :
  steps_fit (0, 0)%Z path ->
  decodePolyline (encodePolyline path) = List.map degrees path.
Proof.
  intros Hfit. unfold decodePolyline, encodePolyline.
  now apply (decode_loop_encode path (0, 0)%Z).
Qed.


(** The property on a path of three points. *)
Lemma decodePolyline_encodePolyline_witness :
  encodePolyline three_cities = "_p~iF~ps|U_ulLnnqC_mqNvxq`@"%string
  /\ decodePolyline (encodePolyline three_cities) = List.map degrees three_cities.
Proof.
  split; [reflexivity|]. apply decodePolyline_encodePolyline.
  unfold three_cities, steps_fit, fits. cbn [fst snd]. lia.
Defined.

(** Property X19.  Every path whose steps lie in [[-2^30, 2^30)] is what
    [decodePolyline] returns on some string of the characters ['?'] to
    ['~']. *)
Theorem decodePolyline_onto (path : list (Z * Z)) :
  steps_fit (0, 0)%Z path ->
  exists encoded,
    printable encoded /\ decodePolyline encoded = List.map degrees path.
Proof.
  intros Hfit. exists (encode_path (0, 0)%Z path). split.
  - apply printable_encode_path.
  - now apply (decode_loop_encode path (0, 0)%Z).
Qed.


(** The property on a path of three points. *)
Lemma decodePolyline_onto_witness :
  exists encoded,
    printable encoded /\ decodePolyline encoded = List.map degrees three_cities.
Proof.
  apply decodePolyline_onto.
  unfold three_cities, steps_fit, fits. cbn [fst snd]. lia.
Defined.

Lemma chunks_shorter (rest : string) (shift result : Z) :
  (String.length (snd (chunks rest shift result)) <= String.length rest)%nat
  /\ (rest <> EmptyString ->
      (String.length (snd (chunks rest shift result)) < String.length rest)%nat).
Proof.
  revert shift result. induction rest as [|c rest IH]; intros shift result.
  - cbn. split; [lia|congruence].
  - cbn [chunks]. destruct (_ >=? _).
    + destruct (IH (shift + 5)%Z
                  (Int32.or result
                     (Int32.shl (Int32.and (ToInt32 (charCode c - Fin 63)) 31) shift)))
        as [H _].
      cbn [String.length]. split; [lia|intros _; lia].
    + cbn [snd String.length]. split; [lia|intros _; lia].
Qed.

(** The loop ends by its own test within [String.length rest] rounds. *)
Lemma decode_loop_fuel (k fuel : nat) (rest : string) (lat lng : Z) :
  (String.length rest <= fuel)%nat ->
  decode_loop (fuel + k) rest lat lng = decode_loop fuel rest lat lng.
Proof.
  revert rest lat lng. induction fuel as [|fuel IH]; intros rest lat lng Hlen.
  - destruct rest; [|cbn in Hlen; lia]. now destruct k.
  - cbn [Nat.add decode_loop]. destruct rest as [|c rest]; [reflexivity|].
    destruct (chunks (String c rest) 0 0) as [r1 rest1] eqn:E1.
    destruct (chunks rest1 0 0) as [r2 rest2] eqn:E2.
    f_equal. apply IH.
    pose proof (proj2 (chunks_shorter (String c rest) 0 0) ltac:(discriminate)) as H1.
    pose proof (proj1 (chunks_shorter rest1 0 0)) as H2.
    rewrite E1 in H1. rewrite E2 in H2. cbn [snd String.length] in *. lia.
Qed.


(** Property X20.  [decodePolyline] returns no point on the empty string
    only: every other string, even one that ends in the middle of a
    value, yields at least one point. *)
Theorem decodePolyline_empty_iff (encoded : string) :
  decodePolyline encoded = [] <-> encoded = EmptyString.
Proof.
  split; [|now intros ->]. unfold decodePolyline.
  destruct encoded as [|c rest]; [reflexivity|]. cbn [String.length decode_loop].
  destruct (chunks (String c rest) 0 0) as [r1 rest1].
  destruct (chunks rest1 0 0) as [r2 rest2]. discriminate.
Qed.
